(** * Notetion: the run-tracking and cost-accounting ledger

    A shallow embedding of [database_manager.py] (class [DatabaseManager])
    and the properties of its token, cost, ledger, search, export and
    retention operations; then of its other queries ([get_session_details],
    [get_analytics_summary], [get_file_info]), of the nodes of
    [notetion_workflow.py] and of what [process_files] of [streamlit_app.py]
    hands from a run of the workflow to the ledger.

    Conventions of the embedding.
    - A Python [int] is a [Z]; a Python [float] is a binary64 value, taken
      from the standard library's [SpecFloat] (precision 53, [emax] 1024),
      so that the arithmetic of [estimate_cost] is the IEEE arithmetic the
      interpreter performs, rounding included.
    - A Python [str] is a [string]; [len] is [String.length].
    - A [datetime] is a [Z], a number of microseconds on the UTC time line,
      counted from the first instant of year 1, the least [datetime].
    - The three tables are lists of rows in rowid order; the autoincrement
      [id] columns are the positions in these lists and are not stored.
    - A raised exception is the [Raise] outcome of the monad [exc].
    - What lives outside the repository (SHA-256, the tiktoken encodings,
      [str.lower], date formatting, the pandas and json serialisers, the
      clock) is a field of the class [Externals]. *)

From Stdlib Require Import ZArith Bool Lia.
From Stdlib Require Import Floats.SpecFloat.
From Stdlib Require Import Strings.String Strings.Ascii.
From stdpp Require Import base decidable option list strings pretty gmap sorting.

Local Open Scope string_scope.
Local Open Scope Z_scope.

(** ** Python floats *)

Module PyFloat.

Definition prec : Z := 53.
Definition emax : Z := 1024.

Definition float : Type := spec_float.

Definition zero : float := S754_zero false.

(** The exact value of an integer, as an unrounded mantissa at exponent 0. *)
Definition of_Z (n : Z) : spec_float :=
  match n with
  | Z0 => S754_zero false
  | Zpos p => S754_finite false p 0
  | Zneg p => S754_finite true p 0
  end.

Definition mul : float -> float -> float := SFmul prec emax.
Definition add : float -> float -> float := SFadd prec emax.
Definition ltb : float -> float -> bool := SFltb.
Definition leb : float -> float -> bool := SFleb.

(** The quotient [a / b] of two integers rounded once, to nearest even. *)
Definition quotient (a b : Z) : float := SFdiv prec emax (of_Z a) (of_Z b).

(** A decimal literal [n * 10^-k] of the source text, e.g. [0.03] is
    [literal 3 2]: the binary64 value nearest to the decimal. *)
Definition literal (n : Z) (k : Z) : float := quotient n (10 ^ k).

(** An integer literal used where a float is expected ([0]). *)
Definition of_int (n : Z) : float := quotient n 1.

(** [num / den] rounded to the nearest integer, ties to the even one
    ([0 <= num], [0 < den]). *)
Definition round_half_even (num den : Z) : Z :=
  let q := num / den in
  let r := num mod den in
  match 2 * r ?= den with
  | Lt => q
  | Gt => q + 1
  | Eq => if Z.even q then q else q + 1
  end.

(** The magnitude of [m * 2^e] in units of [10^-ndigits], rounded half
    even on the exact value. *)
Definition scaled_round (m : positive) (e : Z) (ndigits : Z) : Z :=
  if 0 <=? e then Zpos m * 2 ^ e * 10 ^ ndigits
  else round_half_even (Zpos m * 10 ^ ndigits) (2 ^ (- e)).

(** The builtin [round(x, ndigits)] on a float, for the small positive
    [ndigits] of the source: the exact value of [x] is rounded half even
    to [ndigits] decimals, and the decimal obtained is converted back to
    the nearest float; infinities and NaN are returned as they are. *)
Definition round (x : float) (ndigits : Z) : float :=
  match x with
  | S754_finite s m e =>
      match scaled_round m e ndigits with
      | Z0 => S754_zero s
      | n => quotient (if s then - n else n) (10 ^ ndigits)
      end
  | _ => x
  end.

(** A float that is a number and is not below zero: a zero of either
    sign, a positive finite number or the positive infinity. *)
Definition nonneg (x : float) : bool :=
  match x with
  | S754_zero _ => true
  | S754_infinity s => negb s
  | S754_nan => false
  | S754_finite s _ _ => negb s
  end.

(** A float that is a zero or a positive finite number. *)
Definition finite_nonneg (x : float) : bool :=
  match x with
  | S754_zero _ => true
  | S754_finite s _ _ => negb s
  | _ => false
  end.

End PyFloat.

Abbreviation float := PyFloat.float.

(** ** Exceptions *)

Inductive exception : Type :=
  | KeyError (key : string)
  | OverflowError
  | ZeroDivisionError
  | IntegrityError
  | ValueError (msg : string)
  | TiktokenError.

Inductive exc (A : Type) : Type :=
  | Ok (a : A)
  | Raise (e : exception).
Arguments Ok {A} a.
Arguments Raise {A} e.

Definition bind {A B : Type} (c : exc A) (k : A -> exc B) : exc B :=
  match c with
  | Ok a => k a
  | Raise e => Raise e
  end.

Notation "'do' x <- c ; k" := (bind c (fun x => k))
  (at level 10, x name, c at level 100, k at level 200).

(** [try: body  except Exception: handler]. *)
Definition try_except {A : Type} (body handler : exc A) : exc A :=
  match body with
  | Ok a => Ok a
  | Raise _ => handler
  end.

(** The value of a computation that is known to return. *)
Definition returned {A : Type} (dflt : A) (c : exc A) : A :=
  match c with
  | Ok a => a
  | Raise _ => dflt
  end.

(** Truth value of a [str] in a condition: the empty string is false. *)
Definition truthy (s : string) : bool :=
  match s with
  | EmptyString => false
  | String _ _ => true
  end.

Definition len (s : string) : Z := Z.of_nat (String.length s).

(** [needle in hay] on strings. *)
Fixpoint str_in (needle hay : string) : bool :=
  String.prefix needle hay ||
  match hay with
  | EmptyString => false
  | String _ rest => str_in needle rest
  end.

(** ** The tables *)

Module ProcessingSession.
Record t : Type := mk {
  session_id : string;
  created_at : Z;
  model_used : string;
  temperature : float;
  total_files : Z;
  processing_time_seconds : float;
  total_input_tokens : Z;
  total_output_tokens : Z;
  estimated_cost_usd : float;
  success : bool;
  error_message : option string;
  notes_length : Z
}.
End ProcessingSession.

Module ProcessedFile.
Record t : Type := mk {
  session_id : string;
  filename : string;
  file_type : string;
  file_size_bytes : Z;
  file_hash : string;
  content_preview : option string;
  processing_success : bool;
  error_message : option string
}.
End ProcessedFile.

Module GeneratedNotes.
Record t : Type := mk {
  session_id : string;
  notes_content : string;
  notes_hash : string;
  created_at : Z
}.
End GeneratedNotes.

(** The database behind [self.session], after a commit. *)
Record database : Type := mkdb {
  processing_sessions : list ProcessingSession.t;
  processed_files : list ProcessedFile.t;
  generated_notes : list GeneratedNotes.t
}.

Definition empty_database : database := mkdb [] [] [].

(** One element of [files_info]: the dict built by [get_file_info]. The
    key ['content'] is read with [.get('content', '')], so it may be
    missing; the other keys are read with [[]] and are always there. *)
Module FileInfo.
Record t : Type := mk {
  filename : string;
  file_type : string;
  file_size : Z;
  content : option string
}.
End FileInfo.

(** The dicts returned by [get_processing_history]. *)
Module HistoryEntry.
Record t : Type := mk {
  session_id : string;
  created_at : Z;
  model_used : string;
  temperature : float;
  total_files : Z;
  processing_time_seconds : float;
  total_input_tokens : Z;
  total_output_tokens : Z;
  estimated_cost_usd : float;
  success : bool;
  notes_length : Z;
  error_message : option string
}.
End HistoryEntry.

(** The dicts returned by [search_sessions]. *)
Module SearchResult.
Record t : Type := mk {
  session_id : string;
  created_at : Z;
  model_used : string;
  temperature : float;
  total_files : Z;
  processing_time_seconds : float;
  estimated_cost_usd : float;
  success : bool;
  notes_length : Z
}.
End SearchResult.

(** One entry of [PRICING]: the prices per 1K tokens. *)
Record pricing : Type := mkpricing { input : float; output : float }.

(** The files on disk, by path. *)
Abbreviation filesystem := (gmap string string).

(** ** What the module imports *)

Class Externals : Type := {
  (** [hashlib.sha256(s.encode()).hexdigest()] *)
  sha256_hexdigest : string -> string;
  (** [tiktoken.encoding_for_model(model).encode(text)]; [None] when either
      call raises. *)
  tiktoken_encode : string -> string -> option (list Z);
  (** [str.lower] *)
  lower : string -> string;
  (** [datetime.isoformat] *)
  isoformat : Z -> string;
  (** [strftime('%Y%m%d_%H%M%S')] on the local time read at a UTC instant *)
  strftime_export : Z -> string;
  (** [pd.DataFrame(rows).to_csv(index=False)] *)
  to_csv : list HistoryEntry.t -> string;
  (** [json.dump(rows, f, indent=2, default=str)] *)
  json_dump : list HistoryEntry.t -> string;
  (** the value of [datetime.now(timezone.utc)] when the classes were
      defined: the scalar [default] of both [created_at] columns *)
  created_at_default : Z
}.

Global Instance spec_float_eq_dec : EqDecision spec_float.
Proof. solve_decision. Defined.

Global Instance ProcessingSession_eq_dec : EqDecision ProcessingSession.t.
Proof. solve_decision. Defined.

(** ** [DatabaseManager] *)

(** [d[key]] on a dict. *)
Definition getitem {V : Type} (d : gmap string V) (key : string) : exc V :=
  match d !! key with
  | Some v => Ok v
  | None => Raise (KeyError key)
  end.

(** [a / b] on two ints: the correctly rounded quotient, or [OverflowError]
    when it is too large for a float. *)
Definition truediv (a b : Z) : exc float :=
  if b =? 0 then Raise ZeroDivisionError
  else match PyFloat.quotient a b with
       | S754_infinity _ => Raise OverflowError
       | q => Ok q
       end.

(** [a // b] on two ints with [0 < b]. *)
Definition floordiv (a b : Z) : Z := a / b.

Definition PRICING : gmap string pricing :=
  <["gpt-4" := mkpricing (PyFloat.literal 3 2) (PyFloat.literal 6 2)]>
  (<["gpt-4-turbo" := mkpricing (PyFloat.literal 1 2) (PyFloat.literal 3 2)]>
  (<["gpt-3.5-turbo" := mkpricing (PyFloat.literal 15 4) (PyFloat.literal 2 3)]>
   ∅)).

Definition estimate_cost (input_tokens output_tokens : Z) (model : string)
  : exc float :=
  let model := if bool_decide (PRICING !! model = None) then "gpt-4" else model in
  do pricing <- getitem PRICING model;
  do input_thousands <- truediv input_tokens 1000;
  let input_cost := PyFloat.mul input_thousands (input pricing) in
  do output_thousands <- truediv output_tokens 1000;
  let output_cost := PyFloat.mul output_thousands (output pricing) in
  Ok (PyFloat.round (PyFloat.add input_cost output_cost) 6).

Section DatabaseManager.
Context `{ext : Externals}.

Definition generate_session_id (now : Z) : string :=
  String.substring 0 16 (sha256_hexdigest (isoformat now)).

Definition calculate_file_hash (content : string) : string :=
  sha256_hexdigest content.

(** The body of the [try] of [count_tokens]. *)
Definition tiktoken_count (text model : string) : exc Z :=
  match tiktoken_encode model text with
  | Some tokens => Ok (Z.of_nat (length tokens))
  | None => Raise TiktokenError
  end.

Definition count_tokens (text model : string) : exc Z :=
  try_except (tiktoken_count text model) (Ok (floordiv (len text) 4)).

(** [file_info.get('content', '')] *)
Definition get_content (file_info : FileInfo.t) : string :=
  default "" (FileInfo.content file_info).

(** The first loop of [start_processing_session], from the running
    total [total_input_tokens]. *)
Fixpoint sum_input_tokens (model : string) (files_info : list FileInfo.t)
    (total_input_tokens : Z) : exc Z :=
  match files_info with
  | [] => Ok total_input_tokens
  | file_info :: rest =>
      do n <- count_tokens (get_content file_info) model;
      sum_input_tokens model rest (total_input_tokens + n)
  end.

(** The row built for one file in the second loop. *)
Definition file_record (session_id : string) (file_info : FileInfo.t)
  : ProcessedFile.t :=
  let content := get_content file_info in
  {| ProcessedFile.session_id := session_id;
     ProcessedFile.filename := FileInfo.filename file_info;
     ProcessedFile.file_type := FileInfo.file_type file_info;
     ProcessedFile.file_size_bytes := FileInfo.file_size file_info;
     ProcessedFile.file_hash := calculate_file_hash content;
     ProcessedFile.content_preview :=
       if truthy content then Some (String.substring 0 500 content) else None;
     ProcessedFile.processing_success := true;
     ProcessedFile.error_message := None |}.

Definition new_session (session_id model : string) (temperature : float)
    (files_info : list FileInfo.t) (total_input_tokens : Z)
  : ProcessingSession.t :=
  {| ProcessingSession.session_id := session_id;
     ProcessingSession.created_at := created_at_default;
     ProcessingSession.model_used := model;
     ProcessingSession.temperature := temperature;
     ProcessingSession.total_files := Z.of_nat (length files_info);
     ProcessingSession.processing_time_seconds := PyFloat.of_int 0;
     ProcessingSession.total_input_tokens := total_input_tokens;
     ProcessingSession.total_output_tokens := 0;
     ProcessingSession.estimated_cost_usd := PyFloat.of_int 0;
     ProcessingSession.success := false;
     ProcessingSession.error_message := None;
     ProcessingSession.notes_length := 0 |}.

(** [query(ProcessingSession).filter_by(session_id=...).first()] *)
Definition query_session (db : database) (session_id : string)
  : option ProcessingSession.t :=
  List.find (fun s => String.eqb (ProcessingSession.session_id s) session_id)
    (processing_sessions db).

(** [now] is the clock read by [generate_session_id]. The commit inserts
    the session and its files together, and fails on the [unique]
    constraint of [session_id] without writing anything. *)
Definition start_processing_session (db : database) (now : Z)
    (model : string) (temperature : float) (files_info : list FileInfo.t)
  : exc (string * database) :=
  let session_id := generate_session_id now in
  do total_input_tokens <- sum_input_tokens model files_info 0;
  let session :=
    new_session session_id model temperature files_info total_input_tokens in
  let file_records := List.map (file_record session_id) files_info in
  match query_session db session_id with
  | Some _ => Raise IntegrityError
  | None =>
      Ok (session_id,
          {| processing_sessions := processing_sessions db ++ [session];
             processed_files := processed_files db ++ file_records;
             generated_notes := generated_notes db |})
  end.

(** The row fetched by [.first()] is the row the assignments update. *)
Fixpoint update_session (session_id : string)
    (f : ProcessingSession.t -> ProcessingSession.t)
    (rows : list ProcessingSession.t) : list ProcessingSession.t :=
  match rows with
  | [] => []
  | s :: rest =>
      if String.eqb (ProcessingSession.session_id s) session_id
      then f s :: rest
      else s :: update_session session_id f rest
  end.

Definition completed (session : ProcessingSession.t) (success : bool)
    (processing_time : float) (output_tokens : Z) (estimated_cost : float)
    (notes_content : string) (error_message : option string)
  : ProcessingSession.t :=
  {| ProcessingSession.session_id := ProcessingSession.session_id session;
     ProcessingSession.created_at := ProcessingSession.created_at session;
     ProcessingSession.model_used := ProcessingSession.model_used session;
     ProcessingSession.temperature := ProcessingSession.temperature session;
     ProcessingSession.total_files := ProcessingSession.total_files session;
     ProcessingSession.processing_time_seconds := processing_time;
     ProcessingSession.total_input_tokens :=
       ProcessingSession.total_input_tokens session;
     ProcessingSession.total_output_tokens := output_tokens;
     ProcessingSession.estimated_cost_usd := estimated_cost;
     ProcessingSession.success := success;
     ProcessingSession.error_message := error_message;
     ProcessingSession.notes_length :=
       if truthy notes_content then len notes_content else 0 |}.

Definition notes_record (session_id notes_content : string)
  : GeneratedNotes.t :=
  {| GeneratedNotes.session_id := session_id;
     GeneratedNotes.notes_content := notes_content;
     GeneratedNotes.notes_hash := calculate_file_hash notes_content;
     GeneratedNotes.created_at := created_at_default |}.

(** [count_tokens(notes_content, model) if notes_content else 0] *)
Definition output_tokens_of (notes_content model : string) : exc Z :=
  if truthy notes_content then count_tokens notes_content model else Ok 0.

(** The method returns [None] on every path: the value [tt]. *)
Definition complete_processing_session (db : database) (session_id : string)
    (success : bool) (notes_content : string) (processing_time : float)
    (error_message : option string) : exc (unit * database) :=
  match query_session db session_id with
  | None => Ok (tt, db)
  | Some session =>
      do output_tokens <-
        output_tokens_of notes_content (ProcessingSession.model_used session);
      do estimated_cost <-
        estimate_cost (ProcessingSession.total_input_tokens session)
          output_tokens (ProcessingSession.model_used session);
      let update s :=
        completed s success processing_time output_tokens estimated_cost
          notes_content error_message in
      Ok (tt,
          {| processing_sessions :=
               update_session session_id update (processing_sessions db);
             processed_files := processed_files db;
             generated_notes :=
               if success && truthy notes_content
               then generated_notes db ++ [notes_record session_id notes_content]
               else generated_notes db |})
  end.
End DatabaseManager.

(** The database once a call is over: a call that raises has written
    nothing. *)
Definition committed {A : Type} (db : database) (r : exc (A * database))
  : database :=
  match r with
  | Ok (_, db') => db'
  | Raise _ => db
  end.

(** What a call hands back to its caller: a value or an exception. *)
Definition outcome {A : Type} (r : exc (A * database)) : exc A :=
  match r with
  | Ok (a, _) => Ok a
  | Raise e => Raise e
  end.

(** ** Queries, export and retention *)

(** [ORDER BY created_at DESC]: no row comes before a newer one. *)
Definition newer_first (a b : ProcessingSession.t) : Prop :=
  ProcessingSession.created_at b <= ProcessingSession.created_at a.

Global Instance newer_first_dec a b : Decision (newer_first a b).
Proof. unfold newer_first. apply _. Defined.

Definition order_by_created_at_desc (rows : list ProcessingSession.t)
  : list ProcessingSession.t :=
  merge_sort newer_first rows.

(** [LIMIT n] of SQLite: a negative [n] puts no bound. *)
Definition limit_rows {A : Type} (n : Z) (rows : list A) : list A :=
  if n <? 0 then rows else take (Z.to_nat n) rows.

Definition history_entry (session : ProcessingSession.t) : HistoryEntry.t :=
  {| HistoryEntry.session_id := ProcessingSession.session_id session;
     HistoryEntry.created_at := ProcessingSession.created_at session;
     HistoryEntry.model_used := ProcessingSession.model_used session;
     HistoryEntry.temperature := ProcessingSession.temperature session;
     HistoryEntry.total_files := ProcessingSession.total_files session;
     HistoryEntry.processing_time_seconds :=
       ProcessingSession.processing_time_seconds session;
     HistoryEntry.total_input_tokens :=
       ProcessingSession.total_input_tokens session;
     HistoryEntry.total_output_tokens :=
       ProcessingSession.total_output_tokens session;
     HistoryEntry.estimated_cost_usd :=
       ProcessingSession.estimated_cost_usd session;
     HistoryEntry.success := ProcessingSession.success session;
     HistoryEntry.notes_length := ProcessingSession.notes_length session;
     HistoryEntry.error_message := ProcessingSession.error_message session |}.

Definition get_processing_history (db : database) (limit : Z)
  : list HistoryEntry.t :=
  List.map history_entry
    (limit_rows limit (order_by_created_at_desc (processing_sessions db))).

Definition search_result (session : ProcessingSession.t) : SearchResult.t :=
  {| SearchResult.session_id := ProcessingSession.session_id session;
     SearchResult.created_at := ProcessingSession.created_at session;
     SearchResult.model_used := ProcessingSession.model_used session;
     SearchResult.temperature := ProcessingSession.temperature session;
     SearchResult.total_files := ProcessingSession.total_files session;
     SearchResult.processing_time_seconds :=
       ProcessingSession.processing_time_seconds session;
     SearchResult.estimated_cost_usd :=
       ProcessingSession.estimated_cost_usd session;
     SearchResult.success := ProcessingSession.success session;
     SearchResult.notes_length := ProcessingSession.notes_length session |}.

(** [query(GeneratedNotes).filter_by(session_id=...).first()] *)
Definition query_notes (db : database) (session_id : string)
  : option GeneratedNotes.t :=
  List.find (fun n => String.eqb (GeneratedNotes.session_id n) session_id)
    (generated_notes db).

Definition timedelta_days (days : Z) : Z := days * 86400000000.

(** [timedelta(days=days)]: a timedelta has at most 999999999 days, either
    way. *)
Definition timedelta (days : Z) : exc Z :=
  if Z.abs days <=? 999999999 then Ok (timedelta_days days)
  else Raise OverflowError.

(** [datetime.min] and [datetime.max]: the first microsecond of year 1 and
    the last one of year 9999. *)
Definition datetime_min : Z := 0.
Definition datetime_max : Z := 3652059 * 86400000000 - 1.

(** [t - delta] on a datetime and a timedelta: the result is a datetime. *)
Definition datetime_sub (t delta : Z) : exc Z :=
  let r := t - delta in
  if (datetime_min <=? r) && (r <=? datetime_max) then Ok r
  else Raise OverflowError.

(** [self.session.delete(session)]: the row itself goes. *)
Fixpoint delete_row (session : ProcessingSession.t)
    (rows : list ProcessingSession.t) : list ProcessingSession.t :=
  match rows with
  | [] => []
  | s :: rest =>
      if decide (s = session) then rest else s :: delete_row session rest
  end.

(** The body of the loop of [cleanup_old_data]. *)
Definition delete_session (db : database) (session : ProcessingSession.t)
  : database :=
  let sid := ProcessingSession.session_id session in
  {| processing_sessions := delete_row session (processing_sessions db);
     processed_files :=
       List.filter
         (fun f => negb (String.eqb (ProcessedFile.session_id f) sid))
         (processed_files db);
     generated_notes :=
       List.filter
         (fun n => negb (String.eqb (GeneratedNotes.session_id n) sid))
         (generated_notes db) |}.

(** The query, the loop and the commit of [cleanup_old_data], once the
    cutoff is there. *)
Definition delete_older (db : database) (cutoff_date : Z) : Z * database :=
  let old_sessions :=
    List.filter (fun s => ProcessingSession.created_at s <? cutoff_date)
      (processing_sessions db) in
  (Z.of_nat (length old_sessions), fold_left delete_session old_sessions db).

(** [now] is the clock read for the cutoff. The cutoff is computed before
    the table is read: when the retention is no timedelta, or the cutoff no
    datetime, the call raises and nothing is deleted. *)
Definition cleanup_old_data (db : database) (now : Z) (days_to_keep : Z)
  : exc (Z * database) :=
  do delta <- timedelta days_to_keep;
  do cutoff_date <- datetime_sub now delta;
  Ok (delete_older db cutoff_date).

(** The id [sid] is the id of one of the sessions [old]. *)
Definition id_among (old : list ProcessingSession.t) (sid : string) : bool :=
  existsb (fun s => String.eqb sid (ProcessingSession.session_id s)) old.

Section Queries.
Context `{ext : Externals}.

(** The test applied to each session when [query] is not empty. *)
Definition notes_match (db : database) (query : string)
    (session : ProcessingSession.t) : bool :=
  match query_notes db (ProcessingSession.session_id session) with
  | Some notes => str_in (lower query) (lower (GeneratedNotes.notes_content notes))
  | None => false
  end.

(** The rows selected by [search_sessions], before they are turned into
    dicts. [start_date] and [end_date] are [None] or a datetime. *)
Definition search_rows (db : database) (query model : string)
    (start_date end_date : option Z) : list ProcessingSession.t :=
  let query_obj := processing_sessions db in
  let query_obj :=
    if truthy model
    then List.filter
           (fun s => String.eqb (ProcessingSession.model_used s) model) query_obj
    else query_obj in
  let query_obj :=
    match start_date with
    | Some d => List.filter (fun s => d <=? ProcessingSession.created_at s) query_obj
    | None => query_obj
    end in
  let query_obj :=
    match end_date with
    | Some d => List.filter (fun s => ProcessingSession.created_at s <=? d) query_obj
    | None => query_obj
    end in
  let sessions := order_by_created_at_desc query_obj in
  if truthy query
  then List.filter (notes_match db query) sessions
  else sessions.

Definition search_sessions (db : database) (query model : string)
    (start_date end_date : option Z) : list SearchResult.t :=
  List.map search_result (search_rows db query model start_date end_date).

(** [now] is the clock read for the file name. The result pairs what the
    call returns or raises with the files on disk after it: the file
    written is the only change. *)
Definition export_data (fs : filesystem) (db : database) (now : Z)
    (format : string) : exc string * filesystem :=
  let sessions := get_processing_history db 1000 in
  if String.eqb (lower format) "csv" then
    let filename := "notetion_export_" ++ strftime_export now ++ ".csv" in
    (Ok filename, <[filename := to_csv sessions]> fs)
  else if String.eqb (lower format) "json" then
    let filename := "notetion_export_" ++ strftime_export now ++ ".json" in
    (Ok filename, <[filename := json_dump sessions]> fs)
  else (Raise (ValueError "Format must be 'csv' or 'json'"), fs).

(** ** The stores the operations can build *)

(** One write of the ledger that returned. The third step is the deletion
    of a cleanup at the cutoff of any clock and any retention: a
    [cleanup_old_data] that returns is such a step. *)
Inductive step : database -> database -> Prop :=
  | step_start db now model temperature files_info sid db' :
      start_processing_session db now model temperature files_info
        = Ok (sid, db') ->
      step db db'
  | step_complete db sid success notes_content processing_time err db' :
      complete_processing_session db sid success notes_content
        processing_time err = Ok (tt, db') ->
      step db db'
  | step_cleanup db now days_to_keep n db' :
      delete_older db (now - timedelta_days days_to_keep) = (n, db') ->
      step db db'.

Inductive reachable : database -> Prop :=
  | reachable_empty : reachable empty_database
  | reachable_step db db' : reachable db -> step db db' -> reachable db'.
End Queries.

(** A file row that records no failure. *)
Definition no_failure (f : ProcessedFile.t) : Prop :=
  ProcessedFile.processing_success f = true /\
  ProcessedFile.error_message f = None.

(** ** A small instance of the externals, to run the model *)

Definition ascii_lower (c : ascii) : ascii :=
  let n := nat_of_ascii c in
  if ((65 <=? n) && (n <=? 90))%nat then ascii_of_nat (n + 32) else c.

Fixpoint string_map (f : ascii -> ascii) (s : string) : string :=
  match s with
  | EmptyString => EmptyString
  | String c rest => String (f c) (string_map f rest)
  end.

(** One token per character, and only for the model ["gpt-4"]. *)
Definition toy_encode (model text : string) : option (list Z) :=
  if String.eqb model "gpt-4"
  then Some (List.map (fun c => Z.of_nat (nat_of_ascii c)) (list_ascii_of_string text))
  else None.

Definition toy_csv (rows : list HistoryEntry.t) : string :=
  String.concat "," (List.map HistoryEntry.session_id rows).

Definition toy_externals : Externals :=
  {| sha256_hexdigest := fun s => "#" ++ s;
     tiktoken_encode := toy_encode;
     lower := string_map ascii_lower;
     isoformat := fun t => pretty t;
     strftime_export := fun t => pretty t;
     to_csv := toy_csv;
     json_dump := fun rows => "[" ++ toy_csv rows ++ "]";
     created_at_default := 0 |}.

Definition toy_files : list FileInfo.t :=
  [FileInfo.mk "a.txt" "text/plain" 11 (Some "hello world");
   FileInfo.mk "b.txt" "text/plain" 0 None].

(** One session, of id ["#5"], started and not completed. *)
Definition toy_db : database :=
  committed empty_database
    (start_processing_session (ext := toy_externals) empty_database 5 "gpt-4"
       (PyFloat.literal 3 1) toy_files).

Definition day : Z := 86400000000.

Definition toy_session (sid : string) (created : Z) (model : string)
  : ProcessingSession.t :=
  {| ProcessingSession.session_id := sid;
     ProcessingSession.created_at := created;
     ProcessingSession.model_used := model;
     ProcessingSession.temperature := PyFloat.literal 3 1;
     ProcessingSession.total_files := 1;
     ProcessingSession.processing_time_seconds := PyFloat.literal 15 1;
     ProcessingSession.total_input_tokens := 11;
     ProcessingSession.total_output_tokens := 5;
     ProcessingSession.estimated_cost_usd := PyFloat.literal 63 5;
     ProcessingSession.success := true;
     ProcessingSession.error_message := None;
     ProcessingSession.notes_length := 5 |}.

Definition toy_file (sid name : string) : ProcessedFile.t :=
  {| ProcessedFile.session_id := sid;
     ProcessedFile.filename := name;
     ProcessedFile.file_type := "text/plain";
     ProcessedFile.file_size_bytes := 11;
     ProcessedFile.file_hash := "#hello world";
     ProcessedFile.content_preview := Some "hello world";
     ProcessedFile.processing_success := true;
     ProcessedFile.error_message := None |}.

Definition toy_note (sid content : string) : GeneratedNotes.t :=
  {| GeneratedNotes.session_id := sid;
     GeneratedNotes.notes_content := content;
     GeneratedNotes.notes_hash := "#" ++ content;
     GeneratedNotes.created_at := 0 |}.

(** Three sessions, created on days 1, 50 and 70. *)
Definition toy_history : database :=
  {| processing_sessions :=
       [toy_session "s-old" (1 * day) "gpt-4";
        toy_session "s-mid" (50 * day) "gpt-3.5-turbo";
        toy_session "s-new" (70 * day) "gpt-4"];
     processed_files :=
       [toy_file "s-old" "a.txt"; toy_file "s-mid" "b.txt";
        toy_file "s-new" "c.txt"];
     generated_notes :=
       [toy_note "s-old" "Alpha notes"; toy_note "s-new" "Gamma NOTES"] |}.

(** The session ["#5"] completed twice with success: it has two notes. *)
Definition toy_twice : database :=
  committed
    (committed toy_db
       (complete_processing_session (ext := toy_externals) toy_db "#5" true
          "first draft" (PyFloat.literal 15 1) None))
    (complete_processing_session (ext := toy_externals)
       (committed toy_db
          (complete_processing_session (ext := toy_externals) toy_db "#5" true
             "first draft" (PyFloat.literal 15 1) None))
       "#5" true "Beta notes" (PyFloat.literal 25 1) None).

(** ** The other queries of [DatabaseManager] *)

(** One element of the list ['files'] returned by [get_session_details]. *)
Module FileEntry.
Record t : Type := mk {
  filename : string;
  file_type : string;
  file_size_bytes : Z;
  content_preview : option string;
  processing_success : bool;
  error_message : option string
}.
End FileEntry.

(** The dict returned by [get_session_details]; the dict under
    ['session'] has the keys of a history dict. *)
Module SessionDetails.
Record t : Type := mk {
  session : HistoryEntry.t;
  files : list FileEntry.t;
  notes : option string
}.
End SessionDetails.

Definition file_entry (f : ProcessedFile.t) : FileEntry.t :=
  {| FileEntry.filename := ProcessedFile.filename f;
     FileEntry.file_type := ProcessedFile.file_type f;
     FileEntry.file_size_bytes := ProcessedFile.file_size_bytes f;
     FileEntry.content_preview := ProcessedFile.content_preview f;
     FileEntry.processing_success := ProcessedFile.processing_success f;
     FileEntry.error_message := ProcessedFile.error_message f |}.

(** [query(ProcessedFile).filter_by(session_id=...).all()] *)
Definition query_files (db : database) (session_id : string)
  : list ProcessedFile.t :=
  List.filter (fun f => String.eqb (ProcessedFile.session_id f) session_id)
    (processed_files db).

(** [None] is the [None] of the source: no such session. *)
Definition get_session_details (db : database) (session_id : string)
  : option SessionDetails.t :=
  match query_session db session_id with
  | None => None
  | Some session =>
      let files := query_files db session_id in
      let notes := query_notes db session_id in
      Some {| SessionDetails.session := history_entry session;
              SessionDetails.files := List.map file_entry files;
              SessionDetails.notes :=
                match notes with
                | Some n => Some (GeneratedNotes.notes_content n)
                | None => None
                end |}
  end.

(** The columns of a session that [start_processing_session] sets and
    that [complete_processing_session] does not assign. *)
Definition started_columns (s : ProcessingSession.t)
  : string * Z * string * float * Z * Z :=
  (ProcessingSession.session_id s, ProcessingSession.created_at s,
   ProcessingSession.model_used s, ProcessingSession.temperature s,
   ProcessingSession.total_files s, ProcessingSession.total_input_tokens s).

(** ** [get_analytics_summary] *)

(** A value that is an [int] or a [float]: what [sum], [round] and the
    conditional expressions of [get_analytics_summary] give. *)
Inductive number : Type :=
  | Int (n : Z)
  | Float (x : float).

(** Truth value of a number in a condition: a zero is false, anything
    else, NaN included, is true. *)
Definition float_truthy (x : float) : bool :=
  match x with
  | S754_zero _ => false
  | _ => true
  end.

Definition int_truthy (n : Z) : bool := negb (n =? 0).

(** The conversion of an int operand to a float: the nearest float, or
    [OverflowError] when the int is too large. *)
Definition float_of_int (n : Z) : exc float :=
  match PyFloat.of_int n with
  | S754_infinity _ => Raise OverflowError
  | x => Ok x
  end.

(** [x / y] on two floats. *)
Definition float_truediv (x y : float) : exc float :=
  match y with
  | S754_zero _ => Raise ZeroDivisionError
  | _ => Ok (SFdiv PyFloat.prec PyFloat.emax x y)
  end.

(** [a / b] where [b] is an int: an int [a] is divided as an int, a float
    [a] by the float of [b]. *)
Definition number_truediv_int (a : number) (b : Z) : exc float :=
  match a with
  | Int n => truediv n b
  | Float x => do y <- float_of_int b; float_truediv x y
  end.

(** [round(a, ndigits)] with [0 <= ndigits]: an int is returned as it is. *)
Definition round_number (a : number) (ndigits : Z) : number :=
  match a with
  | Int n => Int n
  | Float x => Float (PyFloat.round x ndigits)
  end.

(** [sum(xs)] on a list of ints. *)
Definition sum_ints (xs : list Z) : Z := fold_left Z.add xs 0.

(** The loop that counts the sessions of each model. *)
Definition count_model_usage (models : list string) : gmap string Z :=
  fold_left
    (fun model_usage model_name =>
       <[model_name := default 0 (model_usage !! model_name) + 1]> model_usage)
    models ∅.

(** The dict returned by [get_analytics_summary]. *)
Module AnalyticsSummary.
Record t : Type := mk {
  total_sessions : Z;
  successful_sessions : Z;
  success_rate : number;
  total_cost_usd : number;
  total_input_tokens : Z;
  total_output_tokens : Z;
  avg_processing_time_seconds : number;
  model_usage : gmap string Z
}.
End AnalyticsSummary.

Section Analytics.
(** [sum(xs)] on a list of floats that is not empty: the float sum of the
    interpreter, whose rounding depends on its version. *)
Variable float_sum : list float -> float.

(** [sum(xs)] on a list of floats: the int [0] of the start value when
    the list is empty. *)
Definition sum_floats (xs : list float) : number :=
  match xs with
  | [] => Int 0
  | _ => Float (float_sum xs)
  end.

Definition get_analytics_summary (db : database) : exc AnalyticsSummary.t :=
  let sessions := processing_sessions db in
  let total_sessions := Z.of_nat (length sessions) in
  let successful_sessions :=
    Z.of_nat (length (List.filter ProcessingSession.success sessions)) in
  let total_cost := List.map ProcessingSession.estimated_cost_usd sessions in
  let total_cost_sum := sum_floats (List.filter float_truthy total_cost) in
  let total_input_tokens :=
    List.map ProcessingSession.total_input_tokens sessions in
  let total_output_tokens :=
    List.map ProcessingSession.total_output_tokens sessions in
  let total_input_sum := sum_ints (List.filter int_truthy total_input_tokens) in
  let total_output_sum := sum_ints (List.filter int_truthy total_output_tokens) in
  let processing_times :=
    List.map ProcessingSession.processing_time_seconds sessions in
  do avg_processing_time <-
    match processing_times with
    | [] => Ok (Int 0)
    | _ =>
        do q <- number_truediv_int
                  (sum_floats (List.filter float_truthy processing_times))
                  (Z.of_nat (length processing_times));
        Ok (Float q)
    end;
  let model_usage :=
    count_model_usage (List.map ProcessingSession.model_used sessions) in
  do success_rate <-
    (if 0 <? total_sessions
     then do q <- truediv successful_sessions total_sessions;
          Ok (Float (PyFloat.mul q (PyFloat.of_int 100)))
     else Ok (Int 0));
  Ok {| AnalyticsSummary.total_sessions := total_sessions;
        AnalyticsSummary.successful_sessions := successful_sessions;
        AnalyticsSummary.success_rate := success_rate;
        AnalyticsSummary.total_cost_usd := round_number total_cost_sum 4;
        AnalyticsSummary.total_input_tokens := total_input_sum;
        AnalyticsSummary.total_output_tokens := total_output_sum;
        AnalyticsSummary.avg_processing_time_seconds :=
          round_number avg_processing_time 2;
        AnalyticsSummary.model_usage := model_usage |}.
End Analytics.

(** A float sum to run the model with: the additions from left to right,
    from [0.0]. *)
Definition toy_sum (xs : list float) : float :=
  fold_left PyFloat.add xs PyFloat.zero.

(** ** [get_file_info] *)

(** What [get_file_info] reads of a Streamlit uploaded file: [name],
    [type] (the MIME type, empty when the browser gave none), [size] and
    the bytes of [getvalue()]. *)
Module UploadedFile.
Record t : Type := mk {
  name : string;
  type : string;
  size : Z;
  value : list Byte.byte
}.
End UploadedFile.

(** [s.split(sep)] for a separator of one character. *)
Fixpoint split (sep : ascii) (s : string) : list string :=
  match s with
  | EmptyString => [EmptyString]
  | String c rest =>
      if Ascii.eqb c sep then EmptyString :: split sep rest
      else match split sep rest with
           | [] => [String c EmptyString]
           | word :: words => String c word :: words
           end
  end.

Section GetFileInfo.
(** [b.decode('utf-8')]; [None] when it raises [UnicodeDecodeError]. *)
Variable decode_utf8 : list Byte.byte -> option string.
(** [str(b)] on bytes. *)
Variable str_bytes : list Byte.byte -> string.

(** [None] when the decoding raises. *)
Definition get_file_info (uploaded_file : UploadedFile.t)
  : option FileInfo.t :=
  let file_type :=
    if truthy (UploadedFile.type uploaded_file)
    then UploadedFile.type uploaded_file
    else List.last (split "." (UploadedFile.name uploaded_file)) "" in
  let content :=
    if String.eqb (UploadedFile.type uploaded_file) "text/plain"
    then decode_utf8 (UploadedFile.value uploaded_file)
    else Some (str_bytes (UploadedFile.value uploaded_file)) in
  match content with
  | Some content =>
      Some {| FileInfo.filename := UploadedFile.name uploaded_file;
              FileInfo.file_type := file_type;
              FileInfo.file_size := UploadedFile.size uploaded_file;
              FileInfo.content := Some content |}
  | None => None
  end.
End GetFileInfo.

(** A decoder to run the model with: ASCII only. *)
Definition toy_decode (b : list Byte.byte) : option string :=
  if forallb (fun x => (Byte.to_nat x <? 128)%nat) b
  then Some (string_of_list_byte b)
  else None.

(** * The workflow ([notetion_workflow.py])

    The three nodes of [NotetionWorkflow] and [run]. What they call
    outside the repository (the file system, PyPDF2, [json], the chat
    model) is a field of the class [Library]; a call that raises gives
    [Raises]. *)

Module Workflow.

(** The exceptions that the nodes raise or catch; of an exception raised
    by a library only [str(e)] is read. *)
Inductive exception : Type :=
  | FileNotFoundError (msg : string)
  | ValueError (msg : string)
  | LibraryError (str_e : string).

(** [str(e)] *)
Definition str (e : exception) : string :=
  match e with
  | FileNotFoundError msg => msg
  | ValueError msg => msg
  | LibraryError str_e => str_e
  end.

Inductive result (A : Type) : Type :=
  | Returns (a : A)
  | Raises (e : exception).
Arguments Returns {A} a.
Arguments Raises {A} e.

(** The newline of the string literals. *)
Definition nl : string := String "010"%char EmptyString.

(** [s * n] *)
Fixpoint str_mul (s : string) (n : nat) : string :=
  match n with
  | O => ""
  | S n => s ++ str_mul s n
  end.

(** A [dict] from [str] to [str], in insertion order. *)
Definition dict : Type := list (string * string).

(** [d[key] = value]: a key that is there keeps its place. *)
Fixpoint setitem (d : dict) (key value : string) : dict :=
  match d with
  | [] => [(key, value)]
  | (k, v) :: rest =>
      if String.eqb k key then (k, value) :: rest
      else (k, v) :: setitem rest key value
  end.

Module WorkflowState.
Record t : Type := mk {
  input_files : list string;
  file_contents : dict;
  processed_content : string;
  comprehensive_notes : string;
  error_messages : list string
}.
End WorkflowState.

Class Library : Type := {
  (** [Path(p).exists()] *)
  path_exists : string -> bool;
  (** [Path(p).suffix] *)
  path_suffix : string -> string;
  (** [str(Path(p))] *)
  path_str : string -> string;
  (** [open(p, 'r', encoding='utf-8').read()] *)
  read_text : string -> result string;
  (** the [extract_text()] of the pages of [PyPDF2.PdfReader(open(p, 'rb'))],
      in order; [Raises] when the file, the reader or a page raises *)
  pdf_page_texts : string -> result (list string);
  (** [json.dumps(json.load(open(p, 'r', encoding='utf-8')), indent=2)] *)
  json_reformat : string -> result string;
  (** [self.llm.invoke([SystemMessage(system), HumanMessage(user)]).content] *)
  llm_invoke : string -> string -> result string;
  (** the text bound to [system_prompt] in [generate_notes] *)
  system_prompt : string
}.

Section Nodes.
Context `{ext : Externals} `{library : Library}.

Definition _read_txt_file (file_path : string) : result string :=
  read_text file_path.

(** The loop over the pages, from the text read so far. *)
Definition _read_pdf_file (file_path : string) : result string :=
  match pdf_page_texts file_path with
  | Returns pages =>
      Returns (fold_left (fun text page => text ++ (page ++ nl)) pages "")
  | Raises e => Raises e
  end.

Definition _read_json_file (file_path : string) : result string :=
  json_reformat file_path.

Definition _extract_file_content (file_path : string) : result string :=
  if negb (path_exists file_path)
  then Raises (FileNotFoundError ("File not found: " ++ path_str file_path))
  else if String.eqb (lower (path_suffix file_path)) ".txt"
  then _read_txt_file file_path
  else if String.eqb (lower (path_suffix file_path)) ".pdf"
  then _read_pdf_file file_path
  else if String.eqb (lower (path_suffix file_path)) ".json"
  then _read_json_file file_path
  else Raises (ValueError ("Unsupported file type: " ++ path_suffix file_path)).

(** One turn of the loop of [read_files], on the dict, the list of
    messages and the lines printed so far. *)
Definition read_file (acc : dict * list string * list string)
    (file_path : string) : dict * list string * list string :=
  let '(file_contents, error_messages, stdout) := acc in
  match _extract_file_content file_path with
  | Returns content =>
      (setitem file_contents file_path content, error_messages, stdout)
  | Raises e =>
      let error_msg := "Error reading " ++ file_path ++ ": " ++ str e in
      (file_contents, (error_messages ++ [error_msg])%list,
       (stdout ++ [error_msg])%list)
  end.

(** The state returned and the lines printed. The list under
    ["error_messages"] is appended to in place: the state returned holds
    that list. *)
Definition read_files (state : WorkflowState.t)
  : WorkflowState.t * list string :=
  let '(file_contents, error_messages, stdout) :=
    fold_left read_file (WorkflowState.input_files state)
      ([], WorkflowState.error_messages state, []) in
  ({| WorkflowState.input_files := WorkflowState.input_files state;
      WorkflowState.file_contents := file_contents;
      WorkflowState.processed_content := WorkflowState.processed_content state;
      WorkflowState.comprehensive_notes :=
        WorkflowState.comprehensive_notes state;
      WorkflowState.error_messages := error_messages |},
   stdout).

(** One turn of the loop of [process_content]. *)
Definition add_file (combined_content : string) (item : string * string)
  : string :=
  let '(file_path, content) := item in
  let combined_content := combined_content ++ (nl ++ str_mul "=" 50 ++ nl) in
  let combined_content := combined_content ++ ("FILE: " ++ file_path ++ nl) in
  let combined_content := combined_content ++ (str_mul "=" 50 ++ nl) in
  combined_content ++ (content ++ nl).

Definition process_content (state : WorkflowState.t) : WorkflowState.t :=
  let combined_content :=
    fold_left add_file (WorkflowState.file_contents state) "" in
  {| WorkflowState.input_files := WorkflowState.input_files state;
     WorkflowState.file_contents := WorkflowState.file_contents state;
     WorkflowState.processed_content := combined_content;
     WorkflowState.comprehensive_notes :=
       WorkflowState.comprehensive_notes state;
     WorkflowState.error_messages := WorkflowState.error_messages state |}.

Definition user_prompt (processed_content : string) : string :=
  nl ++ "        Please create comprehensive bullet-format notes from the following content:"
     ++ nl ++ "        "
     ++ nl ++ "        " ++ processed_content
     ++ nl ++ "        ".

Definition generate_notes (state : WorkflowState.t) : WorkflowState.t :=
  match llm_invoke system_prompt
          (user_prompt (WorkflowState.processed_content state)) with
  | Returns content =>
      {| WorkflowState.input_files := WorkflowState.input_files state;
         WorkflowState.file_contents := WorkflowState.file_contents state;
         WorkflowState.processed_content :=
           WorkflowState.processed_content state;
         WorkflowState.comprehensive_notes := content;
         WorkflowState.error_messages := WorkflowState.error_messages state |}
  | Raises e =>
      let error_msg := "Error generating notes: " ++ str e in
      {| WorkflowState.input_files := WorkflowState.input_files state;
         WorkflowState.file_contents := WorkflowState.file_contents state;
         WorkflowState.processed_content :=
           WorkflowState.processed_content state;
         WorkflowState.comprehensive_notes :=
           "Failed to generate notes due to error: " ++ error_msg;
         WorkflowState.error_messages :=
           (WorkflowState.error_messages state ++ [error_msg])%list |}
  end.

(** The graph of [_build_workflow] is the chain [file_reader],
    [content_processor], [note_generator]; each node returns the whole
    state, which is the state of the next one. *)
Definition run (input_files : list string) : WorkflowState.t :=
  let initial_state :=
    {| WorkflowState.input_files := input_files;
       WorkflowState.file_contents := [];
       WorkflowState.processed_content := "";
       WorkflowState.comprehensive_notes := "";
       WorkflowState.error_messages := [] |} in
  generate_notes (process_content (fst (read_files initial_state))).

(** The message that [read_files] records for a path: none for a path
    that is read. *)
Definition read_error (file_path : string) : option string :=
  match _extract_file_content file_path with
  | Returns _ => None
  | Raises e => Some ("Error reading " ++ file_path ++ ": " ++ str e)
  end.

(** The item that [read_files] stores for a path: none for a path that
    cannot be read. *)
Definition read_item (file_path : string) : option (string * string) :=
  match _extract_file_content file_path with
  | Returns content => Some (file_path, content)
  | Raises _ => None
  end.
End Nodes.

(** What [process_files] of [streamlit_app.py] hands to
    [complete_processing_session] after a run: [success], [notes_content]
    and [error_message]. *)
Definition completion_of (result : WorkflowState.t)
  : bool * string * option string :=
  let error_messages := WorkflowState.error_messages result in
  (match error_messages with [] => true | _ => false end,
   WorkflowState.comprehensive_notes result,
   match error_messages with
   | [] => None
   | _ => Some (String.concat "; " error_messages)
   end).

(** The part of a name from its last dot. *)
Fixpoint toy_suffix (p : string) : string :=
  match p with
  | EmptyString => ""
  | String c rest =>
      match toy_suffix rest with
      | EmptyString => if Ascii.eqb c "." then p else ""
      | suffix => suffix
      end
  end.

(** A library to run the model with: two files on disk, one of them a
    PDF of two pages, and a chat model that fails on a prompt longer than
    300 characters. *)
Definition toy_library : Library :=
  {| path_exists := fun p => String.eqb p "a.txt" || String.eqb p "b.PDF"
                             || String.eqb p "c.doc";
     path_suffix := toy_suffix;
     path_str := fun p => p;
     read_text := fun p => Returns "hello";
     pdf_page_texts := fun p => Returns ["one"; "two"];
     json_reformat := fun p => Raises (LibraryError "Expecting value");
     llm_invoke := fun system user =>
       if (300 <? String.length user)%nat
       then Raises (LibraryError "context length exceeded")
       else Returns "# Notes";
     system_prompt := "You are an expert note-taker." |}.

End Workflow.

(** * Properties *)

(** ** The float arithmetic *)

Section FloatFacts.
Import PyFloat.

Lemma digits2_pos_bounds (p : positive) :
  2 ^ (Zpos (digits2_pos p) - 1) <= Zpos p < 2 ^ Zpos (digits2_pos p).
Proof.
  induction p as [p IH | p IH |]; cbn [digits2_pos].
  - rewrite Pos2Z.inj_succ, (Pos2Z.inj_xI p).
    replace (Z.succ (Zpos (digits2_pos p)) - 1)
      with (Z.succ (Zpos (digits2_pos p) - 1)) by lia.
    rewrite !Z.pow_succ_r by lia.
    revert IH. generalize (2 ^ (Zpos (digits2_pos p) - 1)).
    generalize (2 ^ Zpos (digits2_pos p)). intros; lia.
  - rewrite Pos2Z.inj_succ, (Pos2Z.inj_xO p).
    replace (Z.succ (Zpos (digits2_pos p)) - 1)
      with (Z.succ (Zpos (digits2_pos p) - 1)) by lia.
    rewrite !Z.pow_succ_r by lia.
    revert IH. generalize (2 ^ (Zpos (digits2_pos p) - 1)).
    generalize (2 ^ Zpos (digits2_pos p)). intros; lia.
  - simpl. lia.
Qed.

Lemma Zdigits2_nonneg (m : Z) : 0 <= Zdigits2 m.
Proof. destruct m; simpl; lia. Qed.

Lemma Zdigits2_le (m k : Z) : 0 <= m < 2 ^ k -> 0 <= k -> Zdigits2 m <= k.
Proof.
  intros [Hm Hlt] Hk. destruct m as [|p|p]; simpl; try lia.
  destruct (digits2_pos_bounds p) as [Hlo _].
  destruct (Z_le_gt_dec (Zpos (digits2_pos p)) k) as [|Hgt]; [assumption|].
  exfalso. assert (2 ^ k <= 2 ^ (Zpos (digits2_pos p) - 1)) by (apply Z.pow_le_mono_r; lia).
  lia.
Qed.

Lemma Zdigits2_lt (m : Z) : 0 <= m -> m < 2 ^ Zdigits2 m.
Proof.
  intros Hm. destruct m as [|p|p]; simpl; try lia.
  apply digits2_pos_bounds.
Qed.

Lemma shr_1_m (mrs : shr_record) :
  0 <= shr_m mrs -> shr_m (shr_1 mrs) = shr_m mrs / 2.
Proof.
  destruct mrs as [m r s]. cbn [shr_m]. intros Hm.
  rewrite <- Z.div2_div.
  destruct m as [|[p|p|]|p]; try reflexivity. lia.
Qed.

Lemma iter_shr_1_m (n : positive) :
  forall mrs, 0 <= shr_m mrs ->
    shr_m (SpecFloat.iter_pos shr_1 n mrs) = shr_m mrs / 2 ^ Zpos n.
Proof.
  induction n as [n IH | n IH |]; intros mrs Hm; cbn [SpecFloat.iter_pos].
  - assert (H1 : 0 <= shr_m (shr_1 mrs)) by (rewrite shr_1_m by lia; apply Z.div_pos; lia).
    assert (H2 : 0 <= shr_m (SpecFloat.iter_pos shr_1 n (shr_1 mrs)))
      by (rewrite IH by lia; apply Z.div_pos; lia).
    rewrite IH, IH, shr_1_m by lia.
    rewrite !Z.div_div by lia. f_equal.
    rewrite Pos2Z.inj_xI, <- Z.pow_add_r, <- (Z.pow_1_r 2) at 1 by lia.
    rewrite <- Z.pow_add_r by lia. f_equal. lia.
  - assert (H2 : 0 <= shr_m (SpecFloat.iter_pos shr_1 n mrs))
      by (rewrite IH by lia; apply Z.div_pos; lia).
    rewrite IH, IH by lia.
    rewrite !Z.div_div by lia. f_equal.
    rewrite Pos2Z.inj_xO, <- Z.pow_add_r by lia. f_equal. lia.
  - rewrite shr_1_m by lia. reflexivity.
Qed.

Lemma fexp_eq (x : Z) : fexp prec emax x = Z.max (x - 53) (-1074).
Proof. reflexivity. Qed.

Lemma shr_record_of_loc_m (m : Z) (l : location) :
  shr_m (shr_record_of_loc m l) = m.
Proof. destruct l as [|[]]; reflexivity. Qed.

(** The first component of [shr_fexp]: the mantissa is shifted to the
    exponent [fexp], when that is above the exponent given. *)
Lemma shr_fexp_spec (m e : Z) (l : location) :
  0 <= m ->
  let e1 := Z.max e (fexp prec emax (Zdigits2 m + e)) in
  snd (shr_fexp prec emax m e l) = e1 /\
  shr_m (fst (shr_fexp prec emax m e l)) = m / 2 ^ (e1 - e).
Proof.
  intros Hm e1. unfold shr_fexp, shr.
  destruct (fexp prec emax (Zdigits2 m + e) - e) as [|n|n] eqn:Hn; cbn [fst snd].
  - replace (e1 - e) with 0 by lia. rewrite shr_record_of_loc_m, Z.pow_0_r, Z.div_1_r.
    split; [lia | reflexivity].
  - rewrite iter_shr_1_m by (rewrite shr_record_of_loc_m; lia).
    rewrite shr_record_of_loc_m. replace (e1 - e) with (Zpos n) by lia.
    split; [lia | reflexivity].
  - replace (e1 - e) with 0 by lia. rewrite shr_record_of_loc_m, Z.pow_0_r, Z.div_1_r.
    split; [lia | reflexivity].
Qed.

Lemma round_nearest_even_bounds (m : Z) (l : location) :
  m <= round_nearest_even m l <= m + 1.
Proof. destruct l as [|[]]; cbn; try destruct (Z.even m); lia. Qed.

Lemma div_pow2_digits (m k d : Z) :
  0 <= m -> 0 <= k -> Zdigits2 m <= d -> m / 2 ^ k + 1 <= 2 ^ Z.max 0 (d - k).
Proof.
  intros Hm Hk Hd.
  assert (Hlt : m < 2 ^ d).
  { eapply Z.lt_le_trans; [apply Zdigits2_lt; lia|].
    apply Z.pow_le_mono_r; lia. }
  assert (0 <= d) by (pose proof (Zdigits2_nonneg m); lia).
  destruct (Z_le_gt_dec k d) as [Hkd|Hkd].
  - replace (Z.max 0 (d - k)) with (d - k) by lia.
    assert (m / 2 ^ k < 2 ^ (d - k)); [|lia].
    apply Z.div_lt_upper_bound; [lia|].
    rewrite <- Z.pow_add_r by lia. replace (k + (d - k)) with d by lia. lia.
  - replace (Z.max 0 (d - k)) with 0 by lia. rewrite Z.pow_0_r.
    assert (m / 2 ^ k = 0); [|lia].
    apply Z.div_small. split; [lia|].
    eapply Z.lt_le_trans; [exact Hlt|]. apply Z.pow_le_mono_r; lia.
Qed.

Lemma binary_round_aux_nonneg (m e : Z) (l : location) :
  0 <= m -> nonneg (binary_round_aux prec emax false m e l) = true.
Proof.
  intros Hm. unfold binary_round_aux.
  destruct (shr_fexp_spec m e l Hm) as [_ H1].
  destruct (shr_fexp prec emax m e l) as [mrs1 e1]. cbn [fst snd] in H1.
  set (m1 := round_nearest_even (shr_m mrs1) (loc_of_shr_record mrs1)).
  assert (Hm1 : 0 <= m1).
  { pose proof (round_nearest_even_bounds (shr_m mrs1) (loc_of_shr_record mrs1)).
    assert (0 <= shr_m mrs1) by (rewrite H1; apply Z.div_pos; lia).
    unfold m1; lia. }
  destruct (shr_fexp_spec m1 e1 loc_Exact Hm1) as [_ H2].
  destruct (shr_fexp prec emax m1 e1 loc_Exact) as [mrs2 e2]. cbn [fst snd] in H2.
  assert (0 <= shr_m mrs2) by (rewrite H2; apply Z.div_pos; lia).
  destruct (shr_m mrs2); try reflexivity; [|lia].
  destruct (e2 <=? emax - prec); reflexivity.
Qed.

Lemma binary_round_aux_finite (m e : Z) (l : location) :
  0 <= m -> e <= 971 -> Zdigits2 m + e <= 1023 ->
  finite_nonneg (binary_round_aux prec emax false m e l) = true.
Proof.
  intros Hm He Hd. unfold binary_round_aux.
  destruct (shr_fexp_spec m e l Hm) as [E1 H1].
  destruct (shr_fexp prec emax m e l) as [mrs1 e1]. cbn [fst snd] in E1, H1.
  rewrite <- E1 in H1.
  set (m1 := round_nearest_even (shr_m mrs1) (loc_of_shr_record mrs1)).
  pose proof (round_nearest_even_bounds (shr_m mrs1) (loc_of_shr_record mrs1)) as Hr.
  fold m1 in Hr.
  assert (Hs1 : 0 <= shr_m mrs1) by (rewrite H1; apply Z.div_pos; lia).
  assert (Hm1 : 0 <= m1) by lia.
  pose proof (Zdigits2_nonneg m) as Hdn.
  rewrite fexp_eq in E1.
  assert (Hd1 : Zdigits2 m1 + e1 <= 1024).
  { assert (Hk : 0 <= e1 - e) by lia.
    pose proof (div_pow2_digits m (e1 - e) (Zdigits2 m) Hm Hk (Z.le_refl _)) as Hb.
    rewrite <- H1 in Hb.
    destruct (Z.eq_dec m1 (2 ^ Z.max 0 (Zdigits2 m - (e1 - e)))) as [Heq|Hne].
    - assert (Zdigits2 m1 <= Z.max 0 (Zdigits2 m - (e1 - e)) + 1); [|lia].
      apply Zdigits2_le; [|lia]. split; [lia|].
      rewrite Heq, Z.pow_add_r, Z.pow_1_r by lia.
      assert (0 < 2 ^ Z.max 0 (Zdigits2 m - (e1 - e))) by (apply Z.pow_pos_nonneg; lia).
      lia.
    - assert (Zdigits2 m1 <= Z.max 0 (Zdigits2 m - (e1 - e))); [|lia].
      apply Zdigits2_le; lia. }
  destruct (shr_fexp_spec m1 e1 loc_Exact Hm1) as [E2 H2].
  destruct (shr_fexp prec emax m1 e1 loc_Exact) as [mrs2 e2]. cbn [fst snd] in E2, H2.
  rewrite <- E2 in H2. rewrite fexp_eq in E2.
  assert (0 <= shr_m mrs2) by (rewrite H2; apply Z.div_pos; lia).
  destruct (shr_m mrs2); try reflexivity; [|lia].
  replace (e2 <=? emax - prec) with true; [reflexivity|].
  symmetry. apply Z.leb_le. unfold emax, prec. lia.
Qed.

Lemma div_eucl_fst (a b : Z) : fst (Z.div_eucl a b) = a / b.
Proof. unfold Z.div. destruct (Z.div_eucl a b); reflexivity. Qed.

(** The mantissa handed to the rounding by the division. *)
Lemma SFdiv_core_binary_fst (m1 e1 m2 e2 : Z) :
  0 <= m1 -> 0 < m2 ->
  0 <= fst (fst (SFdiv_core_binary prec emax m1 e1 m2 e2)).
Proof.
  intros H1 H2. unfold SFdiv_core_binary.
  set (s := e1 - e2 - _).
  set (m' := match s with Z0 => m1 | Zpos _ => Z.shiftl m1 s | Zneg _ => 0 end).
  assert (0 <= m').
  { unfold m'. destruct s; try lia. apply Z.shiftl_nonneg. lia. }
  pose proof (div_eucl_fst m' m2) as Hq.
  destruct (Z.div_eucl m' m2) as [q r]. cbn [fst] in *.
  subst q. apply Z.div_pos; lia.
Qed.

Lemma quotient_nonneg (n d : Z) :
  0 <= n -> 0 < d -> nonneg (quotient n d) = true.
Proof.
  intros Hn Hd. unfold quotient.
  destruct d as [|d|d]; try lia.
  destruct n as [|n|n]; try lia; [reflexivity|].
  cbn [of_Z SFdiv xorb].
  pose proof (SFdiv_core_binary_fst (Zpos n) 0 (Zpos d) 0) as Hq.
  destruct (SFdiv_core_binary prec emax (Zpos n) 0 (Zpos d) 0) as [[mz ez] lz].
  apply binary_round_aux_nonneg. apply Hq; lia.
Qed.

(** Dividing a count below [2^1032] by [1000] does not overflow. *)
Lemma quotient_1000_finite (n : Z) :
  0 <= n < 2 ^ 1032 -> finite_nonneg (quotient n 1000) = true.
Proof.
  intros [Hn Hlt]. unfold quotient.
  destruct n as [|n|n]; try lia; [reflexivity|].
  cbn [of_Z SFdiv xorb].
  unfold SFdiv_core_binary.
  change (Zdigits2 1000) with 10.
  set (d1 := Zdigits2 (Zpos n)).
  assert (Hd1 : 1 <= d1 <= 1032).
  { split; [unfold d1; simpl; lia|]. apply Zdigits2_le; lia. }
  pose proof (Zdigits2_lt (Zpos n) ltac:(lia)) as Hnlt. fold d1 in Hnlt.
  rewrite fexp_eq.
  set (e' := Z.min (Z.max (d1 + 0 - (10 + 0) - 53) (-1074)) (0 - 0)).
  set (s := 0 - 0 - e').
  assert (Hs : 0 <= s /\ 9 <= d1 + s /\ e' = - s) by (unfold s, e'; lia).
  set (m' := match s with Z0 => Zpos n | Zpos _ => Z.shiftl (Zpos n) s | Zneg _ => 0 end).
  assert (Hm' : m' = Zpos n * 2 ^ s).
  { unfold m'. clearbody s.
    destruct s; cbn beta iota; [lia | apply Z.shiftl_mul_pow2; lia | lia]. }
  pose proof (div_eucl_fst m' 1000) as Hq.
  destruct (Z.div_eucl m' 1000) as [q r]. cbn [fst] in Hq.
  assert (Hm'lt : 0 <= m' < 2 ^ (d1 + s)).
  { rewrite Hm', Z.pow_add_r by lia.
    assert (0 < 2 ^ s) by (apply Z.pow_pos_nonneg; lia).
    split; [lia|]. apply Z.mul_lt_mono_pos_r; lia. }
  assert (Hqb : 0 <= q < 2 ^ (d1 + s - 9)).
  { subst q. split; [apply Z.div_pos; lia|].
    apply Z.div_lt_upper_bound; [lia|].
    eapply Z.lt_le_trans; [apply Hm'lt|].
    replace (d1 + s) with (9 + (d1 + s - 9)) at 1 by lia.
    rewrite Z.pow_add_r by lia.
    apply Z.mul_le_mono_nonneg_r; [apply Z.pow_nonneg; lia|]. cbn; lia. }
  apply binary_round_aux_finite; try lia.
  assert (Zdigits2 q <= d1 + s - 9) by (apply Zdigits2_le; lia).
  lia.
Qed.

Lemma mul_nonneg (x y : float) :
  finite_nonneg x = true -> finite_nonneg y = true -> nonneg (mul x y) = true.
Proof.
  intros Hx Hy.
  destruct x as [sx|sx| |[] mx ex], y as [sy|sy| |[] my ey];
    try discriminate Hx; try discriminate Hy; try reflexivity.
  cbn [mul SFmul xorb]. apply binary_round_aux_nonneg. lia.
Qed.

Lemma binary_normalize_nonneg (m e : Z) :
  0 <= m -> nonneg (binary_normalize prec emax m e false) = true.
Proof.
  intros Hm. destruct m as [|m|m]; try lia; [reflexivity|].
  cbn [binary_normalize]. unfold binary_round.
  destruct (shl_align m e _) as [mz ez].
  apply binary_round_aux_nonneg. lia.
Qed.

Lemma add_nonneg (x y : float) :
  nonneg x = true -> nonneg y = true -> nonneg (add x y) = true.
Proof.
  intros Hx Hy.
  destruct x as [[]|[]| |[] mx ex], y as [[]|[]| |[] my ey];
    try discriminate Hx; try discriminate Hy; try reflexivity.
  cbn [add SFadd cond_Zopp]. apply binary_normalize_nonneg. lia.
Qed.

Lemma round_half_even_nonneg (num den : Z) :
  0 <= num -> 0 < den -> 0 <= round_half_even num den.
Proof.
  intros Hn Hd. unfold round_half_even.
  assert (0 <= num / den) by (apply Z.div_pos; lia).
  destruct (2 * (num mod den) ?= den); try destruct (Z.even _); lia.
Qed.

Lemma scaled_round_nonneg (m : positive) (e ndigits : Z) :
  0 <= scaled_round m e ndigits.
Proof.
  unfold scaled_round.
  assert (0 <= 10 ^ ndigits) by (apply Z.pow_nonneg; lia).
  destruct (0 <=? e) eqn:He.
  - apply Z.leb_le in He. assert (0 <= 2 ^ e) by (apply Z.pow_nonneg; lia). nia.
  - apply Z.leb_gt in He. apply round_half_even_nonneg; [nia|].
    apply Z.pow_pos_nonneg; lia.
Qed.

Lemma round_nonneg (x : float) (ndigits : Z) :
  0 <= ndigits -> nonneg x = true -> nonneg (round x ndigits) = true.
Proof.
  intros Hnd. destruct x as [s|s| |s m e]; cbn [round]; try (intros; assumption).
  cbn [nonneg]. intros Hs. destruct s; [discriminate|].
  pose proof (scaled_round_nonneg m e ndigits) as Hn.
  destruct (scaled_round m e ndigits) as [|n|n]; try lia; [reflexivity|].
  apply quotient_nonneg; [lia|]. apply Z.pow_pos_nonneg; lia.
Qed.

(** What [nonneg] says with the comparisons of the language:
    [0 <= x] holds and [x < 0] does not. *)
Lemma nonneg_compare (x : float) :
  nonneg x = true -> leb zero x = true /\ ltb x zero = false.
Proof. destruct x as [s|s| |s m e]; cbn; try destruct s; cbn; intuition congruence. Qed.
End FloatFacts.

(** ** [estimate_cost] *)

Lemma truediv_1000_cases (n : Z) :
  0 <= n ->
  (truediv n 1000 = Ok (PyFloat.quotient n 1000) /\
   PyFloat.finite_nonneg (PyFloat.quotient n 1000) = true) \/
  (truediv n 1000 = Raise OverflowError /\ 2 ^ 1032 <= n).
Proof.
  intros Hn. unfold truediv. cbn [Z.eqb].
  destruct (Z_lt_le_dec n (2 ^ 1032)) as [Hlt|Hge].
  - left. pose proof (quotient_1000_finite n (conj Hn Hlt)) as Hf.
    destruct (PyFloat.quotient n 1000) as [s|s| |s m e]; try discriminate Hf; auto.
  - pose proof (quotient_nonneg n 1000 Hn ltac:(lia)) as Hq.
    destruct (PyFloat.quotient n 1000) as [s|s| |[] m e]; try discriminate Hq; auto.
Qed.

Lemma PRICING_finite (model : string) (p : pricing) :
  PRICING !! model = Some p ->
  PyFloat.finite_nonneg (input p) = true /\ PyFloat.finite_nonneg (output p) = true.
Proof.
  unfold PRICING. intros Hp.
  repeat (apply lookup_insert_Some in Hp as [[_ <-]|[_ Hp]]; [split; reflexivity|]).
  rewrite lookup_empty in Hp. discriminate.
Qed.

Lemma PRICING_default : is_Some (PRICING !! "gpt-4").
Proof. unfold PRICING. rewrite lookup_insert_eq. eauto. Qed.

(** The entry of [PRICING] that [estimate_cost] reads for [model]. *)
Lemma estimate_cost_pricing (model : string) :
  exists p,
    PRICING !! (if bool_decide (PRICING !! model = None) then "gpt-4" else model)
      = Some p.
Proof.
  case_bool_decide as Hm.
  - destruct PRICING_default as [p Hp]. eauto.
  - destruct (PRICING !! model) as [p|]; [eauto | congruence].
Qed.

Lemma estimate_cost_fallback (i o : Z) (model : string) :
  PRICING !! model = None -> estimate_cost i o model = estimate_cost i o "gpt-4".
Proof.
  intros Hm. unfold estimate_cost.
  rewrite (bool_decide_eq_true_2 _ Hm).
  destruct PRICING_default as [p Hp].
  rewrite bool_decide_eq_false_2 by congruence. reflexivity.
Qed.

(** The estimate returns for all counts a session can hold. *)
Lemma estimate_cost_returns (i o : Z) (model : string) :
  0 <= i < 2 ^ 1032 -> 0 <= o < 2 ^ 1032 ->
  exists cost, estimate_cost i o model = Ok cost.
Proof.
  intros [Hi Hi'] [Ho Ho'].
  destruct (estimate_cost_pricing model) as [p Hp].
  unfold estimate_cost, getitem. rewrite Hp. cbn [bind].
  destruct (truediv_1000_cases i Hi) as [[-> _]|[_ Hb]]; [|lia].
  destruct (truediv_1000_cases o Ho) as [[-> _]|[_ Hb]]; [|lia].
  cbn [bind]. eauto.
Qed.

(** Values of the interpreter: [0.03], [12345 / 1000],
    [round(2.5e-06, 6)], [round(0.0078125, 6)] (a tie, to the even side)
    and three estimates. *)
Example literal_0_03 :
  PyFloat.literal 3 2 = S754_finite false 8646911284551352 (-58).
Proof. vm_compute. reflexivity. Qed.

Example truediv_12345 :
  truediv 12345 1000 = Ok (S754_finite false 6949617174986097 (-49)).
Proof. vm_compute. reflexivity. Qed.

Example round_2_5e_06 :
  PyFloat.round (PyFloat.literal 25 7) 6 =
    S754_finite false 7083549724304468 (-71).
Proof. vm_compute. reflexivity. Qed.

Example round_tie :
  PyFloat.round (PyFloat.quotient 1 128) 6 = PyFloat.literal 7812 6.
Proof. vm_compute. reflexivity. Qed.

Example estimate_cost_gpt4 :
  estimate_cost 12345 678 "gpt-4" = Ok (PyFloat.literal 41103 5).
Proof. vm_compute. reflexivity. Qed.

Example estimate_cost_turbo :
  estimate_cost 2 5 "gpt-3.5-turbo" = Ok (PyFloat.literal 13 6).
Proof. vm_compute. reflexivity. Qed.

Example estimate_cost_int64 :
  estimate_cost (2 ^ 63 - 1) 0 "gpt-4" =
    Ok (S754_finite false 8854437155380585 (-5)).
Proof. vm_compute. reflexivity. Qed.

(** C3 (as amended): for token counts [i, o >= 0] and any model name,
    [estimate_cost] reads the prices of the model, or those of ["gpt-4"]
    when the model is not in [PRICING], so that an unknown model gives what
    ["gpt-4"] gives and never a [KeyError]. Whenever both counts are below
    [2^1032] the call returns
    [round((i/1000)*input + (o/1000)*output, 6)], a float that is not
    negative; the only exception it can raise is the [OverflowError] of
    [i/1000] or [o/1000], and only for a count of [2^1032] or more. *)
Theorem estimate_cost_spec (i o : Z) (model : string) :
  0 <= i -> 0 <= o ->
  (PRICING !! model = None ->
   estimate_cost i o model = estimate_cost i o "gpt-4") /\
  exists p,
    PRICING !! (if bool_decide (PRICING !! model = None) then "gpt-4" else model)
      = Some p /\
    match estimate_cost i o model with
    | Ok cost =>
        cost = PyFloat.round
                 (PyFloat.add (PyFloat.mul (PyFloat.quotient i 1000) (input p))
                              (PyFloat.mul (PyFloat.quotient o 1000) (output p))) 6 /\
        PyFloat.leb PyFloat.zero cost = true /\
        PyFloat.ltb cost PyFloat.zero = false
    | Raise e => e = OverflowError /\ (2 ^ 1032 <= i \/ 2 ^ 1032 <= o)
    end.
Proof.
  intros Hi Ho. split; [apply estimate_cost_fallback|].
  destruct (estimate_cost_pricing model) as [p Hp]. exists p. split; [exact Hp|].
  unfold estimate_cost, getitem. rewrite Hp. cbn [bind].
  destruct (PRICING_finite _ _ Hp) as [Hin Hout].
  destruct (truediv_1000_cases i Hi) as [[-> Hfi]|[-> Hbi]]; cbn [bind]; [|auto].
  destruct (truediv_1000_cases o Ho) as [[-> Hfo]|[-> Hbo]]; cbn [bind]; [|auto].
  split; [reflexivity|].
  apply nonneg_compare, round_nonneg; [lia|].
  apply add_nonneg; apply mul_nonneg; assumption.
Qed.

Lemma estimate_cost_spec_witness :
  0 <= 12345 /\ 0 <= 678 /\
  exists p, PRICING !! "gpt-4" = Some p /\
    estimate_cost 12345 678 "text-davinci" =
      Ok (PyFloat.round
            (PyFloat.add (PyFloat.mul (PyFloat.quotient 12345 1000) (input p))
                         (PyFloat.mul (PyFloat.quotient 678 1000) (output p))) 6).
Proof.
  split; [lia|]. split; [lia|].
  destruct (estimate_cost_spec 12345 678 "text-davinci") as [_ [p [Hp Hc]]]; [lia | lia |].
  exists p. split; [exact Hp|].
  destruct (estimate_cost 12345 678 "text-davinci") as [c|e];
    [destruct Hc as [-> _]; reflexivity | destruct Hc as [_ [Hb|Hb]]; vm_compute in Hb; contradiction].
Defined.

(** C3 (as stated) fails: an unknown model with a count of [10^400]
    makes [estimate_cost] raise. *)
Lemma estimate_cost_raises :
  0 <= 10 ^ 400 /\ 0 <= 0 /\ PRICING !! "gpt-5" = None /\
  estimate_cost (10 ^ 400) 0 "gpt-5" = Raise OverflowError.
Proof. vm_compute. intuition discriminate. Qed.

(** ** The token estimator and [start_processing_session] *)

Section LedgerFacts.
Context `{ext : Externals}.

Lemma count_tokens_eq (text model : string) :
  count_tokens text model =
    Ok (match tiktoken_encode model text with
        | Some tokens => Z.of_nat (length tokens)
        | None => floordiv (len text) 4
        end).
Proof.
  unfold count_tokens, tiktoken_count.
  destruct (tiktoken_encode model text); reflexivity.
Qed.

Lemma count_tokens_total (text model : string) :
  exists n, count_tokens text model = Ok n /\ 0 <= n.
Proof.
  rewrite count_tokens_eq. eexists. split; [reflexivity|].
  destruct (tiktoken_encode model text); [lia|].
  unfold floordiv, len. apply Z.div_pos; lia.
Qed.

(** C8: [count_tokens] never raises. It returns the number of tokens the
    tiktoken encoding of the model gives for the text when there is one, and
    [len(text) // 4] when the encoding is unavailable or fails; the result
    is never negative. On the empty text it returns 0, an encoding being
    taken to give no token for the empty text. *)
Theorem count_tokens_spec (text model : string) :
  (forall tokens,
     tiktoken_encode model text = Some tokens ->
     count_tokens text model = Ok (Z.of_nat (length tokens))) /\
  (tiktoken_encode model text = None ->
   count_tokens text model = Ok (len text / 4)) /\
  (exists n, count_tokens text model = Ok n /\ 0 <= n) /\
  ((forall tokens, tiktoken_encode model "" = Some tokens -> tokens = []) ->
   count_tokens "" model = Ok 0).
Proof.
  repeat split.
  - intros tokens Ht. rewrite count_tokens_eq, Ht. reflexivity.
  - intros Ht. rewrite count_tokens_eq, Ht. reflexivity.
  - apply count_tokens_total.
  - intros Hempty. rewrite count_tokens_eq.
    destruct (tiktoken_encode model "") as [tokens|] eqn:Ht; [|reflexivity].
    rewrite (Hempty tokens eq_refl). reflexivity.
Qed.

Lemma sum_input_tokens_spec (model : string) (files_info : list FileInfo.t) :
  forall total,
  exists counts,
    Forall2 (fun f n => count_tokens (get_content f) model = Ok n)
      files_info counts /\
    sum_input_tokens model files_info total = Ok (fold_left Z.add counts total).
Proof.
  induction files_info as [|f rest IH]; intros total; cbn [sum_input_tokens].
  - exists []. split; [constructor | reflexivity].
  - destruct (count_tokens_total (get_content f) model) as [n [Hn _]].
    rewrite Hn. cbn [bind].
    destruct (IH (total + n)) as [counts [Hc Hs]].
    exists (n :: counts). split; [constructor; assumption | exact Hs].
Qed.

Lemma find_app_None {A : Type} (p : A -> bool) (l1 l2 : list A) :
  List.find p l1 = None -> List.find p (l1 ++ l2) = List.find p l2.
Proof.
  induction l1 as [|x l1 IH]; cbn; [reflexivity|].
  destruct (p x); [discriminate | exact IH].
Qed.

Lemma start_processing_session_Ok (db : database) (now : Z) (model : string)
    (temperature : float) (files_info : list FileInfo.t) :
  query_session db (generate_session_id now) = None ->
  exists total,
    sum_input_tokens model files_info 0 = Ok total /\
    start_processing_session db now model temperature files_info =
      Ok (generate_session_id now,
          {| processing_sessions :=
               processing_sessions db ++
               [new_session (generate_session_id now) model temperature
                  files_info total];
             processed_files :=
               processed_files db ++
               List.map (file_record (generate_session_id now)) files_info;
             generated_notes := generated_notes db |}).
Proof.
  intros Hfresh. unfold start_processing_session.
  destruct (sum_input_tokens_spec model files_info 0) as [counts [_ Hs]].
  rewrite Hs, Hfresh. cbn [bind]. eauto.
Qed.

(** C1: when the id generated is not yet in the table,
    [start_processing_session] returns, and the session it has stored has
    [total_input_tokens] equal to the sum, from 0 and in the order of
    [files_info], of what [count_tokens] returns on the content of each
    file for the model of the session; for no file it is 0. *)
Theorem start_session_total_input_tokens (db : database) (now : Z)
    (model : string) (temperature : float) (files_info : list FileInfo.t) :
  query_session db (generate_session_id now) = None ->
  exists counts db' session,
    Forall2 (fun f n => count_tokens (get_content f) model = Ok n)
      files_info counts /\
    start_processing_session db now model temperature files_info =
      Ok (generate_session_id now, db') /\
    query_session db' (generate_session_id now) = Some session /\
    ProcessingSession.total_input_tokens session = fold_left Z.add counts 0 /\
    (files_info = [] -> ProcessingSession.total_input_tokens session = 0).
Proof.
  intros Hfresh.
  destruct (sum_input_tokens_spec model files_info 0) as [counts [Hc Hs]].
  destruct (start_processing_session_Ok db now model temperature files_info Hfresh)
    as [total [Ht Hstart]].
  rewrite Hs in Ht. injection Ht as <-.
  eexists counts, _, _. split; [exact Hc|]. split; [exact Hstart|].
  split; [|split].
  - unfold query_session in *. cbn [processing_sessions].
    rewrite find_app_None by exact Hfresh.
    cbn [List.find new_session ProcessingSession.session_id].
    rewrite String.eqb_refl. reflexivity.
  - reflexivity.
  - intros ->. inversion Hc. reflexivity.
Qed.
End LedgerFacts.

Lemma count_tokens_spec_witness :
  count_tokens (ext := toy_externals) "hello world" "gpt-4" = Ok 11 /\
  count_tokens (ext := toy_externals) "hello world" "text-davinci" = Ok 2 /\
  count_tokens (ext := toy_externals) "" "gpt-4" = Ok 0.
Proof.
  split; [|split].
  - apply (count_tokens_spec (ext := toy_externals) "hello world" "gpt-4")
      with (tokens := [104; 101; 108; 108; 111; 32; 119; 111; 114; 108; 100]).
    reflexivity.
  - apply (count_tokens_spec (ext := toy_externals) "hello world" "text-davinci").
    reflexivity.
  - apply (count_tokens_spec (ext := toy_externals) "" "gpt-4").
    intros tokens Ht. vm_compute in Ht. congruence.
Defined.

Lemma start_session_total_input_tokens_witness :
  query_session empty_database
    (generate_session_id (ext := toy_externals) 5) = None /\
  exists db' session,
    start_processing_session (ext := toy_externals) empty_database 5 "gpt-4"
      (PyFloat.literal 3 1)
      toy_files = Ok ("#5", db') /\
    query_session db' "#5" = Some session /\
    ProcessingSession.total_input_tokens session = 11.
Proof.
  split; [reflexivity|].
  destruct (start_session_total_input_tokens (ext := toy_externals)
              empty_database 5 "gpt-4" (PyFloat.literal 3 1) toy_files eq_refl)
    as (counts & db' & session & Hc & Hs & Hq & Ht & _).
  exists db', session. split; [exact Hs|]. split; [exact Hq|].
  rewrite Ht.
  inversion Hc as [|f n fs ns H1 Hc']; subst.
  inversion Hc' as [|f' n' fs' ns' H2 Hc'']; subst.
  inversion Hc''; subst.
  vm_compute in H1. vm_compute in H2.
  injection H1 as <-. injection H2 as <-. reflexivity.
Defined.

(** ** [complete_processing_session] *)

Section CompletionFacts.
Context `{ext : Externals}.

Lemma output_tokens_of_total (notes_content model : string) :
  exists n, output_tokens_of notes_content model = Ok n /\ 0 <= n.
Proof.
  unfold output_tokens_of. destruct (truthy notes_content).
  - apply count_tokens_total.
  - exists 0. split; [reflexivity | lia].
Qed.

Lemma len_not_truthy (s : string) : truthy s = false -> len s = 0.
Proof. destruct s; [reflexivity | discriminate]. Qed.

Lemma truthy_true (s : string) : truthy s = true <-> s <> "".
Proof. destruct s; cbn; split; congruence. Qed.

Lemma notes_length_completed (session : ProcessingSession.t) (success : bool)
    (time : float) (out : Z) (cost : float) (notes : string)
    (err : option string) :
  ProcessingSession.notes_length
    (completed session success time out cost notes err) = len notes.
Proof.
  cbn. destruct (truthy notes) eqn:Hn; [reflexivity|].
  symmetry. apply len_not_truthy, Hn.
Qed.

Lemma find_update_session (sid : string)
    (f : ProcessingSession.t -> ProcessingSession.t)
    (rows : list ProcessingSession.t) (session : ProcessingSession.t) :
  (forall s, ProcessingSession.session_id (f s) = ProcessingSession.session_id s) ->
  List.find (fun s => String.eqb (ProcessingSession.session_id s) sid) rows
    = Some session ->
  List.find (fun s => String.eqb (ProcessingSession.session_id s) sid)
    (update_session sid f rows) = Some (f session).
Proof.
  intros Hf. induction rows as [|s rows IH]; cbn; [discriminate|].
  destruct (String.eqb (ProcessingSession.session_id s) sid) eqn:Hs.
  - intros [= ->]. cbn. rewrite Hf, Hs. reflexivity.
  - intros Hfind. cbn. rewrite Hs. apply IH, Hfind.
Qed.

Lemma update_session_twice (sid : string)
    (f g : ProcessingSession.t -> ProcessingSession.t)
    (rows : list ProcessingSession.t) :
  (forall s, ProcessingSession.session_id (f s) = ProcessingSession.session_id s) ->
  update_session sid g (update_session sid f rows) =
    update_session sid (fun s => g (f s)) rows.
Proof.
  intros Hf. induction rows as [|s rows IH]; cbn; [reflexivity|].
  destruct (String.eqb (ProcessingSession.session_id s) sid) eqn:Hs; cbn.
  - rewrite Hf, Hs. reflexivity.
  - rewrite Hs, IH. reflexivity.
Qed.

Lemma update_session_ext (sid : string)
    (f g : ProcessingSession.t -> ProcessingSession.t)
    (rows : list ProcessingSession.t) :
  (forall s, f s = g s) -> update_session sid f rows = update_session sid g rows.
Proof.
  intros Hfg. induction rows as [|s rows IH]; cbn; [reflexivity|].
  rewrite Hfg, IH. reflexivity.
Qed.

(** What one call does to an existing session, when the cost estimate
    returns. *)
Lemma complete_processing_session_Ok (db : database) (sid : string)
    (session : ProcessingSession.t) (success : bool) (notes : string)
    (time : float) (err : option string) (out : Z) (cost : float) :
  query_session db sid = Some session ->
  output_tokens_of notes (ProcessingSession.model_used session) = Ok out ->
  estimate_cost (ProcessingSession.total_input_tokens session) out
    (ProcessingSession.model_used session) = Ok cost ->
  complete_processing_session db sid success notes time err =
    Ok (tt,
        {| processing_sessions :=
             update_session sid
               (fun s => completed s success time out cost notes err)
               (processing_sessions db);
           processed_files := processed_files db;
           generated_notes :=
             if success && truthy notes
             then generated_notes db ++ [notes_record sid notes]
             else generated_notes db |}).
Proof.
  intros Hq Ho Hc. unfold complete_processing_session.
  rewrite Hq, Ho. cbn [bind]. rewrite Hc. reflexivity.
Qed.

(** A call leaves the session in the table, with the columns that are set
    at the start as they were. *)
Lemma complete_processing_session_keeps (db : database) (sid : string)
    (session : ProcessingSession.t) (success : bool) (notes : string)
    (time : float) (err : option string) :
  query_session db sid = Some session ->
  exists session1,
    query_session
      (committed db (complete_processing_session db sid success notes time err))
      sid = Some session1 /\
    ProcessingSession.model_used session1 = ProcessingSession.model_used session /\
    ProcessingSession.total_input_tokens session1 =
      ProcessingSession.total_input_tokens session /\
    forall success2 time2 out2 cost2 notes2 err2,
      completed session1 success2 time2 out2 cost2 notes2 err2 =
      completed session success2 time2 out2 cost2 notes2 err2.
Proof.
  intros Hq.
  destruct (output_tokens_of_total notes (ProcessingSession.model_used session))
    as [out [Ho _]].
  destruct (estimate_cost (ProcessingSession.total_input_tokens session) out
              (ProcessingSession.model_used session)) as [cost|e] eqn:Hc.
  - rewrite (complete_processing_session_Ok _ _ _ _ _ _ _ _ _ Hq Ho Hc).
    cbn [committed]. eexists. split.
    + unfold query_session in *. cbn [processing_sessions].
      apply find_update_session; [reflexivity | exact Hq].
    + repeat split; reflexivity.
  - unfold complete_processing_session. rewrite Hq, Ho. cbn [bind].
    rewrite Hc. cbn [bind committed]. exists session. repeat split. exact Hq.
Qed.

(** C2: on a session of the table, whatever a first call of
    [complete_processing_session] was given, a second call on the same id
    whose cost estimate is [cost2] returns and leaves in the session the
    values of the second call: [success], [processing_time_seconds],
    [total_output_tokens], [estimated_cost_usd] (the estimate [cost2]
    alone, not a sum with the first), [notes_length] and [error_message].
    The table of sessions is then the one that the second call alone would
    have given. *)
Theorem complete_twice_overwrites (db : database) (sid : string)
    (session : ProcessingSession.t)
    (success1 : bool) (notes1 : string) (time1 : float) (err1 : option string)
    (success2 : bool) (notes2 : string) (time2 : float) (err2 : option string)
    (out2 : Z) (cost2 : float) :
  query_session db sid = Some session ->
  output_tokens_of notes2 (ProcessingSession.model_used session) = Ok out2 ->
  estimate_cost (ProcessingSession.total_input_tokens session) out2
    (ProcessingSession.model_used session) = Ok cost2 ->
  let db1 :=
    committed db
      (complete_processing_session db sid success1 notes1 time1 err1) in
  exists db2 session2,
    complete_processing_session db1 sid success2 notes2 time2 err2
      = Ok (tt, db2) /\
    query_session db2 sid = Some session2 /\
    ProcessingSession.success session2 = success2 /\
    ProcessingSession.processing_time_seconds session2 = time2 /\
    ProcessingSession.total_output_tokens session2 = out2 /\
    ProcessingSession.estimated_cost_usd session2 = cost2 /\
    ProcessingSession.notes_length session2 = len notes2 /\
    ProcessingSession.error_message session2 = err2 /\
    processing_sessions db2 =
      processing_sessions
        (committed db
           (complete_processing_session db sid success2 notes2 time2 err2)).
Proof.
  intros Hq Ho Hc db1.
  destruct (complete_processing_session_keeps db sid session success1 notes1
              time1 err1 Hq) as (session1 & Hq1 & Hm1 & Ht1 & Hsame).
  fold db1 in Hq1.
  assert (Ho1 : output_tokens_of notes2 (ProcessingSession.model_used session1)
                = Ok out2) by (rewrite Hm1; exact Ho).
  assert (Hc1 : estimate_cost (ProcessingSession.total_input_tokens session1)
                  out2 (ProcessingSession.model_used session1) = Ok cost2)
    by (rewrite Hm1, Ht1; exact Hc).
  rewrite (complete_processing_session_Ok db1 sid session1 success2 notes2
             time2 err2 out2 cost2 Hq1 Ho1 Hc1).
  eexists _, _. split; [reflexivity|]. split.
  { unfold query_session in *. cbn [processing_sessions].
    apply find_update_session; [reflexivity | exact Hq1]. }
  repeat split; try reflexivity.
  - apply notes_length_completed.
  - rewrite (complete_processing_session_Ok db sid session success2 notes2
               time2 err2 out2 cost2 Hq Ho Hc).
    cbn [committed processing_sessions].
    unfold db1.
    destruct (output_tokens_of_total notes1 (ProcessingSession.model_used session))
      as [out1 [Ho' _]].
    destruct (estimate_cost (ProcessingSession.total_input_tokens session) out1
                (ProcessingSession.model_used session)) as [cost1|e] eqn:Hc'.
    + rewrite (complete_processing_session_Ok db sid session success1 notes1
                 time1 err1 out1 cost1 Hq Ho' Hc').
      cbn [committed processing_sessions].
      rewrite update_session_twice by reflexivity.
      apply update_session_ext. reflexivity.
    + unfold complete_processing_session at 1. rewrite Hq, Ho'. cbn [bind].
      rewrite Hc'. reflexivity.
Qed.

(** C4: a call of [complete_processing_session] on a session of the
    table, when its cost estimate returns, returns; it adds one row to the
    notes when [success] holds and [notes_content] is not empty, a row
    with that content and the hash of that content, and adds none
    otherwise; and it sets [notes_length] to the number of characters of
    [notes_content], which is 0 for the empty string. *)
Theorem complete_inserts_note (db : database) (sid : string)
    (session : ProcessingSession.t) (success : bool) (notes : string)
    (time : float) (err : option string) (out : Z) (cost : float) :
  query_session db sid = Some session ->
  output_tokens_of notes (ProcessingSession.model_used session) = Ok out ->
  estimate_cost (ProcessingSession.total_input_tokens session) out
    (ProcessingSession.model_used session) = Ok cost ->
  exists db' session',
    complete_processing_session db sid success notes time err = Ok (tt, db') /\
    (success = true /\ notes <> "" ->
     generated_notes db' =
       (generated_notes db ++
        [{| GeneratedNotes.session_id := sid;
            GeneratedNotes.notes_content := notes;
            GeneratedNotes.notes_hash := calculate_file_hash notes;
            GeneratedNotes.created_at := created_at_default |}])%list) /\
    (~ (success = true /\ notes <> "") ->
     generated_notes db' = generated_notes db) /\
    query_session db' sid = Some session' /\
    ProcessingSession.notes_length session' = len notes /\
    (notes = "" -> ProcessingSession.notes_length session' = 0).
Proof.
  intros Hq Ho Hc.
  rewrite (complete_processing_session_Ok db sid session success notes time
             err out cost Hq Ho Hc).
  eexists _, _. split; [reflexivity|]. cbn [generated_notes].
  split; [|split; [|split; [|split]]].
  - intros [-> Hn]. apply truthy_true in Hn. rewrite Hn. reflexivity.
  - intros Hno. destruct success; [|reflexivity].
    destruct (truthy notes) eqn:Hn; [|reflexivity].
    exfalso. apply Hno. split; [reflexivity | apply truthy_true, Hn].
  - unfold query_session in *. cbn [processing_sessions].
    apply find_update_session; [reflexivity | exact Hq].
  - apply notes_length_completed.
  - intros ->. reflexivity.
Qed.

(** C6 (as amended): for an id that is not in the table,
    [complete_processing_session] returns [None] without raising and leaves
    the three tables as they were. *)
Theorem complete_unknown_session_noop (db : database) (sid : string)
    (success : bool) (notes : string) (time : float) (err : option string) :
  query_session db sid = None ->
  complete_processing_session db sid success notes time err = Ok (tt, db).
Proof.
  intros Hq. unfold complete_processing_session. rewrite Hq. reflexivity.
Qed.
End CompletionFacts.

Lemma complete_twice_overwrites_witness :
  exists db2 session2 cost1 cost2,
    estimate_cost 11 5 "gpt-4" = Ok cost1 /\
    estimate_cost 11 10 "gpt-4" = Ok cost2 /\
    complete_processing_session (ext := toy_externals)
      (committed toy_db
         (complete_processing_session (ext := toy_externals) toy_db "#5" true
            "alpha" (PyFloat.literal 15 1) None))
      "#5" true "beta gamma" (PyFloat.literal 25 1) None = Ok (tt, db2) /\
    query_session db2 "#5" = Some session2 /\
    ProcessingSession.total_output_tokens session2 = 10 /\
    ProcessingSession.estimated_cost_usd session2 = cost2 /\
    cost2 <> PyFloat.add cost1 cost2.
Proof.
  destruct (complete_twice_overwrites (ext := toy_externals) toy_db "#5"
              (new_session (ext := toy_externals) "#5" "gpt-4" (PyFloat.literal 3 1)
                 toy_files 11)
              true "alpha" (PyFloat.literal 15 1) None
              true "beta gamma" (PyFloat.literal 25 1) None
              10 (returned PyFloat.zero (estimate_cost 11 10 "gpt-4")))
    as (db2 & session2 & H1 & H2 & _ & _ & H3 & H4 & _).
  - vm_compute. reflexivity.
  - vm_compute. reflexivity.
  - vm_compute. reflexivity.
  - exists db2, session2.
    exists (returned PyFloat.zero (estimate_cost 11 5 "gpt-4")).
    exists (returned PyFloat.zero (estimate_cost 11 10 "gpt-4")).
    split; [vm_compute; reflexivity|]. split; [vm_compute; reflexivity|].
    split; [exact H1|]. split; [exact H2|]. split; [exact H3|].
    split; [exact H4|]. vm_compute. discriminate.
Defined.

Lemma complete_inserts_note_witness :
  exists db' session',
    complete_processing_session (ext := toy_externals) toy_db "#5" true
      "alpha" (PyFloat.literal 15 1) None = Ok (tt, db') /\
    generated_notes db' =
      [{| GeneratedNotes.session_id := "#5";
          GeneratedNotes.notes_content := "alpha";
          GeneratedNotes.notes_hash := "#alpha";
          GeneratedNotes.created_at := 0 |}] /\
    query_session db' "#5" = Some session' /\
    ProcessingSession.notes_length session' = 5.
Proof.
  destruct (complete_inserts_note (ext := toy_externals) toy_db "#5"
              (new_session (ext := toy_externals) "#5" "gpt-4" (PyFloat.literal 3 1)
                 toy_files 11)
              true "alpha" (PyFloat.literal 15 1) None
              5 (returned PyFloat.zero (estimate_cost 11 5 "gpt-4")))
    as (db' & session' & H1 & H2 & _ & H3 & H4 & _).
  - vm_compute. reflexivity.
  - vm_compute. reflexivity.
  - vm_compute. reflexivity.
  - exists db', session'. split; [exact H1|].
    split; [apply H2; split; [reflexivity | discriminate]|].
    split; [exact H3 | exact H4].
Defined.

Lemma complete_unknown_session_noop_witness :
  query_session toy_db "ghost" = None /\
  complete_processing_session (ext := toy_externals) toy_db "ghost" true
    "alpha" (PyFloat.literal 15 1) None = Ok (tt, toy_db).
Proof.
  split; [vm_compute; reflexivity|].
  apply complete_unknown_session_noop. vm_compute. reflexivity.
Defined.

(** C6 (as stated) fails on its last part: the call hands back to its
    caller the same thing for an id that is not in the table and for an id
    that is, and the method writes no log. *)
Lemma unknown_session_not_observable :
  query_session toy_db "ghost" = None /\
  query_session toy_db "#5" <> None /\
  outcome (complete_processing_session (ext := toy_externals) toy_db "ghost"
             true "alpha" (PyFloat.literal 15 1) None) =
  outcome (complete_processing_session (ext := toy_externals) toy_db "#5"
             true "alpha" (PyFloat.literal 15 1) None).
Proof. vm_compute. repeat split; discriminate. Qed.

(** ** [cleanup_old_data] *)

Section CleanupFacts.

Lemma filter_filter_andb {Row : Type} (keep1 keep2 : Row -> bool)
    (rows : list Row) :
  List.filter keep2 (List.filter keep1 rows) =
  List.filter (fun r => keep1 r && keep2 r) rows.
Proof.
  induction rows as [|r rows IH]; cbn; [reflexivity|].
  destruct (keep1 r); cbn; [destruct (keep2 r)|]; rewrite IH; reflexivity.
Qed.

Lemma id_among_true (old : list ProcessingSession.t) (sid : string) :
  id_among old sid = true <->
  exists s, In s old /\ ProcessingSession.session_id s = sid.
Proof.
  unfold id_among. rewrite existsb_exists. split.
  - intros (s & Hs & He). apply String.eqb_eq in He. eauto.
  - intros (s & Hs & He). exists s. split; [exact Hs|].
    apply String.eqb_eq. congruence.
Qed.

Lemma fold_delete_session (old : list ProcessingSession.t) :
  forall db,
    fold_left delete_session old db =
      {| processing_sessions :=
           fold_left (fun rows s => delete_row s rows) old (processing_sessions db);
         processed_files :=
           List.filter (fun f => negb (id_among old (ProcessedFile.session_id f)))
             (processed_files db);
         generated_notes :=
           List.filter (fun n => negb (id_among old (GeneratedNotes.session_id n)))
             (generated_notes db) |}.
Proof.
  induction old as [|s old IH]; intros db; cbn [fold_left].
  - destruct db as [ss fs ns]. cbn.
    rewrite !forallb_filter_id by (apply forallb_forall; reflexivity).
    reflexivity.
  - rewrite IH. unfold delete_session. cbn [processing_sessions processed_files
      generated_notes]. rewrite !filter_filter_andb. f_equal.
    + apply filter_ext. intros f. cbn [id_among existsb].
      rewrite negb_orb. reflexivity.
    + apply filter_ext. intros n. cbn [id_among existsb].
      rewrite negb_orb. reflexivity.
Qed.
Lemma fold_delete_row_cons (p : ProcessingSession.t -> bool)
    (old : list ProcessingSession.t) (x : ProcessingSession.t) :
  Forall (fun s => p s = true) old -> p x = false ->
  forall rows,
    fold_left (fun rows s => delete_row s rows) old (x :: rows) =
    x :: fold_left (fun rows s => delete_row s rows) old rows.
Proof.
  intros Hold Hx. induction Hold as [|s old Hs _ IH]; intros rows;
    cbn [fold_left]; [reflexivity|].
  cbn [delete_row]. destruct (decide (x = s)) as [->|_]; [congruence|].
  apply IH.
Qed.

(** Deleting, one by one, the rows selected by [p] leaves the others, in
    their order. *)
Lemma fold_delete_row_filter (p : ProcessingSession.t -> bool)
    (rows : list ProcessingSession.t) :
  fold_left (fun rows s => delete_row s rows) (List.filter p rows) rows =
  List.filter (fun s => negb (p s)) rows.
Proof.
  induction rows as [|x rows IH]; cbn [List.filter]; [reflexivity|].
  destruct (p x) eqn:Hx; cbn [negb fold_left delete_row].
  - destruct (decide (x = x)) as [_|Hne]; [exact IH | congruence].
  - rewrite (fold_delete_row_cons p) by
      (try exact Hx; apply List.Forall_forall; intros s Hs;
       apply filter_In in Hs; apply Hs).
    rewrite IH. reflexivity.
Qed.

Lemma NoDup_map_eq {Row Key : Type} (key : Row -> Key) (rows : list Row)
    (r1 r2 : Row) :
  List.NoDup (List.map key rows) ->
  In r1 rows -> In r2 rows -> key r1 = key r2 -> r1 = r2.
Proof.
  induction rows as [|r rows IH]; cbn; [contradiction|].
  intros Hnd H1 H2 Hk. apply List.NoDup_cons_iff in Hnd as [Hr Hnd].
  destruct H1 as [->|H1], H2 as [->|H2]; auto.
  - exfalso. apply Hr. rewrite Hk. apply in_map, H2.
  - exfalso. apply Hr. rewrite <- Hk. apply in_map, H1.
Qed.

Lemma length_filter_negb {A : Type} (p : A -> bool) (l : list A) :
  (length (List.filter p l) + length (List.filter (fun x => negb (p x)) l)
   = length l)%nat.
Proof.
  induction l as [|x l IH]; cbn; [reflexivity|].
  destruct (p x); cbn; lia.
Qed.

(** What the deletion of a cleanup does at a cutoff. *)
Lemma delete_older_spec (db : database) (cutoff : Z) :
  let deleted s := In s (processing_sessions db) /\
                   ProcessingSession.created_at s < cutoff in
  let n := fst (delete_older db cutoff) in
  let db' := snd (delete_older db cutoff) in
  processing_sessions db' =
    List.filter (fun s => negb (ProcessingSession.created_at s <? cutoff))
      (processing_sessions db) /\
  (forall s, In s (processing_sessions db') <->
             In s (processing_sessions db) /\
             ~ ProcessingSession.created_at s < cutoff) /\
  (forall f, In f (processed_files db') <->
             In f (processed_files db) /\
             ~ exists s, deleted s /\
                 ProcessingSession.session_id s = ProcessedFile.session_id f) /\
  (forall g, In g (generated_notes db') <->
             In g (generated_notes db) /\
             ~ exists s, deleted s /\
                 ProcessingSession.session_id s = GeneratedNotes.session_id g) /\
  n = Z.of_nat (length (processing_sessions db)) -
      Z.of_nat (length (processing_sessions db')) /\
  (List.NoDup (List.map ProcessingSession.session_id (processing_sessions db)) ->
   forall s, In s (processing_sessions db) ->
             cutoff <= ProcessingSession.created_at s ->
     In s (processing_sessions db') /\
     (forall f, In f (processed_files db) ->
                ProcessedFile.session_id f = ProcessingSession.session_id s ->
                In f (processed_files db')) /\
     (forall g, In g (generated_notes db) ->
                GeneratedNotes.session_id g = ProcessingSession.session_id s ->
                In g (generated_notes db'))).
Proof.
  intros deleted n db'.
  set (old := List.filter (fun s => ProcessingSession.created_at s <? cutoff)
                (processing_sessions db)).
  assert (Hold : forall s, In s old <-> deleted s).
  { intros s. unfold old, deleted. rewrite filter_In, Z.ltb_lt. reflexivity. }
  assert (Hdb' : db' = fold_left delete_session old db) by reflexivity.
  rewrite fold_delete_session in Hdb'.
  assert (Hss : processing_sessions db' =
                List.filter (fun s => negb (ProcessingSession.created_at s <? cutoff))
                  (processing_sessions db)).
  { rewrite Hdb'. cbn [processing_sessions]. apply fold_delete_row_filter. }
  assert (Hin : forall s, In s (processing_sessions db') <->
             In s (processing_sessions db) /\
             ~ ProcessingSession.created_at s < cutoff).
  { intros s. rewrite Hss, filter_In, negb_true_iff, Z.ltb_ge.
    split; intros [Hs Hc]; (split; [exact Hs | lia]). }
  assert (Hfiles : forall f, In f (processed_files db') <->
             In f (processed_files db) /\
             ~ exists s, deleted s /\
                 ProcessingSession.session_id s = ProcessedFile.session_id f).
  { intros f. rewrite Hdb'. cbn [processed_files].
    rewrite filter_In, negb_true_iff, <- not_true_iff_false, id_among_true.
    split; intros [Hf Hno]; (split; [exact Hf|]); intros (s & Hs & He);
      apply Hno; exists s; (split; [apply Hold, Hs | exact He]). }
  assert (Hnotes : forall g, In g (generated_notes db') <->
             In g (generated_notes db) /\
             ~ exists s, deleted s /\
                 ProcessingSession.session_id s = GeneratedNotes.session_id g).
  { intros g. rewrite Hdb'. cbn [generated_notes].
    rewrite filter_In, negb_true_iff, <- not_true_iff_false, id_among_true.
    split; intros [Hg Hno]; (split; [exact Hg|]); intros (s & Hs & He);
      apply Hno; exists s; (split; [apply Hold, Hs | exact He]). }
  split; [exact Hss|]. split; [exact Hin|]. split; [exact Hfiles|].
  split; [exact Hnotes|]. split.
  - rewrite Hss. change n with (Z.of_nat (length old)). unfold old.
    pose proof (length_filter_negb
                  (fun s => ProcessingSession.created_at s <? cutoff)
                  (processing_sessions db)). lia.
  - intros Hnd s Hs Hnew.
    assert (Hkeep : forall sid, sid = ProcessingSession.session_id s ->
              ~ exists s', deleted s' /\ ProcessingSession.session_id s' = sid).
    { intros sid -> (s' & [Hs' Hlt] & He).
      assert (s' = s) by (eapply NoDup_map_eq; eauto). subst s'. lia. }
    split; [apply Hin; split; [exact Hs | lia]|]. split.
    + intros f Hf He. apply Hfiles. split; [exact Hf | apply Hkeep, He].
    + intros g Hg He. apply Hnotes. split; [exact Hg | apply Hkeep, He].
Qed.

(** [cleanup_old_data] returns exactly when the retention is a timedelta
    and the cutoff a datetime. *)
Lemma cleanup_old_data_cases (db : database) (now d : Z) :
  (Z.abs d <= 999999999 ->
   datetime_min <= now - d * 86400000000 <= datetime_max ->
   cleanup_old_data db now d = Ok (delete_older db (now - d * 86400000000))) /\
  (~ (Z.abs d <= 999999999 /\
      datetime_min <= now - d * 86400000000 <= datetime_max) ->
   cleanup_old_data db now d = Raise OverflowError).
Proof.
  unfold cleanup_old_data, timedelta, datetime_sub, timedelta_days.
  destruct (Z.leb_spec (Z.abs d) 999999999) as [Hd|Hd]; cbn [bind].
  - destruct (Z.leb_spec datetime_min (now - d * 86400000000)) as [Hlo|Hlo];
      destruct (Z.leb_spec (now - d * 86400000000) datetime_max) as [Hhi|Hhi];
      cbn [andb bind]; split; intros; try reflexivity; exfalso; lia.
  - split; intros; try reflexivity; exfalso; lia.
Qed.

Lemma cleanup_old_data_Ok (db : database) (now d n : Z) (db' : database) :
  cleanup_old_data db now d = Ok (n, db') ->
  Z.abs d <= 999999999 /\
  datetime_min <= now - d * 86400000000 <= datetime_max /\
  delete_older db (now - d * 86400000000) = (n, db').
Proof.
  intros Hok.
  destruct (Z_le_gt_dec (Z.abs d) 999999999) as [Hd|Hd];
    [destruct (Z_le_gt_dec datetime_min (now - d * 86400000000)) as [Hlo|Hlo];
     [destruct (Z_le_gt_dec (now - d * 86400000000) datetime_max) as [Hhi|Hhi]|]|].
  - rewrite (proj1 (cleanup_old_data_cases db now d) Hd (conj Hlo Hhi)) in Hok.
    split; [exact Hd|]. split; [split; assumption|]. congruence.
  - rewrite (proj2 (cleanup_old_data_cases db now d)) in Hok by lia. discriminate.
  - rewrite (proj2 (cleanup_old_data_cases db now d)) in Hok by lia. discriminate.
  - rewrite (proj2 (cleanup_old_data_cases db now d)) in Hok by lia. discriminate.
Qed.

(** C5 (as amended): for a retention of [d] days read at the instant [now],
    with [cutoff = now - d days]: when [d] has at most 999999999 days
    either way and the cutoff is a datetime (years 1 to 9999),
    [cleanup_old_data] returns, and it keeps, as they were and in their
    order, the sessions that are not strictly older than the cutoff, so
    that a session is deleted if and only if [created_at < cutoff]; a
    file row or a note row is deleted if and only if its [session_id] is
    that of a deleted session, so that none is left behind; the value
    returned is the number of sessions deleted. The ids being unique, the
    files and notes of the sessions that stay all stay. For every other
    [d] the call raises [OverflowError] and deletes nothing. *)
Theorem cleanup_old_data_spec (db : database) (now d : Z) :
  let cutoff := now - d * 86400000000 in
  let deleted s := In s (processing_sessions db) /\
                   ProcessingSession.created_at s < cutoff in
  (Z.abs d <= 999999999 -> datetime_min <= cutoff <= datetime_max ->
   exists n db',
     cleanup_old_data db now d = Ok (n, db') /\
     processing_sessions db' =
       List.filter (fun s => negb (ProcessingSession.created_at s <? cutoff))
         (processing_sessions db) /\
     (forall s, In s (processing_sessions db') <->
                In s (processing_sessions db) /\
                ~ ProcessingSession.created_at s < cutoff) /\
     (forall f, In f (processed_files db') <->
                In f (processed_files db) /\
                ~ exists s, deleted s /\
                    ProcessingSession.session_id s = ProcessedFile.session_id f) /\
     (forall g, In g (generated_notes db') <->
                In g (generated_notes db) /\
                ~ exists s, deleted s /\
                    ProcessingSession.session_id s = GeneratedNotes.session_id g) /\
     n = Z.of_nat (length (processing_sessions db)) -
         Z.of_nat (length (processing_sessions db')) /\
     (List.NoDup (List.map ProcessingSession.session_id (processing_sessions db)) ->
      forall s, In s (processing_sessions db) ->
                cutoff <= ProcessingSession.created_at s ->
        In s (processing_sessions db') /\
        (forall f, In f (processed_files db) ->
                   ProcessedFile.session_id f = ProcessingSession.session_id s ->
                   In f (processed_files db')) /\
        (forall g, In g (generated_notes db) ->
                   GeneratedNotes.session_id g = ProcessingSession.session_id s ->
                   In g (generated_notes db')))) /\
  (~ (Z.abs d <= 999999999 /\ datetime_min <= cutoff <= datetime_max) ->
   cleanup_old_data db now d = Raise OverflowError /\
   committed db (cleanup_old_data db now d) = db).
Proof.
  intros cutoff deleted. split.
  - intros Hd Hc.
    exists (fst (delete_older db cutoff)), (snd (delete_older db cutoff)).
    split; [|exact (delete_older_spec db cutoff)].
    rewrite (proj1 (cleanup_old_data_cases db now d) Hd Hc).
    fold cutoff. destruct (delete_older db cutoff). reflexivity.
  - intros Hno. rewrite (proj2 (cleanup_old_data_cases db now d) Hno).
    split; reflexivity.
Qed.
End CleanupFacts.

Lemma cleanup_old_data_spec_witness :
  List.NoDup
    (List.map ProcessingSession.session_id (processing_sessions toy_history)) /\
  Z.abs 30 <= 999999999 /\
  datetime_min <= 70 * day - 30 * 86400000000 <= datetime_max /\
  70 * day - 30 * 86400000000 <= 50 * day /\
  exists db',
    cleanup_old_data toy_history (70 * day) 30 = Ok (1, db') /\
    processing_sessions db' =
      [toy_session "s-mid" (50 * day) "gpt-3.5-turbo";
       toy_session "s-new" (70 * day) "gpt-4"] /\
    In (toy_file "s-mid" "b.txt") (processed_files db') /\
    ~ In (toy_file "s-old" "a.txt") (processed_files db').
Proof.
  assert (Hnd : List.NoDup
            (List.map ProcessingSession.session_id
               (processing_sessions toy_history))).
  { change (List.NoDup ["s-old"; "s-mid"; "s-new"]).
    repeat constructor; intros Hin; repeat destruct Hin as [Hin|Hin];
      try discriminate Hin; exact Hin. }
  assert (Hd : Z.abs 30 <= 999999999) by (vm_compute; discriminate).
  assert (Hr : datetime_min <= 70 * day - 30 * 86400000000 <= datetime_max)
    by (split; vm_compute; discriminate).
  assert (Hc : 70 * day - 30 * 86400000000 <= 50 * day) by (vm_compute; discriminate).
  destruct (proj1 (cleanup_old_data_spec toy_history (70 * day) 30) Hd Hr)
    as (n & db' & Hok & Hss & _ & Hfiles & _ & Hn & Hkeep).
  assert (H1 : n = 1) by (rewrite Hn, Hss; reflexivity).
  rewrite H1 in Hok.
  split; [exact Hnd|]. split; [exact Hd|]. split; [exact Hr|]. split; [exact Hc|].
  exists db'. split; [exact Hok|]. split; [rewrite Hss; reflexivity|].
  split.
  - assert (Hmid : In (toy_session "s-mid" (50 * day) "gpt-3.5-turbo")
                     (processing_sessions toy_history))
      by (right; left; reflexivity).
    destruct (Hkeep Hnd _ Hmid Hc) as (_ & Hf & _).
    apply Hf; [right; left; reflexivity | reflexivity].
  - intros Hin. apply Hfiles in Hin as [_ Hno]. apply Hno.
    exists (toy_session "s-old" (1 * day) "gpt-4").
    split; [split; [left; reflexivity | vm_compute; reflexivity] | reflexivity].
Defined.

(** C5 (as stated) fails: not every retention [d] makes the call return.
    Read in the year 2024, a retention of a million days puts the cutoff
    before year 1, and a retention of minus a thousand million days is no
    timedelta: the call raises [OverflowError] and deletes nothing, although
    with the second one every session is strictly older than
    [now - d days]. *)
Lemma cleanup_old_data_raises :
  cleanup_old_data toy_history (739000 * day) 1000000 = Raise OverflowError /\
  cleanup_old_data toy_history (739000 * day) (-1000000000)
    = Raise OverflowError /\
  committed toy_history
    (cleanup_old_data toy_history (739000 * day) (-1000000000)) = toy_history /\
  Forall
    (fun s => ProcessingSession.created_at s
              < 739000 * day - (-1000000000) * 86400000000)
    (processing_sessions toy_history).
Proof.
  split; [vm_compute; reflexivity|]. split; [vm_compute; reflexivity|].
  split; [vm_compute; reflexivity|].
  repeat constructor.
Qed.

(** ** [search_sessions] *)

Section SearchFacts.
Context `{ext : Externals}.

Lemma prefix_app (a b : string) :
  String.prefix a b = true <-> exists post, b = a ++ post.
Proof.
  revert b. induction a as [|c a IH]; intros b.
  - destruct b; cbn; split; eauto.
  - destruct b as [|c' b]; cbn.
    + split; [discriminate | intros [post Hp]; discriminate].
    + destruct (ascii_dec c c') as [->|Hne].
      * rewrite IH. split.
        -- intros [post ->]. exists post. reflexivity.
        -- intros [post Hp]. exists post. cbn in Hp. injection Hp as ->.
           reflexivity.
      * split; [discriminate|].
        intros [post Hp]. cbn in Hp. injection Hp as He _. congruence.
Qed.

(** [str_in] is the substring test. *)
Lemma str_in_spec (needle hay : string) :
  str_in needle hay = true <-> exists pre post, hay = pre ++ needle ++ post.
Proof.
  induction hay as [|c hay IH]; cbn [str_in]; rewrite orb_true_iff, prefix_app.
  - split.
    + intros [[post Hp]|Hf]; [exists "", post; exact Hp | discriminate].
    + intros (pre & post & Hp). left.
      destruct pre as [|c' pre]; [exists post; exact Hp | discriminate].
  - rewrite IH. split.
    + intros [[post Hp]|(pre & post & Hp)].
      * exists "", post. exact Hp.
      * exists (String c pre), post. rewrite Hp. reflexivity.
    + intros (pre & post & Hp). destruct pre as [|c' pre].
      * left. exists post. exact Hp.
      * right. exists pre, post. cbn [String.append] in Hp.
        injection Hp as _ Hp. exact Hp.
Qed.

Global Instance newer_first_total : Total newer_first.
Proof. intros a b. unfold newer_first. lia. Qed.

Global Instance newer_first_trans : Transitive newer_first.
Proof. intros a b c. unfold newer_first. lia. Qed.

Lemma order_by_created_at_desc_In (rows : list ProcessingSession.t)
    (s : ProcessingSession.t) :
  In s (order_by_created_at_desc rows) <-> In s rows.
Proof.
  unfold order_by_created_at_desc.
  split; apply Permutation_in;
    [| symmetry]; apply merge_sort_Permutation.
Qed.

Lemma order_by_created_at_desc_sorted (rows : list ProcessingSession.t) :
  StronglySorted newer_first (order_by_created_at_desc rows).
Proof. apply StronglySorted_merge_sort; apply _. Qed.

Lemma StronglySorted_List_filter {A : Type} (R : A -> A -> Prop)
    (p : A -> bool) (l : list A) :
  StronglySorted R l -> StronglySorted R (List.filter p l).
Proof.
  induction 1 as [|x l Hl IH Hx]; cbn; [constructor|].
  destruct (p x); [|exact IH]. constructor; [exact IH|].
  apply List.Forall_forall. intros y Hy. apply filter_In in Hy as [Hy _].
  rewrite List.Forall_forall in Hx. apply Hx, Hy.
Qed.

Lemma notes_match_spec (db : database) (query : string)
    (s : ProcessingSession.t) :
  notes_match db query s = true <->
  exists notes pre post,
    query_notes db (ProcessingSession.session_id s) = Some notes /\
    lower (GeneratedNotes.notes_content notes) = pre ++ lower query ++ post.
Proof.
  unfold notes_match.
  destruct (query_notes db (ProcessingSession.session_id s)) as [notes|].
  - rewrite str_in_spec. split.
    + intros (pre & post & Hp). eauto.
    + intros (notes' & pre & post & [= <-] & Hp). eauto.
  - split; [discriminate | intros (notes & pre & post & Hq & _); discriminate].
Qed.

(** C7 (as amended): [search_sessions] returns the dicts of the rows
    [search_rows]. A session is among these rows if and only if it is in
    the table, its [model_used] is [model] when [model] is not empty, its
    [created_at] is at or after [start_date] and at or before [end_date]
    when these are given, and, when [query] is not empty, the first note of
    the session exists and its content, lowercased, contains the lowercased
    [query]. The rows come newest [created_at] first. With an empty
    [query], a model ["X"] and no dates, the rows are the sessions with
    [model_used == "X"], each once. *)
Theorem search_sessions_spec (db : database) (query model : string)
    (start_date end_date : option Z) :
  let rows := search_rows db query model start_date end_date in
  search_sessions db query model start_date end_date =
    List.map search_result rows /\
  (forall s,
     In s rows <->
     In s (processing_sessions db) /\
     (model = "" \/ ProcessingSession.model_used s = model) /\
     (forall d, start_date = Some d -> d <= ProcessingSession.created_at s) /\
     (forall d, end_date = Some d -> ProcessingSession.created_at s <= d) /\
     (query = "" \/
      exists notes pre post,
        query_notes db (ProcessingSession.session_id s) = Some notes /\
        lower (GeneratedNotes.notes_content notes) = pre ++ lower query ++ post)) /\
  StronglySorted newer_first rows /\
  (query = "" -> model <> "" -> start_date = None -> end_date = None ->
   Permutation rows
     (List.filter (fun s => String.eqb (ProcessingSession.model_used s) model)
        (processing_sessions db))).
Proof.
  intros rows. split; [reflexivity|]. split; [|split].
  - intros s. unfold rows, search_rows.
    set (q1 := if truthy model then _ else _).
    set (q2 := match start_date with Some _ => _ | None => _ end).
    set (q3 := match end_date with Some _ => _ | None => _ end).
    assert (H1 : In s q1 <-> In s (processing_sessions db) /\
                 (model = "" \/ ProcessingSession.model_used s = model)).
    { unfold q1. destruct (truthy model) eqn:Hm.
      - rewrite filter_In, String.eqb_eq. apply truthy_true in Hm. tauto.
      - destruct model; [tauto | discriminate]. }
    assert (H2 : In s q2 <-> In s q1 /\
                 (forall d, start_date = Some d -> d <= ProcessingSession.created_at s)).
    { unfold q2. destruct start_date as [d|].
      - rewrite filter_In, Z.leb_le. split.
        + intros [Hs Hd]. split; [exact Hs|]. intros d' [= <-]. exact Hd.
        + intros [Hs Hd]. split; [exact Hs | apply Hd; reflexivity].
      - split; [intros Hs; split; [exact Hs | discriminate] | tauto]. }
    assert (H3 : In s q3 <-> In s q2 /\
                 (forall d, end_date = Some d -> ProcessingSession.created_at s <= d)).
    { unfold q3. destruct end_date as [d|].
      - rewrite filter_In, Z.leb_le. split.
        + intros [Hs Hd]. split; [exact Hs|]. intros d' [= <-]. exact Hd.
        + intros [Hs Hd]. split; [exact Hs | apply Hd; reflexivity].
      - split; [intros Hs; split; [exact Hs | discriminate] | tauto]. }
    destruct (truthy query) eqn:Hq.
    + rewrite filter_In, order_by_created_at_desc_In, notes_match_spec, H3, H2, H1.
      apply truthy_true in Hq. tauto.
    + rewrite order_by_created_at_desc_In, H3, H2, H1.
      destruct query; [tauto | discriminate].
  - unfold rows, search_rows. destruct (truthy query).
    + apply StronglySorted_List_filter, order_by_created_at_desc_sorted.
    + apply order_by_created_at_desc_sorted.
  - intros -> Hm -> ->. unfold rows, search_rows. cbn [truthy].
    apply truthy_true in Hm. rewrite Hm.
    apply merge_sort_Permutation.
Qed.
End SearchFacts.

Lemma search_sessions_spec_witness :
  In (toy_session "s-new" (70 * day) "gpt-4")
    (search_rows (ext := toy_externals) toy_history "gamma" "gpt-4"
       (Some (60 * day)) None) /\
  Permutation
    (search_rows (ext := toy_externals) toy_history "" "gpt-4" None None)
    [toy_session "s-old" (1 * day) "gpt-4";
     toy_session "s-new" (70 * day) "gpt-4"].
Proof.
  split.
  - apply (search_sessions_spec (ext := toy_externals) toy_history "gamma"
             "gpt-4" (Some (60 * day)) None).
    split; [right; right; left; reflexivity|]. split; [right; reflexivity|].
    split; [intros d [= <-]; vm_compute; discriminate|].
    split; [discriminate|].
    right. exists (toy_note "s-new" "Gamma NOTES"), "", " notes".
    split; reflexivity.
  - apply (search_sessions_spec (ext := toy_externals) toy_history ""
             "gpt-4" None None); [reflexivity | discriminate | reflexivity
                                 | reflexivity].
Defined.

(** C7 (as stated) fails: a session completed twice has two notes, the
    search reads the first one only, and a query that only the second note
    contains does not return the session. *)
Lemma search_misses_second_note :
  search_sessions (ext := toy_externals) toy_twice "beta" "" None None = [] /\
  exists s note pre post,
    In s (processing_sessions toy_twice) /\
    In note (generated_notes toy_twice) /\
    GeneratedNotes.session_id note = ProcessingSession.session_id s /\
    lower (Externals := toy_externals) (GeneratedNotes.notes_content note) =
      pre ++ lower (Externals := toy_externals) "beta" ++ post.
Proof.
  split; [vm_compute; reflexivity|].
  eexists _, (toy_note "#5" "Beta notes"), "", " notes".
  split; [vm_compute; left; reflexivity|].
  split; [vm_compute; right; left; reflexivity|].
  split; reflexivity.
Qed.

(** ** [export_data] *)

Section ExportFacts.
Context `{ext : Externals}.

Lemma limit_rows_split {A : Type} (n : Z) (rows : list A) :
  0 <= n ->
  exists rest,
    rows = (limit_rows n rows ++ rest)%list /\
    (length (limit_rows n rows) <= Z.to_nat n)%nat /\
    (rest <> [] -> length (limit_rows n rows) = Z.to_nat n).
Proof.
  intros Hn. unfold limit_rows.
  destruct (n <? 0) eqn:Hneg; [apply Z.ltb_lt in Hneg; lia|].
  exists (drop (Z.to_nat n) rows). split; [symmetry; apply take_drop|].
  split; [rewrite length_take; lia|].
  intros Hrest. rewrite length_take.
  destruct (Nat.le_gt_cases (length rows) (Z.to_nat n)) as [Hle|Hgt]; [|lia].
  exfalso. apply Hrest. apply drop_ge. exact Hle.
Qed.

(** C9: with a format whose lowercase is neither ["csv"] nor ["json"],
    [export_data] raises [ValueError] and the files on disk are as before.
    With a format whose lowercase is ["csv"] (or ["json"]) it writes one
    file, holding the serialised history rows, and returns its name, in
    which the formatted instant of the export stands between
    ["notetion_export_"] and the extension. The history rows are those of
    at most 1000 sessions: the first 1000, or all of them, of the sessions
    put newest first. *)
Theorem export_data_spec (fs : filesystem) (db : database) (now : Z)
    (format : string) :
  let rows := get_processing_history db 1000 in
  (lower format <> "csv" -> lower format <> "json" ->
   export_data fs db now format =
     (Raise (ValueError "Format must be 'csv' or 'json'"), fs)) /\
  (lower format = "csv" ->
   export_data fs db now format =
     (Ok ("notetion_export_" ++ strftime_export now ++ ".csv"),
      <["notetion_export_" ++ strftime_export now ++ ".csv" := to_csv rows]> fs)) /\
  (lower format = "json" ->
   export_data fs db now format =
     (Ok ("notetion_export_" ++ strftime_export now ++ ".json"),
      <["notetion_export_" ++ strftime_export now ++ ".json" := json_dump rows]> fs)) /\
  (length rows <= 1000)%nat /\
  exists kept rest,
    rows = List.map history_entry kept /\
    Permutation (kept ++ rest) (processing_sessions db) /\
    StronglySorted newer_first (kept ++ rest) /\
    (rest <> [] -> length kept = 1000%nat).
Proof.
  intros rows. unfold export_data. fold rows.
  split; [|split; [|split; [|split]]].
  - intros Hc Hj.
    apply String.eqb_neq in Hc, Hj. rewrite Hc, Hj. reflexivity.
  - intros ->. reflexivity.
  - intros ->. reflexivity.
  - unfold rows, get_processing_history. rewrite length_map.
    destruct (limit_rows_split 1000
                (order_by_created_at_desc (processing_sessions db)))
      as (rest & _ & Hlen & _); [lia|]. exact Hlen.
  - destruct (limit_rows_split 1000
                (order_by_created_at_desc (processing_sessions db)))
      as (rest & Hsplit & _ & Hfull); [lia|].
    exists (limit_rows 1000 (order_by_created_at_desc (processing_sessions db))),
           rest.
    split; [reflexivity|]. rewrite <- Hsplit.
    split; [apply merge_sort_Permutation|].
    split; [apply order_by_created_at_desc_sorted | exact Hfull].
Qed.
End ExportFacts.

Lemma export_data_spec_witness :
  export_data (ext := toy_externals) ∅ toy_history (71 * day) "xml" =
    (Raise (ValueError "Format must be 'csv' or 'json'"), ∅) /\
  export_data (ext := toy_externals) ∅ toy_history (71 * day) "CSV" =
    (Ok "notetion_export_6134400000000.csv",
     {["notetion_export_6134400000000.csv" := "s-new,s-mid,s-old"]}) /\
  export_data (ext := toy_externals) ∅ toy_history (71 * day) "json" =
    (Ok "notetion_export_6134400000000.json",
     {["notetion_export_6134400000000.json" := "[s-new,s-mid,s-old]"]}).
Proof.
  split; [|split].
  - apply (export_data_spec (ext := toy_externals) ∅ toy_history (71 * day) "xml");
      vm_compute; discriminate.
  - apply (export_data_spec (ext := toy_externals) ∅ toy_history (71 * day) "CSV").
    vm_compute. reflexivity.
  - apply (export_data_spec (ext := toy_externals) ∅ toy_history (71 * day) "json").
    vm_compute. reflexivity.
Defined.

(** ** The file rows *)

Section FileFacts.
Context `{ext : Externals}.

Lemma file_record_no_failure (sid : string) (file_info : FileInfo.t) :
  no_failure (file_record sid file_info).
Proof. split; reflexivity. Qed.

Lemma start_processed_files (db : database) (now : Z) (model : string)
    (temperature : float) (files_info : list FileInfo.t) (sid : string)
    (db' : database) :
  start_processing_session db now model temperature files_info = Ok (sid, db') ->
  processed_files db' =
    (processed_files db ++ List.map (file_record sid) files_info)%list.
Proof.
  unfold start_processing_session.
  destruct (sum_input_tokens model files_info 0) as [total|e]; cbn [bind];
    [|discriminate].
  destruct (query_session db (generate_session_id now)); [discriminate|].
  intros [= <- <-]. reflexivity.
Qed.

Lemma complete_processed_files (db : database) (sid : string) (success : bool)
    (notes : string) (time : float) (err : option string) (db' : database) :
  complete_processing_session db sid success notes time err = Ok (tt, db') ->
  processed_files db' = processed_files db.
Proof.
  unfold complete_processing_session.
  destruct (query_session db sid) as [session|]; [|intros [= <-]; reflexivity].
  destruct (output_tokens_of notes _) as [out|e]; cbn [bind]; [|discriminate].
  destruct (estimate_cost _ out _) as [cost|e]; cbn [bind]; [|discriminate].
  intros [= <-]. reflexivity.
Qed.

Lemma step_no_failure (db db' : database) :
  step db db' ->
  Forall no_failure (processed_files db) ->
  Forall no_failure (processed_files db').
Proof.
  intros Hstep Hdb. destruct Hstep as
    [db now model temperature files_info sid db' Hs
    |db sid success notes time err db' Hc
    |db now d n db' Hcl].
  - rewrite (start_processed_files _ _ _ _ _ _ _ Hs).
    apply List.Forall_app. split; [exact Hdb|].
    apply List.Forall_forall. intros f Hf. apply in_map_iff in Hf as (fi & <- & _).
    apply file_record_no_failure.
  - rewrite (complete_processed_files _ _ _ _ _ _ _ Hc). exact Hdb.
  - unfold delete_older in Hcl. injection Hcl as _ <-.
    rewrite fold_delete_session. cbn [processed_files].
    apply List.Forall_forall. intros f Hf. apply filter_In in Hf as [Hf _].
    rewrite List.Forall_forall in Hdb. apply Hdb, Hf.
Qed.

(** The [unique] constraint on [session_id] holds in every database the
    operations build. *)
Lemma find_None_not_In (sid : string) (rows : list ProcessingSession.t) :
  List.find (fun s => String.eqb (ProcessingSession.session_id s) sid) rows = None ->
  ~ In sid (List.map ProcessingSession.session_id rows).
Proof.
  induction rows as [|s rows IH]; cbn; [tauto|].
  destruct (String.eqb (ProcessingSession.session_id s) sid) eqn:Hs;
    [discriminate|].
  apply String.eqb_neq in Hs. intros Hf [He|Hin]; [congruence|].
  exact (IH Hf Hin).
Qed.

Lemma map_session_id_update (sid : string)
    (f : ProcessingSession.t -> ProcessingSession.t)
    (rows : list ProcessingSession.t) :
  (forall s, ProcessingSession.session_id (f s) = ProcessingSession.session_id s) ->
  List.map ProcessingSession.session_id (update_session sid f rows) =
  List.map ProcessingSession.session_id rows.
Proof.
  intros Hf. induction rows as [|s rows IH]; cbn; [reflexivity|].
  destruct (String.eqb (ProcessingSession.session_id s) sid); cbn.
  - rewrite Hf. reflexivity.
  - rewrite IH. reflexivity.
Qed.

Lemma NoDup_map_filter {Row Key : Type} (key : Row -> Key)
    (keep : Row -> bool) (rows : list Row) :
  List.NoDup (List.map key rows) ->
  List.NoDup (List.map key (List.filter keep rows)).
Proof.
  induction rows as [|r rows IH]; cbn; [trivial|].
  intros Hnd. apply List.NoDup_cons_iff in Hnd as [Hr Hnd].
  destruct (keep r); cbn; [|exact (IH Hnd)].
  apply List.NoDup_cons; [|exact (IH Hnd)].
  intros Hin. apply Hr. apply in_map_iff in Hin as (r' & Hk & Hin).
  apply filter_In in Hin as [Hin _]. apply in_map_iff. eauto.
Qed.

Lemma reachable_unique_ids (db : database) :
  reachable db ->
  List.NoDup (List.map ProcessingSession.session_id (processing_sessions db)).
Proof.
  induction 1 as [|db db' _ IH Hstep]; [constructor|].
  destruct Hstep as
    [db now model temperature files_info sid db' Hs
    |db sid success notes time err db' Hc
    |db now d n db' Hcl].
  - unfold start_processing_session in Hs.
    destruct (sum_input_tokens model files_info 0) as [total|e]; cbn [bind] in Hs;
      [|discriminate].
    destruct (query_session db (generate_session_id now)) eqn:Hq; [discriminate|].
    injection Hs as _ <-. cbn [processing_sessions].
    rewrite map_app. cbn [List.map new_session ProcessingSession.session_id].
    apply List.NoDup_app; [exact IH | repeat constructor; intros [] |].
    intros x Hx [<-|[]]. exact (find_None_not_In _ _ Hq Hx).
  - unfold complete_processing_session in Hc.
    destruct (query_session db sid) as [session|];
      [|injection Hc as <-; exact IH].
    destruct (output_tokens_of notes _) as [out|e]; cbn [bind] in Hc;
      [|discriminate].
    destruct (estimate_cost _ out _) as [cost|e]; cbn [bind] in Hc;
      [|discriminate].
    injection Hc as <-. cbn [processing_sessions].
    rewrite map_session_id_update by reflexivity. exact IH.
  - unfold delete_older in Hcl. injection Hcl as _ <-.
    rewrite fold_delete_session. cbn [processing_sessions].
    rewrite fold_delete_row_filter. apply NoDup_map_filter, IH.
Qed.

(** C10: the file rows that [start_processing_session] adds, one per
    element of [files_info], all have [processing_success = True] and
    [error_message = None], whatever the input; and every file row of a
    database built from the empty one by the operations of the ledger is
    such a row. *)
Theorem file_rows_record_no_failure :
  (forall db now model temperature files_info sid db',
     start_processing_session db now model temperature files_info
       = Ok (sid, db') ->
     exists added,
       processed_files db' = (processed_files db ++ added)%list /\
       length added = length files_info /\
       Forall no_failure added) /\
  (forall db, reachable db -> Forall no_failure (processed_files db)).
Proof.
  split.
  - intros db now model temperature files_info sid db' Hs.
    exists (List.map (file_record sid) files_info).
    split; [exact (start_processed_files _ _ _ _ _ _ _ Hs)|].
    split; [apply length_map|].
    apply List.Forall_forall. intros f Hf. apply in_map_iff in Hf as (fi & <- & _).
    apply file_record_no_failure.
  - intros db Hr. induction Hr as [|db db' _ IH Hstep].
    + constructor.
    + exact (step_no_failure db db' Hstep IH).
Qed.
End FileFacts.

Lemma file_rows_record_no_failure_witness :
  reachable (ext := toy_externals) toy_twice /\
  Forall no_failure (processed_files toy_twice) /\
  exists added,
    processed_files toy_db = added /\ length added = 2%nat /\
    Forall no_failure added.
Proof.
  assert (Hr : reachable (ext := toy_externals) toy_twice).
  { eapply reachable_step;
      [eapply reachable_step; [eapply reachable_step; [apply reachable_empty|]|]|].
    - eapply (step_start (ext := toy_externals) empty_database 5 "gpt-4"
                (PyFloat.literal 3 1) toy_files "#5" toy_db).
      vm_compute. reflexivity.
    - eapply (step_complete (ext := toy_externals) toy_db "#5" true
                "first draft" (PyFloat.literal 15 1) None).
      vm_compute. reflexivity.
    - eapply (step_complete (ext := toy_externals) _ "#5" true
                "Beta notes" (PyFloat.literal 25 1) None toy_twice).
      vm_compute. reflexivity. }
  split; [exact Hr|].
  split; [apply (file_rows_record_no_failure (ext := toy_externals)), Hr|].
  destruct (proj1 (file_rows_record_no_failure (ext := toy_externals))
              empty_database 5 "gpt-4" (PyFloat.literal 3 1) toy_files "#5"
              toy_db) as (added & Hf & Hl & Hn).
  - vm_compute. reflexivity.
  - exists added. split; [exact Hf|]. split; [exact Hl | exact Hn].
Defined.

(** * Further properties of the ledger *)

(** ** What each operation does to the tables *)

Section StepFacts.
Context `{ext : Externals}.

Lemma start_processing_session_inv (db : database) (now : Z) (model : string)
    (temperature : float) (files_info : list FileInfo.t) (sid : string)
    (db' : database) :
  start_processing_session db now model temperature files_info = Ok (sid, db') ->
  sid = generate_session_id now /\
  query_session db sid = None /\
  exists total,
    sum_input_tokens model files_info 0 = Ok total /\
    db' = {| processing_sessions :=
               processing_sessions db ++
               [new_session sid model temperature files_info total];
             processed_files :=
               processed_files db ++ List.map (file_record sid) files_info;
             generated_notes := generated_notes db |}.
Proof.
  unfold start_processing_session.
  destruct (sum_input_tokens model files_info 0) as [total|e] eqn:Hsum;
    cbn [bind]; [|discriminate].
  destruct (query_session db (generate_session_id now)) eqn:Hq; [discriminate|].
  intros [= <- <-]. split; [reflexivity|]. split; [exact Hq|].
  exists total. split; reflexivity.
Qed.

Lemma complete_processing_session_inv (db : database) (sid : string)
    (success : bool) (notes : string) (time : float) (err : option string)
    (db' : database) :
  complete_processing_session db sid success notes time err = Ok (tt, db') ->
  (query_session db sid = None /\ db' = db) \/
  exists session out cost,
    query_session db sid = Some session /\
    output_tokens_of notes (ProcessingSession.model_used session) = Ok out /\
    estimate_cost (ProcessingSession.total_input_tokens session) out
      (ProcessingSession.model_used session) = Ok cost /\
    db' = {| processing_sessions :=
               update_session sid
                 (fun s => completed s success time out cost notes err)
                 (processing_sessions db);
             processed_files := processed_files db;
             generated_notes :=
               if success && truthy notes
               then generated_notes db ++ [notes_record sid notes]
               else generated_notes db |}.
Proof.
  unfold complete_processing_session.
  destruct (query_session db sid) as [session|] eqn:Hq;
    [|intros [= <-]; left; split; reflexivity].
  destruct (output_tokens_of notes _) as [out|e] eqn:Ho; cbn [bind];
    [|discriminate].
  destruct (estimate_cost _ out _) as [cost|e] eqn:Hc; cbn [bind];
    [|discriminate].
  intros [= <-]. right. exists session, out, cost. repeat split; assumption.
Qed.

Lemma delete_older_eq (db : database) (cutoff : Z) :
  let old :=
    List.filter
      (fun s => ProcessingSession.created_at s <? cutoff)
      (processing_sessions db) in
  delete_older db cutoff =
    (Z.of_nat (length old),
     {| processing_sessions :=
          List.filter
            (fun s => negb (ProcessingSession.created_at s <? cutoff))
            (processing_sessions db);
        processed_files :=
          List.filter (fun f => negb (id_among old (ProcessedFile.session_id f)))
            (processed_files db);
        generated_notes :=
          List.filter (fun n => negb (id_among old (GeneratedNotes.session_id n)))
            (generated_notes db) |}).
Proof.
  intros old. unfold delete_older. fold old.
  rewrite fold_delete_session. unfold old at 2.
  rewrite fold_delete_row_filter. reflexivity.
Qed.

(** A cleanup that returns is a step of the relation. *)
Lemma cleanup_old_data_step (db : database) (now d n : Z) (db' : database) :
  cleanup_old_data db now d = Ok (n, db') -> step db db'.
Proof.
  intros Hok. apply cleanup_old_data_Ok in Hok as (_ & _ & Hdel).
  exact (step_cleanup db now d n db' Hdel).
Qed.

Lemma query_session_Some (db : database) (sid : string)
    (session : ProcessingSession.t) :
  query_session db sid = Some session ->
  In session (processing_sessions db) /\
  ProcessingSession.session_id session = sid.
Proof.
  unfold query_session. intros Hq. apply find_some in Hq as [Hin He].
  apply String.eqb_eq in He. split; assumption.
Qed.

Lemma query_session_None (db : database) (sid : string) :
  query_session db sid = None <->
  ~ In sid (List.map ProcessingSession.session_id (processing_sessions db)).
Proof.
  split; [apply find_None_not_In|].
  intros Hno. unfold query_session.
  destruct (List.find _ (processing_sessions db)) as [s|] eqn:Hf; [|reflexivity].
  exfalso. apply find_some in Hf as [Hin He]. apply String.eqb_eq in He.
  apply Hno. rewrite <- He. apply in_map, Hin.
Qed.

Lemma In_update_session (sid : string)
    (f : ProcessingSession.t -> ProcessingSession.t)
    (rows : list ProcessingSession.t) (s' : ProcessingSession.t) :
  In s' (update_session sid f rows) ->
  In s' rows \/
  exists s, In s rows /\ ProcessingSession.session_id s = sid /\ s' = f s.
Proof.
  induction rows as [|s rows IH]; cbn; [tauto|].
  destruct (String.eqb (ProcessingSession.session_id s) sid) eqn:Hs.
  - apply String.eqb_eq in Hs. intros [<-|Hin]; [|tauto].
    right. exists s. auto.
  - intros [<-|Hin]; [tauto|].
    destruct (IH Hin) as [H|(s0 & H0 & H1 & H2)]; [tauto|].
    right. exists s0. auto.
Qed.

Lemma session_id_among (old : list ProcessingSession.t)
    (s : ProcessingSession.t) :
  In s old -> id_among old (ProcessingSession.session_id s) = true.
Proof. intros Hs. apply id_among_true. eauto. Qed.
End StepFacts.

(** ** Invariants of the databases the operations build *)

Lemma estimate_cost_nonneg (i o : Z) (model : string) (cost : float) :
  0 <= i -> 0 <= o -> estimate_cost i o model = Ok cost ->
  PyFloat.nonneg cost = true.
Proof.
  intros Hi Ho. destruct (estimate_cost_pricing model) as [p Hp].
  unfold estimate_cost, getitem. rewrite Hp. cbn [bind].
  destruct (PRICING_finite _ _ Hp) as [Hin Hout].
  destruct (truediv_1000_cases i Hi) as [[-> Hfi]|[-> _]]; cbn [bind];
    [|discriminate].
  destruct (truediv_1000_cases o Ho) as [[-> Hfo]|[-> _]]; cbn [bind];
    [|discriminate].
  intros [= <-]. apply round_nonneg; [lia|].
  apply add_nonneg; apply mul_nonneg; assumption.
Qed.

Section InvariantFacts.
Context `{ext : Externals}.

Lemma sum_input_tokens_nonneg (model : string) (files_info : list FileInfo.t) :
  forall acc total,
    0 <= acc -> sum_input_tokens model files_info acc = Ok total -> 0 <= total.
Proof.
  induction files_info as [|f rest IH]; intros acc total Hacc;
    cbn [sum_input_tokens].
  - intros [= <-]. exact Hacc.
  - destruct (count_tokens_total (get_content f) model) as [n [Hn Hn0]].
    rewrite Hn. cbn [bind]. apply IH. lia.
Qed.

Lemma output_tokens_of_nonneg (notes model : string) (out : Z) :
  output_tokens_of notes model = Ok out -> 0 <= out.
Proof.
  destruct (output_tokens_of_total notes model) as [n [Hn Hn0]].
  rewrite Hn. intros [= <-]. exact Hn0.
Qed.

Lemma len_nonneg (s : string) : 0 <= len s.
Proof. unfold len. lia. Qed.

(** In a database built by the operations, every file row and every note
    row carries the id of a session of the table. *)
Lemma rows_have_session (db : database) :
  reachable db ->
  (forall f, In f (processed_files db) ->
     In (ProcessedFile.session_id f)
        (List.map ProcessingSession.session_id (processing_sessions db))) /\
  (forall n, In n (generated_notes db) ->
     In (GeneratedNotes.session_id n)
        (List.map ProcessingSession.session_id (processing_sessions db))).
Proof.
  induction 1 as [|db db' _ [IHf IHn] Hstep]; [split; intros ? []|].
  destruct Hstep as
    [db now model temperature files_info sid db' Hs
    |db sid success notes time err db' Hc
    |db now d n db' Hcl].
  - apply start_processing_session_inv in Hs as (_ & _ & total & _ & ->).
    cbn [processing_sessions processed_files generated_notes].
    rewrite map_app. split.
    + intros f Hf. apply in_app_or in Hf as [Hf|Hf]; apply in_or_app.
      * left. exact (IHf f Hf).
      * right. apply in_map_iff in Hf as (fi & <- & _). left. reflexivity.
    + intros n Hn. apply in_or_app. left. exact (IHn n Hn).
  - apply complete_processing_session_inv in Hc
      as [[_ ->]|(session & out & cost & Hq & _ & _ & ->)]; [split; assumption|].
    cbn [processing_sessions processed_files generated_notes].
    rewrite map_session_id_update by reflexivity. split; [exact IHf|].
    intros n Hn. destruct (success && truthy notes); [|exact (IHn n Hn)].
    apply in_app_or in Hn as [Hn|[<-|[]]]; [exact (IHn n Hn)|].
    apply query_session_Some in Hq as [Hin <-].
    cbn [notes_record GeneratedNotes.session_id]. apply in_map, Hin.
  - rewrite delete_older_eq in Hcl. injection Hcl as _ <-.
    cbn [processing_sessions processed_files generated_notes].
    set (old := List.filter _ (processing_sessions db)).
    assert (Hkeep : forall sid,
              In sid (List.map ProcessingSession.session_id (processing_sessions db)) ->
              id_among old sid = false ->
              In sid (List.map ProcessingSession.session_id
                        (List.filter
                           (fun s => negb (ProcessingSession.created_at s
                                           <? now - timedelta_days d))
                           (processing_sessions db)))).
    { intros sid Hin Hno. apply in_map_iff in Hin as (s & <- & Hs).
      apply in_map. apply filter_In. split; [exact Hs|].
      destruct (ProcessingSession.created_at s <? now - timedelta_days d) eqn:Ho;
        [|reflexivity].
      assert (In s old) by (apply filter_In; split; assumption).
      rewrite session_id_among in Hno by assumption. discriminate. }
    split.
    + intros f Hf. apply filter_In in Hf as [Hf Hno].
      apply negb_true_iff in Hno. exact (Hkeep _ (IHf f Hf) Hno).
    + intros n0 Hn. apply filter_In in Hn as [Hn Hno].
      apply negb_true_iff in Hno. exact (Hkeep _ (IHn n0 Hn) Hno).
Qed.

(** X12: in a database built by the operations, every note row has a content
    that is not empty and the hash of that content. *)
Lemma notes_hashed (db : database) :
  reachable db ->
  forall n, In n (generated_notes db) ->
    GeneratedNotes.notes_content n <> "" /\
    GeneratedNotes.notes_hash n =
      calculate_file_hash (GeneratedNotes.notes_content n).
Proof.
  induction 1 as [|db db' _ IH Hstep]; [intros ? []|].
  destruct Hstep as
    [db now model temperature files_info sid db' Hs
    |db sid success notes time err db' Hc
    |db now d n db' Hcl].
  - apply start_processing_session_inv in Hs as (_ & _ & total & _ & ->).
    exact IH.
  - apply complete_processing_session_inv in Hc
      as [[_ ->]|(session & out & cost & _ & _ & _ & ->)]; [exact IH|].
    cbn [generated_notes]. intros n Hn.
    destruct success; cbn [andb] in Hn; [|exact (IH n Hn)].
    destruct (truthy notes) eqn:Ht; [|exact (IH n Hn)].
    apply in_app_or in Hn as [Hn|[<-|[]]]; [exact (IH n Hn)|].
    split; [apply truthy_true, Ht | reflexivity].
  - rewrite delete_older_eq in Hcl. injection Hcl as _ <-.
    cbn [generated_notes]. intros n0 Hn. apply filter_In in Hn as [Hn _].
    exact (IH n0 Hn).
Qed.

(** X13: in a database built by the operations, no session has a negative
    count of files, of input tokens or of output tokens, a negative
    [notes_length], or an estimated cost that is negative or not a
    number. *)
Lemma sessions_nonneg (db : database) :
  reachable db ->
  forall s, In s (processing_sessions db) ->
    0 <= ProcessingSession.total_files s /\
    0 <= ProcessingSession.total_input_tokens s /\
    0 <= ProcessingSession.total_output_tokens s /\
    0 <= ProcessingSession.notes_length s /\
    PyFloat.leb PyFloat.zero (ProcessingSession.estimated_cost_usd s) = true.
Proof.
  intros Hr.
  assert (H : forall s, In s (processing_sessions db) ->
            0 <= ProcessingSession.total_files s /\
            0 <= ProcessingSession.total_input_tokens s /\
            0 <= ProcessingSession.total_output_tokens s /\
            0 <= ProcessingSession.notes_length s /\
            PyFloat.nonneg (ProcessingSession.estimated_cost_usd s) = true);
    [|intros s Hs; destruct (H s Hs) as (? & ? & ? & ? & Hc);
      repeat (split; [assumption|]); apply nonneg_compare, Hc].
  induction Hr as [|db db' _ IH Hstep]; [intros ? []|].
  destruct Hstep as
    [db now model temperature files_info sid db' Hs
    |db sid success notes time err db' Hc
    |db now d n db' Hcl].
  - apply start_processing_session_inv in Hs as (_ & _ & total & Hsum & ->).
    cbn [processing_sessions]. intros s Hs.
    apply in_app_or in Hs as [Hs|[<-|[]]]; [exact (IH s Hs)|].
    cbn [new_session ProcessingSession.total_files
         ProcessingSession.total_input_tokens
         ProcessingSession.total_output_tokens ProcessingSession.notes_length
         ProcessingSession.estimated_cost_usd].
    split; [lia|].
    split; [exact (sum_input_tokens_nonneg _ _ _ _ (Z.le_refl 0) Hsum)|].
    split; [lia|]. split; [lia | reflexivity].
  - apply complete_processing_session_inv in Hc
      as [[_ ->]|(session & out & cost & Hq & Ho & Hc & ->)]; [exact IH|].
    cbn [processing_sessions]. intros s Hs.
    apply In_update_session in Hs as [Hs|(s0 & Hs0 & _ & ->)];
      [exact (IH s Hs)|].
    destruct (IH s0 Hs0) as (Hf & Hi & _ & _ & _).
    apply query_session_Some in Hq as [Hin _].
    destruct (IH session Hin) as (_ & Hin_tokens & _).
    cbn [completed ProcessingSession.total_files
         ProcessingSession.total_input_tokens
         ProcessingSession.total_output_tokens ProcessingSession.notes_length
         ProcessingSession.estimated_cost_usd].
    pose proof (output_tokens_of_nonneg _ _ _ Ho) as Hout.
    split; [exact Hf|]. split; [exact Hi|]. split; [exact Hout|].
    split; [destruct (truthy notes); [apply len_nonneg | lia]|].
    exact (estimate_cost_nonneg _ _ _ _ Hin_tokens Hout Hc).
  - rewrite delete_older_eq in Hcl. injection Hcl as _ <-.
    cbn [processing_sessions]. intros s Hs. apply filter_In in Hs as [Hs _].
    exact (IH s Hs).
Qed.
Lemma filter_file_records (sid x : string) (files_info : list FileInfo.t) :
  List.filter (fun f => String.eqb (ProcessedFile.session_id f) x)
    (List.map (file_record sid) files_info) =
  if String.eqb sid x then List.map (file_record sid) files_info else [].
Proof.
  induction files_info as [|fi rest IH]; cbn [List.map List.filter];
    [destruct (String.eqb sid x); reflexivity|].
  rewrite IH. cbn [file_record ProcessedFile.session_id].
  destruct (String.eqb sid x); reflexivity.
Qed.

Lemma query_files_unknown (db : database) (sid : string) :
  (forall f, In f (processed_files db) ->
     In (ProcessedFile.session_id f)
        (List.map ProcessingSession.session_id (processing_sessions db))) ->
  query_session db sid = None ->
  query_files db sid = [].
Proof.
  intros Hrows Hq. apply query_session_None in Hq. unfold query_files.
  destruct (List.filter _ (processed_files db)) as [|f fs] eqn:Hf; [reflexivity|].
  exfalso. assert (Hin : In f (f :: fs)) by (left; reflexivity).
  rewrite <- Hf in Hin. apply filter_In in Hin as [Hin He].
  apply String.eqb_eq in He. apply Hq. rewrite <- He. exact (Hrows f Hin).
Qed.

Lemma query_notes_unknown (db : database) (sid : string) :
  (forall n, In n (generated_notes db) ->
     In (GeneratedNotes.session_id n)
        (List.map ProcessingSession.session_id (processing_sessions db))) ->
  query_session db sid = None ->
  query_notes db sid = None.
Proof.
  intros Hrows Hq. apply query_session_None in Hq. unfold query_notes.
  destruct (List.find _ (generated_notes db)) as [n|] eqn:Hf; [|reflexivity].
  exfalso. apply find_some in Hf as [Hin He]. apply String.eqb_eq in He.
  apply Hq. rewrite <- He. exact (Hrows n Hin).
Qed.

(** The sessions that a cleanup keeps have an id that no deleted session
    has, the ids being unique. *)
Lemma kept_id_not_among (rows : list ProcessingSession.t) (cutoff : Z)
    (s : ProcessingSession.t) :
  List.NoDup (List.map ProcessingSession.session_id rows) ->
  In s rows -> (ProcessingSession.created_at s <? cutoff) = false ->
  id_among
    (List.filter (fun r => ProcessingSession.created_at r <? cutoff) rows)
    (ProcessingSession.session_id s) = false.
Proof.
  intros Hnd Hs Hkept. apply not_true_iff_false. intros Ha.
  apply id_among_true in Ha as (o & Ho & He).
  apply filter_In in Ho as [Ho Hold].
  assert (o = s) by (eapply NoDup_map_eq; eauto). subst o. congruence.
Qed.

Lemma query_files_after_cleanup (files : list ProcessedFile.t)
    (old : list ProcessingSession.t) (sid : string) :
  id_among old sid = false ->
  List.filter (fun f => String.eqb (ProcessedFile.session_id f) sid)
    (List.filter (fun f => negb (id_among old (ProcessedFile.session_id f)))
       files) =
  List.filter (fun f => String.eqb (ProcessedFile.session_id f) sid) files.
Proof.
  intros Hno. rewrite filter_filter_andb. apply filter_ext. intros f.
  destruct (String.eqb (ProcessedFile.session_id f) sid) eqn:He;
    [|apply andb_false_r].
  apply String.eqb_eq in He. rewrite He, Hno. reflexivity.
Qed.

(** In a database built by the operations, [total_files] is the number of
    file rows of the session. *)
Lemma total_files_counts_rows (db : database) :
  reachable db ->
  forall s, In s (processing_sessions db) ->
    ProcessingSession.total_files s =
    Z.of_nat (length (query_files db (ProcessingSession.session_id s))).
Proof.
  induction 1 as [|db db' Hr IH Hstep]; [intros ? []|].
  pose proof (reachable_unique_ids db Hr) as Hnd.
  destruct (rows_have_session db Hr) as [Hfiles _].
  destruct Hstep as
    [db now model temperature files_info sid db' Hs
    |db sid success notes time err db' Hc
    |db now d n db' Hcl].
  - apply start_processing_session_inv in Hs as (_ & Hq & total & _ & ->).
    intros s Hs. unfold query_files. cbn [processing_sessions processed_files] in *.
    rewrite List.filter_app, filter_file_records, length_app.
    apply in_app_or in Hs as [Hs|[<-|[]]].
    + assert (Hne : String.eqb sid (ProcessingSession.session_id s) = false).
      { apply String.eqb_neq. intros ->. apply query_session_None in Hq.
        apply Hq. apply in_map, Hs. }
      rewrite Hne. cbn [length]. rewrite Nat.add_0_r. exact (IH s Hs).
    + cbn [new_session ProcessingSession.session_id ProcessingSession.total_files].
      rewrite String.eqb_refl, length_map.
      fold (query_files db sid).
      rewrite (query_files_unknown db sid Hfiles Hq). reflexivity.
  - apply complete_processing_session_inv in Hc
      as [[_ ->]|(session & out & cost & _ & _ & _ & ->)]; [exact IH|].
    intros s Hs. unfold query_files. cbn [processing_sessions processed_files] in *.
    apply In_update_session in Hs as [Hs|(s0 & Hs0 & _ & ->)];
      [exact (IH s Hs) | exact (IH s0 Hs0)].
  - rewrite delete_older_eq in Hcl. injection Hcl as _ <-.
    intros s Hs. unfold query_files. cbn [processing_sessions processed_files] in *.
    apply filter_In in Hs as [Hs Hkept]. apply negb_true_iff in Hkept.
    rewrite query_files_after_cleanup
      by (apply kept_id_not_among; assumption).
    exact (IH s Hs).
Qed.
End InvariantFacts.

(** ** [get_session_details] after each operation *)

Section DetailsFacts.
Context `{ext : Externals}.

Lemma find_app_Some_l {Row : Type} (p : Row -> bool) (rows more : list Row)
    (r : Row) :
  List.find p rows = Some r -> List.find p (rows ++ more) = Some r.
Proof.
  induction rows as [|r0 rows IH]; cbn; [discriminate|].
  destruct (p r0); [trivial | exact IH].
Qed.

Lemma find_filter_implied {Row : Type} (p keep : Row -> bool)
    (rows : list Row) :
  (forall r, In r rows -> p r = true -> keep r = true) ->
  List.find p (List.filter keep rows) = List.find p rows.
Proof.
  induction rows as [|r rows IH]; intros Hk; cbn; [reflexivity|].
  assert (Hrest : forall r', In r' rows -> p r' = true -> keep r' = true)
    by (intros r' Hr'; apply Hk; right; exact Hr').
  destruct (p r) eqn:Hp.
  - rewrite (Hk r (or_introl eq_refl) Hp). cbn. rewrite Hp. reflexivity.
  - destruct (keep r); cbn; [rewrite Hp|]; exact (IH Hrest).
Qed.

Lemma find_filter_excluded {Row : Type} (p keep : Row -> bool)
    (rows : list Row) :
  (forall r, In r rows -> p r = true -> keep r = false) ->
  List.find p (List.filter keep rows) = None.
Proof.
  induction rows as [|r rows IH]; intros Hk; cbn; [reflexivity|].
  assert (Hrest : forall r', In r' rows -> p r' = true -> keep r' = false)
    by (intros r' Hr'; apply Hk; right; exact Hr').
  destruct (keep r) eqn:Hkeep; cbn; [|exact (IH Hrest)].
  destruct (p r) eqn:Hp; [|exact (IH Hrest)].
  rewrite (Hk r (or_introl eq_refl) Hp) in Hkeep. discriminate.
Qed.

Lemma find_update_session_other (sid sid' : string)
    (f : ProcessingSession.t -> ProcessingSession.t)
    (rows : list ProcessingSession.t) :
  (forall s, ProcessingSession.session_id (f s) = ProcessingSession.session_id s) ->
  sid' <> sid ->
  List.find (fun s => String.eqb (ProcessingSession.session_id s) sid')
    (update_session sid f rows) =
  List.find (fun s => String.eqb (ProcessingSession.session_id s) sid') rows.
Proof.
  intros Hf Hne. induction rows as [|s rows IH]; cbn; [reflexivity|].
  destruct (String.eqb (ProcessingSession.session_id s) sid) eqn:Hs; cbn.
  - rewrite Hf. apply String.eqb_eq in Hs. rewrite Hs.
    assert (String.eqb sid sid' = false) as -> by (apply String.eqb_neq; congruence).
    reflexivity.
  - rewrite IH. reflexivity.
Qed.

Lemma find_app_notes (sid sid' content : string)
    (notes : list GeneratedNotes.t) :
  List.find (fun n => String.eqb (GeneratedNotes.session_id n) sid')
    (notes ++ [notes_record sid content]) =
  match List.find (fun n => String.eqb (GeneratedNotes.session_id n) sid') notes with
  | Some n => Some n
  | None => if String.eqb sid sid' then Some (notes_record sid content) else None
  end.
Proof.
  induction notes as [|n notes IH]; cbn [app List.find].
  - cbn [notes_record GeneratedNotes.session_id].
    destruct (String.eqb sid sid'); reflexivity.
  - destruct (String.eqb (GeneratedNotes.session_id n) sid'); [reflexivity|].
    exact IH.
Qed.

(** X1: after a [start_processing_session] that returned, on a database built
    by the operations, [get_session_details] of the new id gives the
    session as started, one file entry per element of [files_info], in
    their order and with no failure recorded, and no notes; the details of
    every other id are what they were. *)
Theorem details_after_start (db : database) (now : Z) (model : string)
    (temperature : float) (files_info : list FileInfo.t) (sid : string)
    (db' : database) :
  reachable db ->
  start_processing_session db now model temperature files_info = Ok (sid, db') ->
  (exists d,
     get_session_details db' sid = Some d /\
     SessionDetails.files d =
       List.map (fun fi => file_entry (file_record sid fi)) files_info /\
     List.map FileEntry.filename (SessionDetails.files d) =
       List.map FileInfo.filename files_info /\
     SessionDetails.notes d = None /\
     HistoryEntry.session_id (SessionDetails.session d) = sid /\
     HistoryEntry.model_used (SessionDetails.session d) = model /\
     HistoryEntry.temperature (SessionDetails.session d) = temperature /\
     HistoryEntry.total_files (SessionDetails.session d) =
       Z.of_nat (length files_info) /\
     HistoryEntry.success (SessionDetails.session d) = false /\
     HistoryEntry.total_output_tokens (SessionDetails.session d) = 0 /\
     HistoryEntry.notes_length (SessionDetails.session d) = 0 /\
     HistoryEntry.error_message (SessionDetails.session d) = None) /\
  (forall sid', sid' <> sid ->
     get_session_details db' sid' = get_session_details db sid').
Proof.
  intros Hr Hs.
  destruct (rows_have_session db Hr) as [Hfiles Hnotes].
  apply start_processing_session_inv in Hs as (_ & Hq & total & _ & ->).
  split.
  - unfold get_session_details, query_session, query_files, query_notes.
    cbn [processing_sessions processed_files generated_notes].
    unfold query_session in Hq. rewrite (find_app_None _ _ _ Hq).
    cbn [List.find new_session ProcessingSession.session_id].
    rewrite String.eqb_refl.
    rewrite List.filter_app, filter_file_records, String.eqb_refl.
    fold (query_files db sid). fold (query_notes db sid).
    rewrite (query_files_unknown db sid Hfiles Hq).
    rewrite (query_notes_unknown db sid Hnotes Hq).
    eexists. split; [reflexivity|].
    cbn [SessionDetails.files SessionDetails.notes SessionDetails.session app].
    rewrite List.map_map. split; [reflexivity|].
    rewrite List.map_map. split; [reflexivity|].
    repeat (split; [reflexivity|]). reflexivity.
  - intros sid' Hne.
    unfold get_session_details, query_session, query_files, query_notes.
    cbn [processing_sessions processed_files generated_notes].
    assert (Hneb : String.eqb sid sid' = false)
      by (apply String.eqb_neq; congruence).
    rewrite List.filter_app, filter_file_records, Hneb, app_nil_r.
    destruct (List.find _ (processing_sessions db)) as [s|] eqn:Hf.
    + rewrite (find_app_Some_l _ _ _ _ Hf). reflexivity.
    + rewrite (find_app_None _ _ _ Hf).
      cbn [List.find new_session ProcessingSession.session_id].
      rewrite Hneb. reflexivity.
Qed.
(** X2: after a [complete_processing_session] that returned, on an id of the
    table, [get_session_details] shows the outcome given to the call and
    the same files; the notes it shows are those of the first note row of
    the session: the notes of this call only if the session had none and
    the call stored one, and otherwise the notes shown before. The
    details of every other id are what they were. *)
Theorem details_after_complete (db : database) (sid : string)
    (session : ProcessingSession.t) (success : bool) (notes : string)
    (time : float) (err : option string) (db' : database) :
  query_session db sid = Some session ->
  complete_processing_session db sid success notes time err = Ok (tt, db') ->
  (exists d0 d,
     get_session_details db sid = Some d0 /\
     get_session_details db' sid = Some d /\
     SessionDetails.files d = SessionDetails.files d0 /\
     SessionDetails.notes d =
       match SessionDetails.notes d0 with
       | Some shown => Some shown
       | None => if success && truthy notes then Some notes else None
       end /\
     HistoryEntry.success (SessionDetails.session d) = success /\
     HistoryEntry.processing_time_seconds (SessionDetails.session d) = time /\
     HistoryEntry.error_message (SessionDetails.session d) = err /\
     HistoryEntry.notes_length (SessionDetails.session d) = len notes /\
     HistoryEntry.total_input_tokens (SessionDetails.session d) =
       HistoryEntry.total_input_tokens (SessionDetails.session d0) /\
     HistoryEntry.model_used (SessionDetails.session d) =
       HistoryEntry.model_used (SessionDetails.session d0) /\
     HistoryEntry.total_files (SessionDetails.session d) =
       HistoryEntry.total_files (SessionDetails.session d0) /\
     HistoryEntry.created_at (SessionDetails.session d) =
       HistoryEntry.created_at (SessionDetails.session d0)) /\
  (forall sid', sid' <> sid ->
     get_session_details db' sid' = get_session_details db sid').
Proof.
  intros Hq Hc.
  apply complete_processing_session_inv in Hc
    as [[Hnone _]|(session' & out & cost & Hq' & _ & _ & ->)]; [congruence|].
  rewrite Hq in Hq'. injection Hq' as <-.
  split.
  - unfold get_session_details. rewrite Hq.
    assert (Hq2 : query_session
              {| processing_sessions :=
                   update_session sid
                     (fun s => completed s success time out cost notes err)
                     (processing_sessions db);
                 processed_files := processed_files db;
                 generated_notes :=
                   if success && truthy notes
                   then generated_notes db ++ [notes_record sid notes]
                   else generated_notes db |} sid
              = Some (completed session success time out cost notes err)).
    { unfold query_session in *. cbn [processing_sessions].
      apply (find_update_session sid
               (fun s => completed s success time out cost notes err));
        [reflexivity | exact Hq]. }
    rewrite Hq2. eexists _, _. split; [reflexivity|]. split; [reflexivity|].
    cbn [SessionDetails.files SessionDetails.notes SessionDetails.session].
    split; [reflexivity|]. split.
    + unfold query_notes. cbn [generated_notes].
      destruct (success && truthy notes).
      * rewrite find_app_notes, String.eqb_refl.
        destruct (List.find _ (generated_notes db)); reflexivity.
      * destruct (List.find _ (generated_notes db)); reflexivity.
    + repeat (split; [reflexivity|]).
      split; [apply notes_length_completed|].
      repeat (split; [reflexivity|]). reflexivity.
  - intros sid' Hne. unfold get_session_details, query_session, query_files,
      query_notes. cbn [processing_sessions processed_files generated_notes].
    rewrite find_update_session_other by (reflexivity || assumption).
    destruct (List.find _ (processing_sessions db)) as [s|]; [|reflexivity].
    destruct (success && truthy notes); [|reflexivity].
    rewrite find_app_notes.
    assert (String.eqb sid sid' = false) as ->
      by (apply String.eqb_neq; congruence).
    destruct (List.find _ (generated_notes db)); reflexivity.
Qed.

(** X3: after a [cleanup_old_data] whose retention has at most 999999999
    days either way and whose cutoff is a datetime, the ids being unique:
    the call returns, and [get_session_details] then gives [None] for a
    session that was strictly older than the cutoff and gives for every
    other session exactly what it gave before. *)
Theorem details_after_cleanup (db : database) (now d : Z) (sid : string)
    (session : ProcessingSession.t) :
  List.NoDup (List.map ProcessingSession.session_id (processing_sessions db)) ->
  query_session db sid = Some session ->
  Z.abs d <= 999999999 ->
  datetime_min <= now - d * 86400000000 <= datetime_max ->
  exists n db',
    cleanup_old_data db now d = Ok (n, db') /\
    (ProcessingSession.created_at session < now - d * 86400000000 ->
     get_session_details db' sid = None) /\
    (now - d * 86400000000 <= ProcessingSession.created_at session ->
     get_session_details db' sid = get_session_details db sid).
Proof.
  intros Hnd Hq Hd Hc.
  exists (fst (delete_older db (now - d * 86400000000))).
  exists (snd (delete_older db (now - d * 86400000000))).
  split.
  { rewrite (proj1 (cleanup_old_data_cases db now d) Hd Hc).
    destruct (delete_older db (now - d * 86400000000)). reflexivity. }
  clear Hd Hc. rewrite delete_older_eq. cbn [snd].
  set (cutoff := now - d * 86400000000).
  set (old := List.filter
                (fun s => ProcessingSession.created_at s <? cutoff)
                (processing_sessions db)).
  pose proof (query_session_Some _ _ _ Hq) as [Hin Hid].
  assert (Hsame : forall r, In r (processing_sessions db) ->
            String.eqb (ProcessingSession.session_id r) sid = true ->
            r = session).
  { intros r Hr He. apply String.eqb_eq in He.
    eapply NoDup_map_eq; eauto. congruence. }
  split.
  - intros Hold. unfold get_session_details, query_session.
    cbn [processing_sessions].
    rewrite find_filter_excluded; [reflexivity|].
    intros r Hr He. rewrite (Hsame r Hr He).
    apply negb_false_iff, Z.ltb_lt. exact Hold.
  - intros Hkept.
    assert (Hk : (ProcessingSession.created_at session <? cutoff) = false)
      by (apply Z.ltb_ge; exact Hkept).
    assert (Hno : id_among old sid = false).
    { rewrite <- Hid. apply kept_id_not_among; assumption. }
    unfold get_session_details, query_session, query_files, query_notes.
    cbn [processing_sessions processed_files generated_notes].
    rewrite find_filter_implied
      by (intros r Hr He; rewrite (Hsame r Hr He), Hk; reflexivity).
    rewrite (query_files_after_cleanup _ _ _ Hno).
    rewrite find_filter_implied; [reflexivity|].
    intros n Hn He. apply String.eqb_eq in He. rewrite He, Hno. reflexivity.
Qed.
End DetailsFacts.

(** ** The sessions and rows of a database built by the operations *)

Section StoredFacts.
Context `{ext : Externals}.

Lemma query_session_stored (db : database) (s : ProcessingSession.t) :
  List.NoDup (List.map ProcessingSession.session_id (processing_sessions db)) ->
  In s (processing_sessions db) ->
  query_session db (ProcessingSession.session_id s) = Some s.
Proof.
  unfold query_session.
  induction (processing_sessions db) as [|r rows IH]; [intros _ []|].
  cbn [List.map List.find]. intros Hnd Hin.
  apply List.NoDup_cons_iff in Hnd as [Hr Hnd].
  destruct (String.eqb_spec (ProcessingSession.session_id r)
              (ProcessingSession.session_id s)) as [He|Hne].
  - destruct Hin as [->|Hin]; [reflexivity|].
    exfalso. apply Hr. rewrite He. apply in_map, Hin.
  - destruct Hin as [->|Hin]; [congruence|]. exact (IH Hnd Hin).
Qed.

(** X14: in a database built by the operations, the id of a stored session
    finds that session and no other: [get_session_details] of the id
    shows the columns of this very row and as many files as its
    [total_files] says, and two rows of the table with the same id are the
    same row. *)
Theorem details_of_stored_session (db : database) (s : ProcessingSession.t) :
  reachable db -> In s (processing_sessions db) ->
  (exists d,
     get_session_details db (ProcessingSession.session_id s) = Some d /\
     SessionDetails.session d = history_entry s /\
     Z.of_nat (length (SessionDetails.files d)) =
       ProcessingSession.total_files s) /\
  (forall s', In s' (processing_sessions db) ->
     ProcessingSession.session_id s' = ProcessingSession.session_id s ->
     s' = s).
Proof.
  intros Hr Hin. pose proof (reachable_unique_ids db Hr) as Hnd.
  pose proof (query_session_stored db s Hnd Hin) as Hq. split.
  - unfold get_session_details. rewrite Hq. eexists. split; [reflexivity|].
    cbn [SessionDetails.session SessionDetails.files]. split; [reflexivity|].
    rewrite length_map. symmetry. exact (total_files_counts_rows db Hr s Hin).
  - intros s' Hin' He. pose proof (query_session_stored db s' Hnd Hin') as Hq'.
    rewrite He, Hq in Hq'. congruence.
Qed.

(** X15: in a database built by the operations there is no orphan row: the
    [session_id] of every file row and of every note row finds a session,
    and the details of a session that has a note row show notes. *)
Theorem no_orphan_rows (db : database) :
  reachable db ->
  (forall f, In f (processed_files db) ->
     exists d,
       get_session_details db (ProcessedFile.session_id f) = Some d /\
       In (file_entry f) (SessionDetails.files d)) /\
  (forall n, In n (generated_notes db) ->
     exists d shown,
       get_session_details db (GeneratedNotes.session_id n) = Some d /\
       SessionDetails.notes d = Some shown).
Proof.
  intros Hr. destruct (rows_have_session db Hr) as [Hf Hn]. split.
  - intros f Hin. unfold get_session_details.
    destruct (query_session db (ProcessedFile.session_id f)) as [s|] eqn:Hq.
    + eexists. split; [reflexivity|]. cbn [SessionDetails.files].
      apply in_map. unfold query_files. apply filter_In. split; [exact Hin|].
      apply String.eqb_refl.
    + apply query_session_None in Hq. destruct (Hq (Hf f Hin)).
  - intros n Hin. unfold get_session_details.
    destruct (query_session db (GeneratedNotes.session_id n)) as [s|] eqn:Hq.
    + unfold query_notes.
      destruct (List.find
                  (fun n0 => String.eqb (GeneratedNotes.session_id n0)
                               (GeneratedNotes.session_id n))
                  (generated_notes db)) as [n1|] eqn:Hfind.
      * eexists. eexists. split; reflexivity.
      * exfalso. pose proof (List.find_none _ _ Hfind n Hin) as Hno.
        cbn beta in Hno. rewrite String.eqb_refl in Hno. discriminate.
    + apply query_session_None in Hq. destruct (Hq (Hn n Hin)).
Qed.
End StoredFacts.

Lemma toy_db_reachable : reachable (ext := toy_externals) toy_db.
Proof.
  eapply reachable_step; [apply reachable_empty|].
  eapply (step_start (ext := toy_externals) empty_database 5 "gpt-4"
            (PyFloat.literal 3 1) toy_files "#5" toy_db).
  vm_compute. reflexivity.
Qed.

Lemma toy_twice_reachable : reachable (ext := toy_externals) toy_twice.
Proof.
  eapply reachable_step; [eapply reachable_step; [apply toy_db_reachable|]|].
  - eapply (step_complete (ext := toy_externals) toy_db "#5" true
              "first draft" (PyFloat.literal 15 1) None).
    vm_compute. reflexivity.
  - eapply (step_complete (ext := toy_externals) _ "#5" true
              "Beta notes" (PyFloat.literal 25 1) None toy_twice).
    vm_compute. reflexivity.
Qed.

Lemma notes_hashed_witness :
  reachable (ext := toy_externals) toy_twice /\
  In (toy_note "#5" "Beta notes") (generated_notes toy_twice) /\
  GeneratedNotes.notes_hash (toy_note "#5" "Beta notes") =
    calculate_file_hash (ext := toy_externals) "Beta notes".
Proof.
  assert (Hin : In (toy_note "#5" "Beta notes") (generated_notes toy_twice))
    by (right; left; vm_compute; reflexivity).
  split; [exact toy_twice_reachable|]. split; [exact Hin|].
  exact (proj2 (notes_hashed (ext := toy_externals) toy_twice
                  toy_twice_reachable _ Hin)).
Defined.

Lemma sessions_nonneg_witness :
  reachable (ext := toy_externals) toy_twice /\
  forall s, In s (processing_sessions toy_twice) ->
    0 <= ProcessingSession.total_output_tokens s /\
    PyFloat.leb PyFloat.zero (ProcessingSession.estimated_cost_usd s) = true.
Proof.
  split; [exact toy_twice_reachable|]. intros s Hin.
  destruct (sessions_nonneg (ext := toy_externals) toy_twice
              toy_twice_reachable s Hin) as (_ & _ & Hout & _ & Hcost).
  split; [exact Hout | exact Hcost].
Defined.

Lemma details_of_stored_session_witness :
  reachable (ext := toy_externals) toy_twice /\
  exists s d,
    In s (processing_sessions toy_twice) /\
    get_session_details toy_twice "#5" = Some d /\
    SessionDetails.session d = history_entry s /\
    length (SessionDetails.files d) = 2%nat.
Proof.
  split; [exact toy_twice_reachable|].
  set (s := default (toy_session "" 0 "") (query_session toy_twice "#5")).
  assert (Hin : In s (processing_sessions toy_twice))
    by (left; vm_compute; reflexivity).
  destruct (details_of_stored_session (ext := toy_externals) toy_twice s
              toy_twice_reachable Hin) as [(d & Hd & Hs & Hl) _].
  exists s, d. split; [exact Hin|]. split; [exact Hd|]. split; [exact Hs|].
  apply Nat2Z.inj. rewrite Hl. vm_compute. reflexivity.
Defined.

Lemma no_orphan_rows_witness :
  reachable (ext := toy_externals) toy_twice /\
  (forall n, In n (generated_notes toy_twice) ->
     exists d shown,
       get_session_details toy_twice
         (GeneratedNotes.session_id n) = Some d /\
       SessionDetails.notes d = Some shown).
Proof.
  split; [exact toy_twice_reachable|].
  exact (proj2 (no_orphan_rows (ext := toy_externals) toy_twice
                  toy_twice_reachable)).
Defined.

Lemma details_after_start_witness :
  let db' :=
    committed toy_db
      (start_processing_session (ext := toy_externals) toy_db 6 "gpt-4"
         (PyFloat.literal 3 1) toy_files) in
  reachable (ext := toy_externals) toy_db /\
  (exists d,
     get_session_details db' "#6" = Some d /\
     List.map FileEntry.filename (SessionDetails.files d) = ["a.txt"; "b.txt"] /\
     SessionDetails.notes d = None) /\
  get_session_details db' "#5" =
    get_session_details toy_db "#5".
Proof.
  intros db'.
  destruct (details_after_start (ext := toy_externals) toy_db 6 "gpt-4"
              (PyFloat.literal 3 1) toy_files "#6" db' toy_db_reachable)
    as [(d & Hd & _ & Hnames & Hnotes & _) Hother].
  - vm_compute. reflexivity.
  - split; [exact toy_db_reachable|]. split.
    + exists d. split; [exact Hd|]. split; [exact Hnames | exact Hnotes].
    + apply Hother. discriminate.
Defined.

Lemma details_after_complete_witness :
  let once :=
    committed toy_db
      (complete_processing_session (ext := toy_externals) toy_db "#5" true
         "first draft" (PyFloat.literal 15 1) None) in
  exists d,
    get_session_details toy_twice "#5" = Some d /\
    SessionDetails.notes d = Some "first draft" /\
    HistoryEntry.notes_length (SessionDetails.session d) = 10 /\
    HistoryEntry.processing_time_seconds (SessionDetails.session d) =
      PyFloat.literal 25 1.
Proof.
  intros once.
  destruct (details_after_complete (ext := toy_externals) once "#5"
              (default (toy_session "" 0 "") (query_session once "#5"))
              true "Beta notes" (PyFloat.literal 25 1) None toy_twice)
    as [(d0 & d & Hd0 & Hd & _ & Hnotes & _ & Htime & _ & Hlen & _) _].
  - vm_compute. reflexivity.
  - vm_compute. reflexivity.
  - exists d. split; [exact Hd|]. split; [|split; [exact Hlen | exact Htime]].
    rewrite Hnotes.
    assert (Hshown : SessionDetails.notes d0 = Some "first draft").
    { assert (Hc : get_session_details once "#5" <> None)
        by (rewrite Hd0; discriminate).
      assert (He : option_map SessionDetails.notes
                     (get_session_details once "#5") =
                   Some (Some "first draft")) by (vm_compute; reflexivity).
      rewrite Hd0 in He. injection He as He. exact He. }
    rewrite Hshown. reflexivity.
Defined.

Lemma details_after_cleanup_witness :
  List.NoDup
    (List.map ProcessingSession.session_id (processing_sessions toy_history)) /\
  Z.abs 40 <= 999999999 /\
  datetime_min <= 100 * day - 40 * 86400000000 <= datetime_max /\
  exists n db',
    cleanup_old_data toy_history (100 * day) 40 = Ok (n, db') /\
    get_session_details db' "s-mid" = None.
Proof.
  assert (Hnd : List.NoDup
            (List.map ProcessingSession.session_id
               (processing_sessions toy_history))).
  { change (List.NoDup ["s-old"; "s-mid"; "s-new"]).
    repeat constructor; intros Hin; repeat destruct Hin as [Hin|Hin];
      try discriminate Hin; exact Hin. }
  assert (Hd : Z.abs 40 <= 999999999) by (vm_compute; discriminate).
  assert (Hr : datetime_min <= 100 * day - 40 * 86400000000 <= datetime_max)
    by (split; vm_compute; discriminate).
  split; [exact Hnd|]. split; [exact Hd|]. split; [exact Hr|].
  destruct (details_after_cleanup toy_history (100 * day) 40 "s-mid"
              (toy_session "s-mid" (50 * day) "gpt-3.5-turbo") Hnd)
    as (n & db' & Hok & Hgone & _).
  - vm_compute. reflexivity.
  - exact Hd.
  - exact Hr.
  - exists n, db'. split; [exact Hok|]. apply Hgone. vm_compute. reflexivity.
Defined.

(** ** How the writes of the ledger compose *)

Section ComposeFacts.
Context `{ext : Externals}.

(** X4: the id comes from the clock alone: a second
    [start_processing_session] at the instant of one that returned raises
    [IntegrityError], whatever it is given, and writes nothing. *)
Theorem start_twice_same_instant (db : database) (now : Z) (model : string)
    (temperature : float) (files_info : list FileInfo.t) (sid : string)
    (db' : database) (model2 : string) (temperature2 : float)
    (files_info2 : list FileInfo.t) :
  start_processing_session db now model temperature files_info = Ok (sid, db') ->
  start_processing_session db' now model2 temperature2 files_info2 =
    Raise IntegrityError /\
  committed db'
    (start_processing_session db' now model2 temperature2 files_info2) = db'.
Proof.
  intros Hs.
  apply start_processing_session_inv in Hs as (-> & Hq & total & _ & ->).
  assert (Hstart : start_processing_session
            {| processing_sessions :=
                 processing_sessions db ++
                 [new_session (generate_session_id now) model temperature
                    files_info total];
               processed_files :=
                 processed_files db ++
                 List.map (file_record (generate_session_id now)) files_info;
               generated_notes := generated_notes db |}
            now model2 temperature2 files_info2 = Raise IntegrityError).
  { unfold start_processing_session.
    destruct (sum_input_tokens_spec model2 files_info2 0) as [counts [_ ->]].
    cbn [bind]. unfold query_session in *. cbn [processing_sessions].
    rewrite (find_app_None _ _ _ Hq).
    cbn [List.find new_session ProcessingSession.session_id].
    rewrite String.eqb_refl. reflexivity. }
  rewrite Hstart. split; reflexivity.
Qed.

(** The columns of a session that [start_processing_session] sets. *)
Lemma update_session_started (sid : string) (success : bool) (time : float)
    (out : Z) (cost : float) (notes : string) (err : option string)
    (rows : list ProcessingSession.t) :
  List.map started_columns
    (update_session sid
       (fun s => completed s success time out cost notes err) rows) =
  List.map started_columns rows.
Proof.
  induction rows as [|s rows IH]; cbn; [reflexivity|].
  destruct (String.eqb (ProcessingSession.session_id s) sid); cbn.
  - reflexivity.
  - rewrite IH. reflexivity.
Qed.

(** X5: whether it returns or raises, [complete_processing_session] leaves
    the file rows as they were, keeps every note row and adds at most one
    after them, and leaves in every session, in the order of the table,
    the columns set at the start: [session_id], [created_at], [model_used],
    [temperature], [total_files] and [total_input_tokens]. *)
Theorem complete_keeps_started_columns (db : database) (sid : string)
    (success : bool) (notes : string) (time : float) (err : option string) :
  let db' :=
    committed db (complete_processing_session db sid success notes time err) in
  processed_files db' = processed_files db /\
  List.map started_columns (processing_sessions db') =
    List.map started_columns (processing_sessions db) /\
  exists added,
    generated_notes db' = (generated_notes db ++ added)%list /\
    (length added <= 1)%nat.
Proof.
  intros db'. unfold db'.
  destruct (complete_processing_session db sid success notes time err)
    as [[[] db1]|e] eqn:Hc; cbn [committed].
  - apply complete_processing_session_inv in Hc
      as [[_ ->]|(session & out & cost & _ & _ & _ & ->)].
    + split; [reflexivity|]. split; [reflexivity|].
      exists []. rewrite app_nil_r. split; [reflexivity | cbn; lia].
    + cbn [processed_files processing_sessions generated_notes].
      split; [reflexivity|]. split; [apply update_session_started|].
      destruct (success && truthy notes).
      * exists [notes_record sid notes]. split; [reflexivity | cbn; lia].
      * exists []. rewrite app_nil_r. split; [reflexivity | cbn; lia].
  - split; [reflexivity|]. split; [reflexivity|].
    exists []. rewrite app_nil_r. split; [reflexivity | cbn; lia].
Qed.

Lemma filter_none {Row : Type} (keep : Row -> bool) (rows : list Row) :
  (forall r, In r rows -> keep r = false) -> List.filter keep rows = [].
Proof.
  induction rows as [|r rows IH]; intros Hk; cbn; [reflexivity|].
  rewrite (Hk r (or_introl eq_refl)). apply IH.
  intros r' Hr'. apply Hk. right. exact Hr'.
Qed.

Lemma filter_all {Row : Type} (keep : Row -> bool) (rows : list Row) :
  (forall r, In r rows -> keep r = true) -> List.filter keep rows = rows.
Proof.
  induction rows as [|r rows IH]; intros Hk; cbn; [reflexivity|].
  rewrite (Hk r (or_introl eq_refl)). f_equal. apply IH.
  intros r' Hr'. apply Hk. right. exact Hr'.
Qed.


End ComposeFacts.

Lemma start_twice_same_instant_witness :
  start_processing_session (ext := toy_externals) empty_database 5 "gpt-4"
    (PyFloat.literal 3 1) toy_files = Ok ("#5", toy_db) /\
  start_processing_session (ext := toy_externals) toy_db 5 "gpt-3.5-turbo"
    (PyFloat.literal 7 1) [] = Raise IntegrityError.
Proof.
  assert (Hs : start_processing_session (ext := toy_externals) empty_database 5
                 "gpt-4" (PyFloat.literal 3 1) toy_files = Ok ("#5", toy_db))
    by (vm_compute; reflexivity).
  split; [exact Hs|].
  exact (proj1 (start_twice_same_instant (ext := toy_externals) empty_database 5
                  "gpt-4" (PyFloat.literal 3 1) toy_files "#5" toy_db
                  "gpt-3.5-turbo" (PyFloat.literal 7 1) [] Hs)).
Defined.


(** ** Previews, ids, history and exported files *)

Section BoundsFacts.
Context `{ext : Externals}.

(** [s[:m]] is the prefix of [s] of [min(m, len(s))] characters. *)
Lemma substring_0_prefix (m : nat) :
  forall s, exists rest,
    s = String.substring 0 m s ++ rest /\
    String.length (String.substring 0 m s) = Nat.min m (String.length s).
Proof.
  induction m as [|m IH]; intros s.
  - exists s. destruct s; split; reflexivity.
  - destruct s as [|c s]; [exists ""; split; reflexivity|].
    destruct (IH s) as (rest & Hs & Hl). exists rest. split.
    + change (String c s = String c (String.substring 0 m s ++ rest)).
      f_equal. exact Hs.
    + change (S (String.length (String.substring 0 m s)) =
              S (Nat.min m (String.length s))).
      f_equal. exact Hl.
Qed.

(** X7: the file row built for an element of [files_info] has the hash of its
    content; its [content_preview] is [None] when the content is empty and
    otherwise the first [min(500, len)] characters of the content; an
    element with no ['content'] key gives the row of an empty content. *)
Theorem file_record_preview (sid : string) (file_info : FileInfo.t) :
  let content := get_content file_info in
  let row := file_record sid file_info in
  ProcessedFile.file_hash row = calculate_file_hash content /\
  (content = "" -> ProcessedFile.content_preview row = None) /\
  (content <> "" ->
   exists preview rest,
     ProcessedFile.content_preview row = Some preview /\
     content = preview ++ rest /\
     String.length preview = Nat.min 500 (String.length content)) /\
  (FileInfo.content file_info = None -> content = "").
Proof.
  intros content row. split; [reflexivity|]. split; [|split].
  - intros Hc. unfold row, file_record. fold content. rewrite Hc. reflexivity.
  - intros Hc. apply truthy_true in Hc.
    destruct (substring_0_prefix 500 content) as (rest & Hs & Hl).
    exists (String.substring 0 500 content), rest.
    split; [|split; assumption].
    unfold row, file_record. fold content.
    cbn [ProcessedFile.content_preview]. rewrite Hc. reflexivity.
  - unfold content, get_content. intros ->. reflexivity.
Qed.

(** X8: the session id is a prefix of the digest of the timestamp, of at most
    16 characters, and of exactly 16 when the digest has 16 or more. *)
Theorem generate_session_id_length (now : Z) :
  (String.length (generate_session_id now) <= 16)%nat /\
  (exists rest,
     sha256_hexdigest (isoformat now) = generate_session_id now ++ rest) /\
  ((16 <= String.length (sha256_hexdigest (isoformat now)))%nat ->
   String.length (generate_session_id now) = 16%nat).
Proof.
  unfold generate_session_id.
  destruct (substring_0_prefix 16 (sha256_hexdigest (isoformat now)))
    as (rest & Hs & Hl).
  split; [lia|]. split; [eauto|]. lia.
Qed.


Lemma append_inv_head (a b c : string) : a ++ b = a ++ c -> b = c.
Proof.
  induction a as [|ch a IH]; cbn; [trivial|].
  intros [= H]. exact (IH H).
Qed.

(** X10: [export_data] changes no file but the one it names: after a call that
    returns a name, that file exists and every other path holds what it
    held; after a call that raises, the disk is as it was. *)
Theorem export_data_frame (fs : filesystem) (db : database) (now : Z)
    (format : string) :
  let result := export_data fs db now format in
  (forall name, fst result = Ok name ->
     is_Some (snd result !! name) /\
     forall path, path <> name -> snd result !! path = fs !! path) /\
  (forall e, fst result = Raise e -> snd result = fs).
Proof.
  intros result. unfold result, export_data.
  destruct (String.eqb (lower format) "csv");
    [|destruct (String.eqb (lower format) "json")]; cbn [fst snd]; split.
  - intros name [= <-]. split; [rewrite lookup_insert_eq; eauto|].
    intros path Hne. apply lookup_insert_ne. congruence.
  - intros e [=].
  - intros name [= <-]. split; [rewrite lookup_insert_eq; eauto|].
    intros path Hne. apply lookup_insert_ne. congruence.
  - intros e [=].
  - intros name [=].
  - reflexivity.
Qed.

(** X11: a ["csv"] export followed by a ["json"] export at the same instant
    leaves both files on disk, each with its own serialisation: the two
    names differ by their extension. *)
Theorem export_both_formats (fs : filesystem) (db : database) (now : Z)
    (format1 format2 : string) :
  lower format1 = "csv" -> lower format2 = "json" ->
  let rows := get_processing_history db 1000 in
  let after :=
    snd (export_data (snd (export_data fs db now format1)) db now format2) in
  after !! ("notetion_export_" ++ strftime_export now ++ ".csv")
    = Some (to_csv rows) /\
  after !! ("notetion_export_" ++ strftime_export now ++ ".json")
    = Some (json_dump rows).
Proof.
  intros H1 H2 rows after. unfold after, export_data. rewrite H1, H2.
  cbn [String.eqb Ascii.eqb Bool.eqb snd]. fold rows. split.
  - rewrite lookup_insert_ne, lookup_insert_eq; [reflexivity|].
    intros Heq. apply append_inv_head, append_inv_head in Heq. discriminate.
  - apply lookup_insert_eq.
Qed.
End BoundsFacts.

Lemma file_record_preview_witness :
  (exists preview rest,
     ProcessedFile.content_preview
       (file_record (ext := toy_externals) "#5"
          (FileInfo.mk "a.txt" "text/plain" 11 (Some "hello world")))
       = Some preview /\
     "hello world" = preview ++ rest /\
     String.length preview = 11%nat) /\
  ProcessedFile.content_preview
    (file_record (ext := toy_externals) "#5"
       (FileInfo.mk "b.txt" "text/plain" 0 None)) = None.
Proof.
  split.
  - destruct (file_record_preview (ext := toy_externals) "#5"
                (FileInfo.mk "a.txt" "text/plain" 11 (Some "hello world")))
      as (_ & _ & Hsome & _).
    destruct Hsome as (preview & rest & Hp & Hc & Hl); [discriminate|].
    exists preview, rest. split; [exact Hp|]. split; [exact Hc | exact Hl].
  - destruct (file_record_preview (ext := toy_externals) "#5"
                (FileInfo.mk "b.txt" "text/plain" 0 None))
      as (_ & Hnone & _ & Hmissing).
    apply Hnone. apply Hmissing. reflexivity.
Defined.

Lemma generate_session_id_length_witness :
  (16 <= String.length
           (sha256_hexdigest (Externals := toy_externals)
              (isoformat (Externals := toy_externals) 1000000000000000)))%nat /\
  String.length (generate_session_id (ext := toy_externals) 1000000000000000)
    = 16%nat.
Proof.
  assert (Hlong : (16 <= String.length
                     (sha256_hexdigest (Externals := toy_externals)
                        (isoformat (Externals := toy_externals)
                           1000000000000000)))%nat)
    by (vm_compute; repeat constructor).
  split; [exact Hlong|].
  exact (proj2 (proj2 (generate_session_id_length (ext := toy_externals)
                         1000000000000000)) Hlong).
Defined.


Lemma export_data_frame_witness :
  fst (export_data (ext := toy_externals) {["notes.md" := "kept"]} toy_history
         5 "csv") = Ok "notetion_export_5.csv" /\
  snd (export_data (ext := toy_externals) {["notes.md" := "kept"]} toy_history
         5 "csv") !! "notes.md" = Some "kept" /\
  snd (export_data (ext := toy_externals) {["notes.md" := "kept"]} toy_history
         5 "xml") = {["notes.md" := "kept"]}.
Proof.
  assert (Hname : fst (export_data (ext := toy_externals)
                         {["notes.md" := "kept"]} toy_history 5 "csv")
                  = Ok "notetion_export_5.csv") by (vm_compute; reflexivity).
  split; [exact Hname|]. split.
  - destruct (export_data_frame (ext := toy_externals) {["notes.md" := "kept"]}
                toy_history 5 "csv") as [Hok _].
    destruct (Hok _ Hname) as [_ Hother].
    rewrite (Hother "notes.md") by discriminate. reflexivity.
  - destruct (export_data_frame (ext := toy_externals) {["notes.md" := "kept"]}
                toy_history 5 "xml") as [_ Hraise].
    apply (Hraise (ValueError "Format must be 'csv' or 'json'")).
    vm_compute. reflexivity.
Defined.

Lemma export_both_formats_witness :
  lower (Externals := toy_externals) "CSV" = "csv" /\
  lower (Externals := toy_externals) "Json" = "json" /\
  snd (export_data (ext := toy_externals)
         (snd (export_data (ext := toy_externals) ∅ toy_history 5 "CSV"))
         toy_history 5 "Json")
    !! "notetion_export_5.csv" = Some "s-new,s-mid,s-old".
Proof.
  assert (H1 : lower (Externals := toy_externals) "CSV" = "csv")
    by (vm_compute; reflexivity).
  assert (H2 : lower (Externals := toy_externals) "Json" = "json")
    by (vm_compute; reflexivity).
  split; [exact H1|]. split; [exact H2|].
  exact (proj1 (export_both_formats (ext := toy_externals) ∅ toy_history 5
                  "CSV" "Json" H1 H2)).
Defined.

(** ** More on the float arithmetic *)

Section QuotientFacts.
Import PyFloat.

Lemma Zdigits2_lower (m : Z) : 0 < m -> 2 ^ (Zdigits2 m - 1) <= m.
Proof.
  intros Hm. destruct m as [|p|p]; try lia. apply digits2_pos_bounds.
Qed.

Lemma Zdigits2_ge (m k : Z) : 0 <= k -> 2 ^ k <= m -> k + 1 <= Zdigits2 m.
Proof.
  intros Hk Hm.
  assert (0 < 2 ^ k) by (apply Z.pow_pos_nonneg; lia).
  pose proof (Zdigits2_lt m ltac:(lia)) as Hlt.
  pose proof (Zdigits2_nonneg m) as Hd.
  destruct (Z_lt_le_dec k (Zdigits2 m)) as [|Hle]; [lia|].
  exfalso. assert (2 ^ Zdigits2 m <= 2 ^ k) by (apply Z.pow_le_mono_r; lia).
  lia.
Qed.

Lemma div_pow2_pos (m k : Z) :
  0 < m -> 0 <= k <= Zdigits2 m - 1 -> 1 <= m / 2 ^ k.
Proof.
  intros Hm Hk. pose proof (Zdigits2_lower m Hm) as Hlo.
  assert (0 < 2 ^ k) by (apply Z.pow_pos_nonneg; lia).
  assert (2 ^ k <= 2 ^ (Zdigits2 m - 1)) by (apply Z.pow_le_mono_r; lia).
  apply Z.div_le_lower_bound; lia.
Qed.

(** Rounding a positive mantissa that is not below the normal range gives
    a positive number, finite or infinite, and no zero. *)
Lemma binary_round_aux_pos (m e : Z) (l : location) :
  0 < m -> -1021 <= Zdigits2 m + e ->
  match binary_round_aux prec emax false m e l with
  | S754_finite false _ _ | S754_infinity false => True
  | _ => False
  end.
Proof.
  intros Hm Hd. unfold binary_round_aux.
  destruct (shr_fexp_spec m e l ltac:(lia)) as [E1 H1].
  destruct (shr_fexp prec emax m e l) as [mrs1 e1]. cbn [fst snd] in E1, H1.
  rewrite <- E1 in H1. rewrite fexp_eq in E1.
  set (m1 := round_nearest_even (shr_m mrs1) (loc_of_shr_record mrs1)).
  pose proof (round_nearest_even_bounds (shr_m mrs1) (loc_of_shr_record mrs1)) as Hr.
  fold m1 in Hr.
  pose proof (Zdigits2_nonneg m) as Hdn.
  assert (Hs1 : 1 <= shr_m mrs1).
  { rewrite H1. apply div_pow2_pos; [lia|].
    assert (1 <= Zdigits2 m) by (apply (Zdigits2_ge m 0); cbn; lia). lia. }
  assert (Hm1 : 0 < m1) by lia.
  destruct (shr_fexp_spec m1 e1 loc_Exact ltac:(lia)) as [E2 H2].
  destruct (shr_fexp prec emax m1 e1 loc_Exact) as [mrs2 e2].
  cbn [fst snd] in E2, H2. rewrite <- E2 in H2. rewrite fexp_eq in E2.
  assert (Hs2 : 1 <= shr_m mrs2).
  { rewrite H2. apply div_pow2_pos; [lia|].
    assert (1 <= Zdigits2 m1) by (apply (Zdigits2_ge m1 0); cbn; lia). lia. }
  destruct (shr_m mrs2) as [|p|p]; try lia.
  destruct (e2 <=? emax - prec); exact I.
Qed.

(** The division of two positive ints does not overflow when the
    dividend has at most 1022 binary digits more than the divisor. *)
Lemma quotient_finite (a b : Z) :
  0 <= a -> 0 < b -> Zdigits2 a - Zdigits2 b <= 1022 ->
  finite_nonneg (quotient a b) = true.
Proof.
  intros Ha Hb Hdig. unfold quotient.
  destruct b as [|b|b]; try lia.
  destruct a as [|a|a]; try lia; [reflexivity|].
  cbn [of_Z SFdiv xorb]. unfold SFdiv_core_binary.
  set (d1 := Zdigits2 (Zpos a)) in *. set (d2 := Zdigits2 (Zpos b)) in *.
  assert (Hd1 : 1 <= d1) by (unfold d1; simpl; lia).
  assert (Hd2 : 1 <= d2) by (unfold d2; simpl; lia).
  pose proof (Zdigits2_lt (Zpos a) ltac:(lia)) as Halt. fold d1 in Halt.
  pose proof (Zdigits2_lower (Zpos b) ltac:(lia)) as Hblo. fold d2 in Hblo.
  rewrite fexp_eq.
  set (e' := Z.min (Z.max (d1 + 0 - (d2 + 0) - 53) (-1074)) (0 - 0)).
  set (s := 0 - 0 - e').
  assert (Hs : 0 <= s /\ e' = - s) by (unfold s, e'; lia).
  set (m' := match s with
             | Z0 => Zpos a | Zpos _ => Z.shiftl (Zpos a) s | Zneg _ => 0
             end).
  assert (Hm' : m' = Zpos a * 2 ^ s).
  { unfold m'. clearbody s.
    destruct s; cbn beta iota; [lia | apply Z.shiftl_mul_pow2; lia | lia]. }
  pose proof (div_eucl_fst m' (Zpos b)) as Hq.
  destruct (Z.div_eucl m' (Zpos b)) as [q r]. cbn [fst] in Hq.
  assert (H2s : 0 < 2 ^ s) by (apply Z.pow_pos_nonneg; lia).
  assert (Hm'lt : 0 <= m' < 2 ^ (d1 + s)).
  { rewrite Hm', Z.pow_add_r by lia. split; [lia|].
    apply Z.mul_lt_mono_pos_r; lia. }
  set (k := Z.max 0 (d1 + s - d2 + 1)).
  assert (Hqb : 0 <= q < 2 ^ k).
  { subst q. split; [apply Z.div_pos; lia|].
    apply Z.div_lt_upper_bound; [lia|].
    eapply Z.lt_le_trans; [apply Hm'lt|].
    assert (0 < 2 ^ k) by (apply Z.pow_pos_nonneg; lia).
    assert (2 ^ (d1 + s) <= 2 ^ (d2 - 1) * 2 ^ k).
    { rewrite <- Z.pow_add_r by lia. apply Z.pow_le_mono_r; lia. }
    nia. }
  apply binary_round_aux_finite; try lia.
  assert (Zdigits2 q <= k) by (apply Zdigits2_le; lia).
  lia.
Qed.

(** [float(n)] of a positive int below [2^1023] is a positive finite
    float. *)
Lemma of_int_finite_pos (n : Z) :
  1 <= n < 2 ^ 1023 ->
  match of_int n with S754_finite false _ _ => True | _ => False end.
Proof.
  intros [Hn Hlt].
  assert (Hfin : finite_nonneg (of_int n) = true).
  { apply quotient_finite; [lia | lia |].
    assert (Zdigits2 n <= 1023) by (apply Zdigits2_le; lia).
    change (Zdigits2 1) with 1. lia. }
  assert (Hpos : match of_int n with
                 | S754_finite false _ _ | S754_infinity false => True
                 | _ => False
                 end).
  { unfold of_int, quotient. destruct n as [|n|n]; try lia.
    cbn [of_Z SFdiv xorb]. unfold SFdiv_core_binary.
    change (Zdigits2 1) with 1.
    set (d1 := Zdigits2 (Zpos n)).
    assert (Hd1 : 1 <= d1) by (unfold d1; simpl; lia).
    pose proof (Zdigits2_lower (Zpos n) ltac:(lia)) as Hlo. fold d1 in Hlo.
    rewrite fexp_eq.
    set (e' := Z.min (Z.max (d1 + 0 - (1 + 0) - 53) (-1074)) (0 - 0)).
    set (s := 0 - 0 - e').
    assert (Hs : 0 <= s /\ e' = - s) by (unfold s, e'; lia).
    set (m' := match s with
               | Z0 => Zpos n | Zpos _ => Z.shiftl (Zpos n) s | Zneg _ => 0
               end).
    assert (Hm' : m' = Zpos n * 2 ^ s).
    { unfold m'. clearbody s.
      destruct s; cbn beta iota; [lia | apply Z.shiftl_mul_pow2; lia | lia]. }
    pose proof (div_eucl_fst m' 1) as Hq.
    destruct (Z.div_eucl m' 1) as [q r]. cbn [fst] in Hq.
    rewrite Z.div_1_r in Hq. subst q.
    assert (H2s : 0 < 2 ^ s) by (apply Z.pow_pos_nonneg; lia).
    assert (Hge : 2 ^ (d1 - 1 + s) <= m').
    { rewrite Hm', Z.pow_add_r by lia. apply Z.mul_le_mono_nonneg_r; lia. }
    apply binary_round_aux_pos; [lia|].
    pose proof (Zdigits2_ge m' (d1 - 1 + s) ltac:(lia) Hge). lia. }
  destruct (of_int n) as [?|[]| |[] ? ?]; cbn in Hfin; try discriminate;
    try contradiction; exact I.
Qed.

Lemma div_eucl_mul (p : positive) (k : Z) :
  Z.div_eucl (Zpos p * k) (Zpos p) = (k, 0).
Proof.
  pose proof (Z.div_eucl_eq (Zpos p * k) (Zpos p) ltac:(lia)) as He.
  pose proof (Z.mod_pos_bound (Zpos p * k) (Zpos p) ltac:(lia)) as Hm.
  unfold Z.modulo in Hm. destruct (Z.div_eucl (Zpos p * k) (Zpos p)) as [q r].
  assert (q = k) by nia. subst q. f_equal. lia.
Qed.

(** [n / n] is [1.0] for every positive int. *)
Lemma quotient_same (n : Z) :
  0 < n -> quotient n n = S754_finite false 4503599627370496 (-52).
Proof.
  intros Hn. unfold quotient. destruct n as [|p|p]; try lia.
  cbn [of_Z SFdiv xorb]. unfold SFdiv_core_binary.
  replace (Zdigits2 (Zpos p) + 0 - (Zdigits2 (Zpos p) + 0)) with 0 by lia.
  change (Z.min (fexp prec emax 0) (0 - 0)) with (-53).
  change (0 - 0 - -53) with 53. cbn beta iota.
  rewrite Z.shiftl_mul_pow2 by lia. rewrite div_eucl_mul.
  unfold new_location, new_location_even, new_location_odd.
  change (0 =? 0) with true. destruct (Z.even (Zpos p)); reflexivity.
Qed.
End QuotientFacts.

(** ** [get_analytics_summary] *)

Section AnalyticsFacts.
Variable float_sum : list float -> float.

Lemma fold_add_truthy (xs : list Z) :
  forall acc,
    fold_left Z.add (List.filter int_truthy xs) acc = fold_left Z.add xs acc.
Proof.
  induction xs as [|x rest IH]; intros acc; [reflexivity|].
  cbn [List.filter fold_left]. unfold int_truthy at 1.
  destruct (Z.eqb_spec x 0) as [->|Hx]; cbn [negb fold_left].
  - rewrite IH, Z.add_0_r. reflexivity.
  - apply IH.
Qed.

(** The zeros that the sum leaves out do not change it. *)
Lemma sum_ints_truthy (xs : list Z) :
  sum_ints (List.filter int_truthy xs) = sum_ints xs.
Proof. apply fold_add_truthy. Qed.

Lemma count_model_usage_fold (m : string) (models : list string) :
  forall usage : gmap string Z,
    fold_left
      (fun model_usage model_name =>
         <[model_name := default 0 (model_usage !! model_name) + 1]> model_usage)
      models usage !! m =
    let c := Z.of_nat (length (List.filter (String.eqb m) models)) in
    if c =? 0 then usage !! m else Some (default 0 (usage !! m) + c).
Proof.
  induction models as [|x rest IH]; intros usage; [reflexivity|].
  cbn [fold_left List.filter]. rewrite IH. cbn zeta.
  destruct (String.eqb_spec m x) as [<-|Hne].
  - rewrite lookup_insert_eq. cbn [default length].
    set (c := length (List.filter (String.eqb m) rest)).
    replace (Z.of_nat (S c) =? 0) with false by (symmetry; apply Z.eqb_neq; lia).
    destruct (Z.eqb_spec (Z.of_nat c) 0) as [Hc|Hc]; unfold id; f_equal; lia.
  - rewrite lookup_insert_ne by congruence. reflexivity.
Qed.

(** Each model is counted once per session that used it, and a model no
    session used is not a key. *)
Lemma count_model_usage_lookup (m : string) (models : list string) :
  count_model_usage models !! m =
  let c := Z.of_nat (length (List.filter (String.eqb m) models)) in
  if c =? 0 then None else Some c.
Proof.
  unfold count_model_usage. rewrite count_model_usage_fold. cbn zeta.
  rewrite lookup_empty. cbn [default]. reflexivity.
Qed.

Lemma truediv_le (k n : Z) :
  0 <= k <= n -> 0 < n ->
  exists q, truediv k n = Ok q /\ PyFloat.finite_nonneg q = true.
Proof.
  intros Hk Hn. unfold truediv.
  replace (n =? 0) with false by (symmetry; apply Z.eqb_neq; lia).
  assert (Hfin : PyFloat.finite_nonneg (PyFloat.quotient k n) = true).
  { apply quotient_finite; try lia.
    pose proof (Zdigits2_lt n ltac:(lia)) as Hlt.
    pose proof (Zdigits2_nonneg n) as Hd.
    assert (Zdigits2 k <= Zdigits2 n) by (apply Zdigits2_le; lia).
    lia. }
  destruct (PyFloat.quotient k n) as [s|s| |s m e]; try discriminate Hfin;
    eexists; split; try reflexivity; exact Hfin.
Qed.

(** The average of the processing times is a float whenever there is a
    session, fewer than [2^1023] of them. *)
Lemma number_truediv_int_returns (a : number) (n : Z) :
  1 <= n < 2 ^ 1023 ->
  (a = Int 0 \/ exists x, a = Float x) ->
  exists q, number_truediv_int a n = Ok q.
Proof.
  intros Hn [->|[x ->]]; cbn [number_truediv_int].
  - destruct (truediv_le 0 n ltac:(lia) ltac:(lia)) as (q & Hq & _). eauto.
  - unfold float_of_int. pose proof (of_int_finite_pos n Hn) as Hp.
    destruct (PyFloat.of_int n) as [?|?| |[] ? ?]; try contradiction.
    cbn [bind float_truediv]. eauto.
Qed.

Lemma sum_floats_cases (xs : list float) :
  sum_floats float_sum xs = Int 0 \/ exists x, sum_floats float_sum xs = Float x.
Proof. destruct xs; cbn [sum_floats]; eauto. Qed.

Lemma avg_processing_time_returns (processing_times : list float) :
  Z.of_nat (length processing_times) < 2 ^ 1023 ->
  exists avg,
    match processing_times with
    | [] => Ok (Int 0)
    | _ =>
        do q <- number_truediv_int
                  (sum_floats float_sum
                     (List.filter float_truthy processing_times))
                  (Z.of_nat (length processing_times));
        Ok (Float q)
    end = Ok avg.
Proof.
  intros Hlen. destruct processing_times as [|t rest]; [eauto|].
  destruct (number_truediv_int_returns
              (sum_floats float_sum (List.filter float_truthy (t :: rest)))
              (Z.of_nat (length (t :: rest)))) as [q Hq].
  - split; [cbn [length]; lia | exact Hlen].
  - apply sum_floats_cases.
  - rewrite Hq. cbn [bind]. eauto.
Qed.

(** X16: on a database of fewer than [2^1023] sessions [get_analytics_summary]
    returns: no division raises. The two counts are those of the table,
    the successful sessions being at most all of them; the token totals
    are the sums over all the sessions; and [model_usage] has a key for
    each model that a session used and for no other, with the number of
    the sessions that used it. *)
Theorem get_analytics_summary_returns (db : database) :
  Z.of_nat (length (processing_sessions db)) < 2 ^ 1023 ->
  exists r,
    get_analytics_summary float_sum db = Ok r /\
    AnalyticsSummary.total_sessions r =
      Z.of_nat (length (processing_sessions db)) /\
    AnalyticsSummary.successful_sessions r =
      Z.of_nat (length (List.filter ProcessingSession.success
                          (processing_sessions db))) /\
    0 <= AnalyticsSummary.successful_sessions r
      <= AnalyticsSummary.total_sessions r /\
    AnalyticsSummary.total_input_tokens r =
      sum_ints (List.map ProcessingSession.total_input_tokens
                  (processing_sessions db)) /\
    AnalyticsSummary.total_output_tokens r =
      sum_ints (List.map ProcessingSession.total_output_tokens
                  (processing_sessions db)) /\
    (forall m,
       AnalyticsSummary.model_usage r !! m =
       let c := Z.of_nat
                  (length (List.filter
                             (fun s => String.eqb m (ProcessingSession.model_used s))
                             (processing_sessions db))) in
       if c =? 0 then None else Some c).
Proof.
  intros Hlen. unfold get_analytics_summary.
  set (sessions := processing_sessions db) in *.
  assert (Hsucc : (length (List.filter ProcessingSession.success sessions)
                   <= length sessions)%nat) by apply List.filter_length_le.
  destruct (avg_processing_time_returns
              (List.map ProcessingSession.processing_time_seconds sessions))
    as [avg Havg]; [rewrite length_map; exact Hlen|].
  rewrite Havg. cbn [bind].
  assert (Hrate : exists rate,
            (if 0 <? Z.of_nat (length sessions)
             then do q <- truediv
                            (Z.of_nat (length (List.filter ProcessingSession.success
                                                 sessions)))
                            (Z.of_nat (length sessions));
                  Ok (Float (PyFloat.mul q (PyFloat.of_int 100)))
             else Ok (Int 0)) = Ok rate).
  { destruct (Z.ltb_spec 0 (Z.of_nat (length sessions))) as [Hpos|_]; [|eauto].
    destruct (truediv_le
                (Z.of_nat (length (List.filter ProcessingSession.success sessions)))
                (Z.of_nat (length sessions)) ltac:(lia) Hpos) as (q & -> & _).
    cbn [bind]. eauto. }
  destruct Hrate as [rate ->]. cbn [bind].
  eexists. split; [reflexivity|].
  cbn [AnalyticsSummary.total_sessions AnalyticsSummary.successful_sessions
       AnalyticsSummary.total_input_tokens AnalyticsSummary.total_output_tokens
       AnalyticsSummary.model_usage].
  split; [reflexivity|]. split; [reflexivity|]. split; [lia|].
  split; [apply sum_ints_truthy|]. split; [apply sum_ints_truthy|].
  intros m. rewrite count_model_usage_lookup. cbn zeta.
  assert (Hf : forall rows,
            List.filter (String.eqb m)
              (List.map ProcessingSession.model_used rows) =
            List.map ProcessingSession.model_used
              (List.filter
                 (fun s => String.eqb m (ProcessingSession.model_used s)) rows)).
  { induction rows as [|r rows IH]; [reflexivity|]. cbn [List.map List.filter].
    destruct (String.eqb m (ProcessingSession.model_used r));
      cbn [List.map]; rewrite IH; reflexivity. }
  rewrite Hf, length_map. reflexivity.
Qed.

(** X17: with no session the summary holds the int [0] everywhere and an
    empty [model_usage], whatever the other tables hold: no division is
    made. *)
Theorem get_analytics_summary_no_session (db : database) :
  processing_sessions db = [] ->
  get_analytics_summary float_sum db =
    Ok {| AnalyticsSummary.total_sessions := 0;
          AnalyticsSummary.successful_sessions := 0;
          AnalyticsSummary.success_rate := Int 0;
          AnalyticsSummary.total_cost_usd := Int 0;
          AnalyticsSummary.total_input_tokens := 0;
          AnalyticsSummary.total_output_tokens := 0;
          AnalyticsSummary.avg_processing_time_seconds := Int 0;
          AnalyticsSummary.model_usage := ∅ |}.
Proof. intros Hs. unfold get_analytics_summary. rewrite Hs. reflexivity. Qed.

(** X18: the success rate of a summary that is returned for a table with at
    least one session is a float: exactly [100.0] when every session
    succeeded, and [0.0] when none did. *)
Theorem success_rate_extremes (db : database) (r : AnalyticsSummary.t) :
  processing_sessions db <> [] ->
  get_analytics_summary float_sum db = Ok r ->
  (exists x, AnalyticsSummary.success_rate r = Float x) /\
  (Forall (fun s => ProcessingSession.success s = true) (processing_sessions db) ->
   AnalyticsSummary.success_rate r = Float (PyFloat.of_int 100)) /\
  (Forall (fun s => ProcessingSession.success s = false) (processing_sessions db) ->
   AnalyticsSummary.success_rate r = Float PyFloat.zero).
Proof.
  intros Hne. unfold get_analytics_summary.
  set (sessions := processing_sessions db) in *.
  assert (Hpos : 0 < Z.of_nat (length sessions))
    by (destruct sessions; [congruence | cbn [length]; lia]).
  destruct (match List.map ProcessingSession.processing_time_seconds sessions with
            | [] => _ | _ => _ end) as [avg|e]; cbn [bind]; [|discriminate].
  replace (0 <? Z.of_nat (length sessions)) with true
    by (symmetry; apply Z.ltb_lt; exact Hpos).
  destruct (truediv _ _) as [q|e] eqn:Hq; cbn [bind]; [|discriminate].
  intros [= <-]. cbn [AnalyticsSummary.success_rate].
  split; [eauto|]. split.
  - intros Hall.
    rewrite filter_all in Hq by (apply List.Forall_forall; exact Hall).
    unfold truediv in Hq.
    replace (Z.of_nat (length sessions) =? 0) with false in Hq
      by (symmetry; apply Z.eqb_neq; lia).
    rewrite (quotient_same _ Hpos) in Hq. injection Hq as <-.
    vm_compute. reflexivity.
  - intros Hnone.
    rewrite filter_none in Hq.
    2:{ intros s Hs. exact (proj1 (List.Forall_forall _ _) Hnone s Hs). }
    unfold truediv in Hq.
    replace (Z.of_nat (length sessions) =? 0) with false in Hq
      by (symmetry; apply Z.eqb_neq; lia).
    cbn [length Z.of_nat] in Hq. unfold PyFloat.quotient in Hq.
    destruct (Z.of_nat (length sessions)) as [|p|p]; try lia.
    cbn in Hq. injection Hq as <-. reflexivity.
Qed.
End AnalyticsFacts.

Lemma get_analytics_summary_returns_witness :
  Z.of_nat (length (processing_sessions toy_history)) < 2 ^ 1023 /\
  exists r,
    get_analytics_summary toy_sum toy_history = Ok r /\
    AnalyticsSummary.total_sessions r = 3 /\
    AnalyticsSummary.total_input_tokens r = 33 /\
    AnalyticsSummary.model_usage r !! "gpt-4" = Some 2 /\
    AnalyticsSummary.model_usage r !! "gpt-5" = None.
Proof.
  assert (Hlen : Z.of_nat (length (processing_sessions toy_history)) < 2 ^ 1023)
    by (vm_compute; reflexivity).
  split; [exact Hlen|].
  destruct (get_analytics_summary_returns toy_sum toy_history Hlen)
    as (r & Hr & Ht & _ & _ & Hin & _ & Hm).
  exists r. split; [exact Hr|]. split; [exact Ht|]. split; [exact Hin|].
  split; [exact (Hm "gpt-4") | exact (Hm "gpt-5")].
Defined.

Lemma get_analytics_summary_no_session_witness :
  processing_sessions
    (mkdb [] [toy_file "s-old" "a.txt"] [toy_note "s-old" "Alpha notes"]) = [] /\
  exists r,
    get_analytics_summary toy_sum
      (mkdb [] [toy_file "s-old" "a.txt"] [toy_note "s-old" "Alpha notes"])
      = Ok r /\
    AnalyticsSummary.success_rate r = Int 0 /\
    AnalyticsSummary.avg_processing_time_seconds r = Int 0.
Proof.
  split; [reflexivity|]. eexists. split.
  - apply (get_analytics_summary_no_session toy_sum). reflexivity.
  - split; reflexivity.
Defined.

Lemma success_rate_extremes_witness :
  processing_sessions toy_history <> [] /\
  exists r,
    get_analytics_summary toy_sum toy_history = Ok r /\
    AnalyticsSummary.success_rate r = Float (PyFloat.of_int 100) /\
    AnalyticsSummary.success_rate r <> Int 100.
Proof.
  assert (Hne : processing_sessions toy_history <> []) by discriminate.
  split; [exact Hne|].
  set (r := returned
              {| AnalyticsSummary.total_sessions := 0;
                 AnalyticsSummary.successful_sessions := 0;
                 AnalyticsSummary.success_rate := Int 0;
                 AnalyticsSummary.total_cost_usd := Int 0;
                 AnalyticsSummary.total_input_tokens := 0;
                 AnalyticsSummary.total_output_tokens := 0;
                 AnalyticsSummary.avg_processing_time_seconds := Int 0;
                 AnalyticsSummary.model_usage := ∅ |}
              (get_analytics_summary toy_sum toy_history)).
  assert (Hr : get_analytics_summary toy_sum toy_history = Ok r)
    by (vm_compute; reflexivity).
  destruct (success_rate_extremes toy_sum toy_history r Hne Hr)
    as (_ & Hall & _).
  exists r. split; [exact Hr|].
  assert (Hrate : AnalyticsSummary.success_rate r = Float (PyFloat.of_int 100)).
  { apply Hall. repeat constructor. }
  split; [exact Hrate|]. rewrite Hrate. discriminate.
Defined.

(** ** [get_file_info] *)

Section GetFileInfoFacts.
Variable decode_utf8 : list Byte.byte -> option string.
Variable str_bytes : list Byte.byte -> string.

Lemma split_last (sep : ascii) (s : string) :
  exists word words,
    split sep s = word :: words /\
    ((words = [] /\ word = s) \/
     (words <> [] /\
      exists stem, s = stem ++ String sep (List.last words ""))).
Proof.
  induction s as [|c rest (word & words & Hs & IH)].
  - exists "", []. split; [reflexivity|]. left. split; reflexivity.
  - cbn [split]. rewrite Hs. destruct (Ascii.eqb_spec c sep) as [->|Hne].
    + exists "", (word :: words). split; [reflexivity|]. right.
      split; [discriminate|].
      destruct IH as [[-> ->]|[Hw [stem ->]]].
      * exists "". reflexivity.
      * exists (String sep stem).
        destruct words as [|w ws]; [congruence|]. reflexivity.
    + exists (String c word), words. split; [reflexivity|].
      destruct IH as [[-> ->]|[Hw [stem ->]]].
      * left. split; reflexivity.
      * right. split; [exact Hw|]. exists (String c stem). reflexivity.
Qed.

Lemma split_no_sep (sep : ascii) (s : string) :
  Forall (fun word => str_in (String sep "") word = false) (split sep s).
Proof.
  induction s as [|c rest IH]; cbn [split].
  - repeat constructor.
  - destruct (Ascii.eqb_spec c sep) as [->|Hne].
    + constructor; [reflexivity | exact IH].
    + assert (Hc : forall word,
                str_in (String sep "") word = false ->
                str_in (String sep "") (String c word) = false).
      { intros word Hw. cbn [str_in String.prefix].
        destruct (ascii_dec sep c); [congruence|]. cbn [orb]. exact Hw. }
      destruct (split sep rest) as [|word words].
      * constructor; [apply Hc; reflexivity | constructor].
      * inversion IH; subst. constructor; [apply Hc; assumption | assumption].
Qed.

Lemma last_In {A : Type} (l : list A) (d : A) : l <> [] -> In (List.last l d) l.
Proof.
  induction l as [|x [|y rest] IH]; [congruence | left; reflexivity |].
  intros _. right. apply IH. discriminate.
Qed.

(** X19: [get_file_info] returns unless the type is ['text/plain'] and the
    bytes are not UTF-8. The dict it returns has the name and the size of
    the upload and always a ['content']. Its ['file_type'] is the type
    of the upload when there is one, and otherwise what follows the last
    dot of the name, or the whole name when it has no dot: it then holds
    no dot. *)
Theorem get_file_info_spec (uploaded_file : UploadedFile.t) :
  (get_file_info decode_utf8 str_bytes uploaded_file = None <->
   UploadedFile.type uploaded_file = "text/plain" /\
   decode_utf8 (UploadedFile.value uploaded_file) = None) /\
  forall info,
    get_file_info decode_utf8 str_bytes uploaded_file = Some info ->
    FileInfo.filename info = UploadedFile.name uploaded_file /\
    FileInfo.file_size info = UploadedFile.size uploaded_file /\
    (exists content, FileInfo.content info = Some content) /\
    (UploadedFile.type uploaded_file <> "text/plain" ->
     FileInfo.content info = Some (str_bytes (UploadedFile.value uploaded_file))) /\
    (UploadedFile.type uploaded_file <> "" ->
     FileInfo.file_type info = UploadedFile.type uploaded_file) /\
    (UploadedFile.type uploaded_file = "" ->
     str_in "." (FileInfo.file_type info) = false /\
     (UploadedFile.name uploaded_file = FileInfo.file_type info \/
      exists stem,
        UploadedFile.name uploaded_file =
          stem ++ "." ++ FileInfo.file_type info)).
Proof.
  unfold get_file_info. split.
  - destruct (String.eqb_spec (UploadedFile.type uploaded_file) "text/plain")
      as [Ht|Ht].
    + destruct (decode_utf8 (UploadedFile.value uploaded_file)).
      * split; [discriminate | intros [_ H]; discriminate].
      * split; [intros _; split; [exact Ht | reflexivity] | reflexivity].
    + split; [discriminate | intros [H _]; congruence].
  - intros info Hinfo.
    assert (Hc : exists content,
              (if String.eqb (UploadedFile.type uploaded_file) "text/plain"
               then decode_utf8 (UploadedFile.value uploaded_file)
               else Some (str_bytes (UploadedFile.value uploaded_file)))
              = Some content /\
              info =
                {| FileInfo.filename := UploadedFile.name uploaded_file;
                   FileInfo.file_type :=
                     if truthy (UploadedFile.type uploaded_file)
                     then UploadedFile.type uploaded_file
                     else List.last
                            (split "." (UploadedFile.name uploaded_file)) "";
                   FileInfo.file_size := UploadedFile.size uploaded_file;
                   FileInfo.content := Some content |}).
    { destruct (if String.eqb (UploadedFile.type uploaded_file) "text/plain"
                then _ else _) as [content|]; [|discriminate].
      injection Hinfo as <-. eauto. }
    destruct Hc as (content & Hc & ->).
    cbn [FileInfo.filename FileInfo.file_size FileInfo.content FileInfo.file_type].
    split; [reflexivity|]. split; [reflexivity|]. split; [eauto|].
    split; [|split].
    + intros Ht. apply String.eqb_neq in Ht. rewrite Ht in Hc. symmetry. exact Hc.
    + intros Ht. apply truthy_true in Ht. rewrite Ht. reflexivity.
    + intros Ht. rewrite Ht. cbn [truthy].
      pose proof (split_no_sep "." (UploadedFile.name uploaded_file)) as Hno.
      destruct (split_last "." (UploadedFile.name uploaded_file))
        as (word & words & Hs & Hcases).
      rewrite Hs in *. split.
      * apply (proj1 (List.Forall_forall _ _) Hno). apply last_In. discriminate.
      * destruct Hcases as [[-> ->]|[Hw [stem Hstem]]]; [left; reflexivity|].
        right. exists stem. rewrite Hstem at 1.
        destruct words as [|w ws]; [congruence | reflexivity].
Qed.
End GetFileInfoFacts.

Lemma get_file_info_spec_witness :
  exists info,
    get_file_info toy_decode (fun b => string_of_list_byte b)
      (UploadedFile.mk "slides.v2.PDF" "" 3 [Byte.x25; Byte.x50; Byte.x44])
      = Some info /\
    FileInfo.file_type info = "PDF" /\
    str_in "." (FileInfo.file_type info) = false.
Proof.
  set (u := UploadedFile.mk "slides.v2.PDF" "" 3 [Byte.x25; Byte.x50; Byte.x44]).
  set (info := default (FileInfo.mk "" "" 0 None)
                 (get_file_info toy_decode (fun b => string_of_list_byte b) u)).
  assert (Hinfo : get_file_info toy_decode (fun b => string_of_list_byte b) u
                  = Some info) by (vm_compute; reflexivity).
  destruct (get_file_info_spec toy_decode (fun b => string_of_list_byte b) u)
    as [_ Hspec].
  destruct (Hspec info Hinfo) as (_ & _ & _ & _ & _ & Hext).
  destruct (Hext eq_refl) as [Hno _].
  exists info. split; [exact Hinfo|]. split; [vm_compute; reflexivity | exact Hno].
Defined.

(** * The workflow *)

(** ** Strings and dicts *)

Lemma string_app_assoc (a b c : string) : (a ++ b) ++ c = a ++ (b ++ c).
Proof.
  induction a as [|x a IH]; [reflexivity|].
  change (String x ((a ++ b) ++ c) = String x (a ++ (b ++ c))).
  f_equal. exact IH.
Qed.

Lemma string_app_nil_r (a : string) : a ++ "" = a.
Proof.
  induction a as [|x a IH]; [reflexivity|].
  change (String x (a ++ "") = String x a). f_equal. exact IH.
Qed.

Lemma string_length_app (a b : string) :
  String.length (a ++ b) = (String.length a + String.length b)%nat.
Proof.
  induction a as [|x a IH]; [reflexivity|].
  change (S (String.length (a ++ b)) = S (String.length a + String.length b)).
  f_equal. exact IH.
Qed.

Section DictFacts.
Import Workflow.

Lemma setitem_In_same (d : dict) (k v : string) : In (k, v) (setitem d k v).
Proof.
  induction d as [|[k0 v0] rest IH]; cbn [setitem]; [left; reflexivity|].
  destruct (String.eqb_spec k0 k) as [->|Hne]; [left; reflexivity | right; exact IH].
Qed.

Lemma setitem_In_other (d : dict) (k v k' v' : string) :
  k' <> k -> In (k', v') d -> In (k', v') (setitem d k v).
Proof.
  intros Hne. induction d as [|[k0 v0] rest IH]; cbn [setitem]; [intros []|].
  intros [He|Hin].
  - injection He as -> ->.
    destruct (String.eqb_spec k' k) as [He|_]; [congruence | left; reflexivity].
  - destruct (String.eqb_spec k0 k); right; [exact Hin | exact (IH Hin)].
Qed.

Lemma setitem_In_inv (d : dict) (k v k' v' : string) :
  In (k', v') (setitem d k v) -> (k' = k /\ v' = v) \/ In (k', v') d.
Proof.
  induction d as [|[k0 v0] rest IH]; cbn [setitem].
  - intros [He|[]]. injection He as <- <-. left. split; reflexivity.
  - destruct (String.eqb_spec k0 k) as [->|Hne].
    + intros [He|Hin]; [injection He as <- <-; left; split; reflexivity|].
      right. right. exact Hin.
    + intros [He|Hin]; [right; left; exact He|].
      destruct (IH Hin) as [Hs|Hd]; [left; exact Hs | right; right; exact Hd].
Qed.

Lemma setitem_keys (d : dict) (k v : string) :
  In k (List.map fst d) -> List.map fst (setitem d k v) = List.map fst d.
Proof.
  induction d as [|[k0 v0] rest IH]; cbn [setitem List.map fst]; [intros []|].
  destruct (String.eqb_spec k0 k) as [->|Hne]; [reflexivity|].
  intros [He|Hin]; [congruence|]. cbn [List.map fst]. rewrite IH by exact Hin.
  reflexivity.
Qed.

Lemma setitem_new (d : dict) (k v : string) :
  ~ In k (List.map fst d) -> setitem d k v = (d ++ [(k, v)])%list.
Proof.
  induction d as [|[k0 v0] rest IH]; cbn [setitem List.map fst]; [reflexivity|].
  intros Hno. destruct (String.eqb_spec k0 k) as [->|Hne].
  - exfalso. apply Hno. left. reflexivity.
  - cbn [app]. rewrite IH; [reflexivity|]. intros Hin. apply Hno. right. exact Hin.
Qed.

Lemma setitem_NoDup (d : dict) (k v : string) :
  List.NoDup (List.map fst d) -> List.NoDup (List.map fst (setitem d k v)).
Proof.
  intros Hnd. destruct (in_dec string_dec k (List.map fst d)) as [Hin|Hno].
  - rewrite setitem_keys by exact Hin. exact Hnd.
  - rewrite setitem_new by exact Hno. rewrite map_app. cbn [List.map fst].
    apply List.NoDup_app; [exact Hnd | repeat constructor; intros [] |].
    intros x Hx [<-|[]]. exact (Hno Hx).
Qed.
End DictFacts.

(** ** [read_files] *)

Section ReadFacts.
Context `{ext : Externals} `{library : Workflow.Library}.
Import Workflow.

(** The dict that the loop of [read_files] builds, without the messages. *)
Lemma read_file_fold (paths : list string) :
  forall (d : dict) (errs out : list string),
    fold_left read_file paths (d, errs, out) =
    (fold_left
       (fun d p =>
          match _extract_file_content p with
          | Returns content => setitem d p content
          | Raises _ => d
          end) paths d,
     (errs ++ omap read_error paths)%list,
     (out ++ omap read_error paths)%list).
Proof.
  induction paths as [|p rest IH]; intros d errs out.
  - cbn. rewrite !app_nil_r. reflexivity.
  - cbn [fold_left]. unfold read_file at 2.
    change (omap read_error (p :: rest)) with
      (match read_error p with
       | Some m => m :: omap read_error rest
       | None => omap read_error rest
       end).
    assert (Hp : read_error p =
                 match _extract_file_content p with
                 | Returns _ => None
                 | Raises e => Some ("Error reading " ++ p ++ ": " ++ str e)
                 end) by reflexivity.
    destruct (_extract_file_content p) as [content|e]; rewrite Hp, IH.
    + reflexivity.
    + rewrite <- !app_assoc. reflexivity.
Qed.

Lemma read_dict_In (paths : list string) :
  forall d : dict,
    (forall p c, In (p, c) d -> _extract_file_content p = Returns c) ->
    forall p c,
      In (p, c)
        (fold_left
           (fun d p =>
              match _extract_file_content p with
              | Returns content => setitem d p content
              | Raises _ => d
              end) paths d) <->
      In (p, c) d \/ (In p paths /\ _extract_file_content p = Returns c).
Proof.
  induction paths as [|q rest IH]; intros d Hd p c; cbn [fold_left].
  - split; [left; assumption | intros [H|[[] _]]; exact H].
  - destruct (_extract_file_content q) as [content|e] eqn:Hq.
    + rewrite IH.
      * split.
        -- intros [Hin|[Hin Hp]]; [|right; split; [right; exact Hin | exact Hp]].
           apply setitem_In_inv in Hin as [[-> ->]|Hin];
             [right; split; [left; reflexivity | exact Hq] | left; exact Hin].
        -- intros [Hin|[[<-|Hin] Hp]].
           ++ left. destruct (string_dec p q) as [->|Hne].
              ** pose proof (Hd _ _ Hin) as Hc. rewrite Hq in Hc.
                 injection Hc as <-. apply setitem_In_same.
              ** apply setitem_In_other; assumption.
           ++ left. rewrite Hq in Hp. injection Hp as <-. apply setitem_In_same.
           ++ right. split; assumption.
      * intros p' c' Hin. apply setitem_In_inv in Hin as [[-> ->]|Hin];
          [exact Hq | exact (Hd _ _ Hin)].
    + rewrite IH by exact Hd. split.
      * intros [Hin|[Hin Hp]]; [left; exact Hin | right; split; [right|]; assumption].
      * intros [Hin|[[<-|Hin] Hp]]; [left; exact Hin | congruence |
                                     right; split; assumption].
Qed.

Lemma read_dict_NoDup (paths : list string) :
  forall d : dict,
    List.NoDup (List.map fst d) ->
    List.NoDup
      (List.map fst
         (fold_left
            (fun d p =>
               match _extract_file_content p with
               | Returns content => setitem d p content
               | Raises _ => d
               end) paths d)).
Proof.
  induction paths as [|q rest IH]; intros d Hd; cbn [fold_left]; [exact Hd|].
  apply IH. destruct (_extract_file_content q); [apply setitem_NoDup|]; exact Hd.
Qed.

Lemma read_dict_fresh (paths : list string) :
  List.NoDup paths ->
  forall d : dict,
    (forall p, In p paths -> ~ In p (List.map fst d)) ->
    fold_left
      (fun d p =>
         match _extract_file_content p with
         | Returns content => setitem d p content
         | Raises _ => d
         end) paths d =
    (d ++ omap read_item paths)%list.
Proof.
  induction 1 as [|q rest Hq Hnd IH]; intros d Hd; cbn [fold_left].
  - cbn. rewrite app_nil_r. reflexivity.
  - change (omap read_item (q :: rest)) with
      (match read_item q with
       | Some m => m :: omap read_item rest
       | None => omap read_item rest
       end).
    assert (Hi : read_item q =
                 match _extract_file_content q with
                 | Returns content => Some (q, content)
                 | Raises _ => None
                 end) by reflexivity.
    destruct (_extract_file_content q) as [content|e]; rewrite Hi.
    + rewrite setitem_new by (apply Hd; left; reflexivity).
      rewrite IH; [rewrite <- app_assoc; reflexivity|].
      intros p Hp Hin. rewrite map_app in Hin. apply in_app_or in Hin as [Hin|Hin].
      * apply (Hd p); [right; exact Hp | exact Hin].
      * destruct Hin as [<-|[]]. exact (Hq Hp).
    + apply IH. intros p Hp. apply Hd. right. exact Hp.
Qed.

(** The messages and the items that the loop of [read_files] leaves in
    the state. *)
Lemma read_files_items (state : WorkflowState.t) :
  let state' := fst (read_files state) in
  WorkflowState.error_messages state' =
    (WorkflowState.error_messages state ++
     omap read_error (WorkflowState.input_files state))%list /\
  (forall p c,
     In (p, c) (WorkflowState.file_contents state') <->
     In p (WorkflowState.input_files state) /\
     _extract_file_content p = Returns c) /\
  WorkflowState.input_files state' = WorkflowState.input_files state.
Proof.
  unfold read_files. rewrite read_file_fold. cbn [fst snd app].
  cbn [WorkflowState.error_messages WorkflowState.file_contents
       WorkflowState.input_files].
  split; [reflexivity|]. split; [|reflexivity].
  intros p c. rewrite read_dict_In by (intros ? ? []).
  split; [intros [[]|H]; exact H | intros H; right; exact H].
Qed.

(** X20: [read_files] adds one message for each path of [input_files] that
    cannot be read, in their order and after the messages that were there,
    and prints these same messages. The dict it returns is a new one: its
    keys are all different, and it maps a path to a content exactly when
    the path is one of [input_files] and is read with that content; when
    no path is given twice its items are those of the paths read, in the
    order of [input_files]. The other keys of the state are as they
    were. *)
Theorem read_files_spec (state : WorkflowState.t) :
  let state' := fst (read_files state) in
  let stdout := snd (read_files state) in
  WorkflowState.error_messages state' =
    (WorkflowState.error_messages state ++
     omap read_error (WorkflowState.input_files state))%list /\
  stdout = omap read_error (WorkflowState.input_files state) /\
  List.NoDup (List.map fst (WorkflowState.file_contents state')) /\
  (forall p c,
     In (p, c) (WorkflowState.file_contents state') <->
     In p (WorkflowState.input_files state) /\
     _extract_file_content p = Returns c) /\
  (List.NoDup (WorkflowState.input_files state) ->
   WorkflowState.file_contents state' =
     omap read_item (WorkflowState.input_files state)) /\
  WorkflowState.input_files state' = WorkflowState.input_files state /\
  WorkflowState.processed_content state' =
    WorkflowState.processed_content state /\
  WorkflowState.comprehensive_notes state' =
    WorkflowState.comprehensive_notes state.
Proof.
  unfold read_files. rewrite read_file_fold. cbn [fst snd app].
  cbn [WorkflowState.error_messages WorkflowState.file_contents
       WorkflowState.input_files WorkflowState.processed_content
       WorkflowState.comprehensive_notes].
  split; [reflexivity|]. split; [reflexivity|].
  split; [apply read_dict_NoDup; constructor|].
  split.
  - intros p c. rewrite read_dict_In by (intros ? ? []).
    split; [intros [[]|H]; exact H | intros H; right; exact H].
  - split; [|repeat split].
    intros Hnd. rewrite read_dict_fresh; [reflexivity | exact Hnd |].
    intros p _ [].
Qed.

Lemma omap_In {A B : Type} (f : A -> option B) (l : list A) (a : A) (b : B) :
  In a l -> f a = Some b -> In b (omap f l).
Proof.
  intros Hin Hf. apply list_elem_of_In. apply list_elem_of_omap.
  exists a. split; [apply list_elem_of_In; exact Hin | exact Hf].
Qed.

(** X21: a path of [input_files] that does not exist is reported as not found,
    whatever its suffix, and no reader is called on it; a path that exists
    with a suffix that is, in lower case, none of [.txt], [.pdf] and
    [.json] is reported as unsupported, with the suffix as it is written.
    Neither becomes a key of the dict. A path that is read exists and has
    one of the three suffixes, in any case of the letters. *)
Theorem read_files_unreadable (state : WorkflowState.t) (p : string) :
  In p (WorkflowState.input_files state) ->
  let state' := fst (read_files state) in
  (path_exists p = false ->
   In ("Error reading " ++ p ++ ": File not found: " ++ path_str p)
      (WorkflowState.error_messages state') /\
   ~ In p (List.map fst (WorkflowState.file_contents state'))) /\
  (path_exists p = true ->
   lower (path_suffix p) <> ".txt" -> lower (path_suffix p) <> ".pdf" ->
   lower (path_suffix p) <> ".json" ->
   In ("Error reading " ++ p ++ ": Unsupported file type: " ++ path_suffix p)
      (WorkflowState.error_messages state') /\
   ~ In p (List.map fst (WorkflowState.file_contents state'))) /\
  (In p (List.map fst (WorkflowState.file_contents state')) ->
   path_exists p = true /\
   (lower (path_suffix p) = ".txt" \/ lower (path_suffix p) = ".pdf" \/
    lower (path_suffix p) = ".json")).
Proof.
  intros Hin state'.
  destruct (read_files_items state) as (Herr & Hitems & _).
  fold state' in Herr, Hitems.
  assert (Hraise : forall e,
            _extract_file_content p = Raises e ->
            In ("Error reading " ++ p ++ ": " ++ str e)
               (WorkflowState.error_messages state') /\
            ~ In p (List.map fst (WorkflowState.file_contents state'))).
  { intros e He. split.
    - rewrite Herr. apply in_or_app. right. apply (omap_In _ _ p); [exact Hin|].
      unfold read_error. rewrite He. reflexivity.
    - intros Hk. apply in_map_iff in Hk as ([p' c] & Hp & Hk). cbn [fst] in Hp.
      subst p'. apply Hitems in Hk as [_ Hk]. congruence. }
  split; [|split].
  - intros Hex. apply (Hraise (FileNotFoundError _)).
    unfold _extract_file_content. rewrite Hex. reflexivity.
  - intros Hex Htxt Hpdf Hjson. apply (Hraise (ValueError _)).
    unfold _extract_file_content. rewrite Hex. cbn [negb].
    apply String.eqb_neq in Htxt, Hpdf, Hjson. rewrite Htxt, Hpdf, Hjson.
    reflexivity.
  - intros Hk. apply in_map_iff in Hk as ([p' c] & Hp & Hk). cbn [fst] in Hp.
    subst p'. apply Hitems in Hk as [_ Hk]. unfold _extract_file_content in Hk.
    destruct (path_exists p); [|discriminate Hk]. split; [reflexivity|].
    cbn [negb] in Hk.
    destruct (String.eqb_spec (lower (path_suffix p)) ".txt"); [left; assumption|].
    destruct (String.eqb_spec (lower (path_suffix p)) ".pdf");
      [right; left; assumption|].
    destruct (String.eqb_spec (lower (path_suffix p)) ".json");
      [right; right; assumption | discriminate Hk].
Qed.

Lemma fold_pages (pages : list string) :
  forall text,
    fold_left (fun text page => text ++ (page ++ nl)) pages text =
    text ++ fold_left (fun text page => text ++ (page ++ nl)) pages "".
Proof.
  induction pages as [|page rest IH]; intros text; cbn [fold_left].
  - rewrite string_app_nil_r. reflexivity.
  - rewrite (IH (text ++ (page ++ nl))), (IH ("" ++ (page ++ nl))).
    change ("" ++ (page ++ nl)) with (page ++ nl).
    rewrite (string_app_assoc text (page ++ nl)). reflexivity.
Qed.

Lemma concat_empty_cons (x : string) (l : list string) :
  String.concat "" (x :: l) = x ++ String.concat "" l.
Proof.
  destruct l; cbn [String.concat]; [rewrite string_app_nil_r|]; reflexivity.
Qed.

Lemma fold_pages_concat (pages : list string) :
  fold_left (fun text page => text ++ (page ++ nl)) pages "" =
  String.concat "" (List.map (fun page => page ++ nl) pages).
Proof.
  induction pages as [|page rest IH]; [reflexivity|].
  cbn [fold_left List.map]. rewrite fold_pages, concat_empty_cons, IH.
  reflexivity.
Qed.

Lemma fold_pages_length (pages : list string) :
  forall text,
    String.length
      (fold_left (fun text page => text ++ (page ++ nl)) pages text) =
    (String.length text +
     (list_sum (List.map String.length pages) + length pages))%nat.
Proof.
  induction pages as [|page rest IH]; intros text; cbn [fold_left].
  - cbn. lia.
  - rewrite IH, !string_length_app.
    change (String.length nl) with 1%nat.
    change (list_sum (List.map String.length (page :: rest)))
      with (String.length page + list_sum (List.map String.length rest))%nat.
    change (length (page :: rest)) with (S (length rest)). lia.
Qed.

(** X22: the text of a PDF is the texts of its pages in order, each followed
    by one newline: a PDF of no page gives the empty text, and the text
    has one character more per page than the pages have together. *)
Theorem read_pdf_file_pages (file_path : string) (pages : list string) :
  pdf_page_texts file_path = Returns pages ->
  exists text,
    _read_pdf_file file_path = Returns text /\
    text = String.concat "" (List.map (fun page => page ++ nl) pages) /\
    String.length text =
      (list_sum (List.map String.length pages) + length pages)%nat /\
    (pages = [] -> text = "").
Proof.
  intros Hp. unfold _read_pdf_file. rewrite Hp. eexists. split; [reflexivity|].
  split; [apply fold_pages_concat|]. split; [|intros ->; reflexivity].
  rewrite fold_pages_length. reflexivity.
Qed.
End ReadFacts.

Lemma read_files_spec_witness :
  let state :=
    {| Workflow.WorkflowState.input_files :=
         ["a.txt"; "missing.txt"; "b.PDF"; "c.doc"];
       Workflow.WorkflowState.file_contents := [("old.txt", "stale")];
       Workflow.WorkflowState.processed_content := "";
       Workflow.WorkflowState.comprehensive_notes := "";
       Workflow.WorkflowState.error_messages := ["earlier"] |} in
  List.NoDup (Workflow.WorkflowState.input_files state) /\
  Workflow.WorkflowState.error_messages
    (fst (Workflow.read_files (ext := toy_externals)
            (library := Workflow.toy_library) state)) =
    ["earlier"; "Error reading missing.txt: File not found: missing.txt";
     "Error reading c.doc: Unsupported file type: .doc"] /\
  Workflow.WorkflowState.file_contents
    (fst (Workflow.read_files (ext := toy_externals)
            (library := Workflow.toy_library) state)) =
    [("a.txt", "hello");
     ("b.PDF", "one" ++ Workflow.nl ++ "two" ++ Workflow.nl)].
Proof.
  intros state.
  assert (Hnd : List.NoDup (Workflow.WorkflowState.input_files state)).
  { change (List.NoDup ["a.txt"; "missing.txt"; "b.PDF"; "c.doc"]).
    repeat constructor; intros Hin; repeat destruct Hin as [Hin|Hin];
      try discriminate Hin; exact Hin. }
  destruct (read_files_spec (ext := toy_externals)
              (library := Workflow.toy_library) state)
    as (Herr & _ & _ & _ & Hitems & _).
  split; [exact Hnd|]. split.
  - rewrite Herr. vm_compute. reflexivity.
  - rewrite (Hitems Hnd). vm_compute. reflexivity.
Defined.

Lemma read_files_unreadable_witness :
  let state :=
    {| Workflow.WorkflowState.input_files := ["a.txt"; "missing.pdf"; "c.doc"];
       Workflow.WorkflowState.file_contents := [];
       Workflow.WorkflowState.processed_content := "";
       Workflow.WorkflowState.comprehensive_notes := "";
       Workflow.WorkflowState.error_messages := [] |} in
  In "missing.pdf" (Workflow.WorkflowState.input_files state) /\
  Workflow.path_exists (Library := Workflow.toy_library) "missing.pdf" = false /\
  In "Error reading missing.pdf: File not found: missing.pdf"
    (Workflow.WorkflowState.error_messages
       (fst (Workflow.read_files (ext := toy_externals)
               (library := Workflow.toy_library) state))) /\
  In "Error reading c.doc: Unsupported file type: .doc"
    (Workflow.WorkflowState.error_messages
       (fst (Workflow.read_files (ext := toy_externals)
               (library := Workflow.toy_library) state))).
Proof.
  intros state.
  assert (Hin : In "missing.pdf" (Workflow.WorkflowState.input_files state))
    by (right; left; reflexivity).
  assert (Hin' : In "c.doc" (Workflow.WorkflowState.input_files state))
    by (right; right; left; reflexivity).
  assert (Hex : Workflow.path_exists (Library := Workflow.toy_library)
                  "missing.pdf" = false) by (vm_compute; reflexivity).
  split; [exact Hin|]. split; [exact Hex|]. split.
  - destruct (read_files_unreadable (ext := toy_externals)
                (library := Workflow.toy_library) state "missing.pdf" Hin)
      as (Hmissing & _).
    exact (proj1 (Hmissing Hex)).
  - destruct (read_files_unreadable (ext := toy_externals)
                (library := Workflow.toy_library) state "c.doc" Hin')
      as (_ & Hunsupported & _).
    apply Hunsupported; vm_compute; [reflexivity | | |]; discriminate.
Defined.

Lemma read_pdf_file_pages_witness :
  Workflow.pdf_page_texts (Library := Workflow.toy_library) "b.PDF" =
    Workflow.Returns ["one"; "two"] /\
  exists text,
    Workflow._read_pdf_file (library := Workflow.toy_library) "b.PDF" =
      Workflow.Returns text /\
    String.length text = 8%nat.
Proof.
  assert (Hp : Workflow.pdf_page_texts (Library := Workflow.toy_library) "b.PDF"
               = Workflow.Returns ["one"; "two"]) by reflexivity.
  split; [exact Hp|].
  destruct (read_pdf_file_pages (library := Workflow.toy_library) "b.PDF"
              ["one"; "two"] Hp) as (text & Ht & _ & Hl & _).
  exists text. split; [exact Ht | exact Hl].
Defined.

(** ** [process_content], [generate_notes] and [run] *)

Section RunFacts.
Context `{ext : Externals} `{library : Workflow.Library}.
Import Workflow.

Lemma add_file_app (combined : string) (item : string * string) :
  add_file combined item = combined ++ add_file "" item.
Proof.
  destruct item as [file_path content]. unfold add_file.
  rewrite !string_app_assoc. reflexivity.
Qed.

Lemma fold_add_file (items : dict) :
  forall combined,
    fold_left add_file items combined =
    combined ++ fold_left add_file items "".
Proof.
  induction items as [|item rest IH]; intros combined; cbn [fold_left].
  - rewrite string_app_nil_r. reflexivity.
  - rewrite (IH (add_file combined item)), (IH (add_file "" item)).
    rewrite (add_file_app combined item).
    rewrite (string_app_assoc combined (add_file "" item)). reflexivity.
Qed.

Lemma add_file_length (file_path content : string) :
  String.length (add_file "" (file_path, content)) =
  (111 + String.length file_path + String.length content)%nat.
Proof.
  unfold add_file. rewrite !string_length_app.
  change (String.length (str_mul "=" 50)) with 50%nat.
  change (String.length nl) with 1%nat.
  change (String.length "FILE: ") with 6%nat.
  change (String.length "") with 0%nat. lia.
Qed.

Lemma fold_add_file_length (items : dict) :
  String.length (fold_left add_file items "") =
  list_sum
    (List.map
       (fun item => (111 + String.length (fst item) + String.length (snd item))%nat)
       items).
Proof.
  induction items as [|[file_path content] rest IH]; [reflexivity|].
  cbn [fold_left]. rewrite fold_add_file, string_length_app, IH, add_file_length.
  reflexivity.
Qed.

(** X23: [process_content] writes one block per item of the dict, in its
    order, whatever [processed_content] held: the text has 111 characters
    per item more than the paths and contents together, it is empty
    exactly when the dict is, and every item is there under its own
    header: the line [FILE: ] with the path, the rule of 50 signs [=],
    then the whole content and a newline. The other keys are as they
    were. *)
Theorem process_content_spec (state : WorkflowState.t) :
  let state' := process_content state in
  String.length (WorkflowState.processed_content state') =
    list_sum
      (List.map
         (fun item =>
            (111 + String.length (fst item) + String.length (snd item))%nat)
         (WorkflowState.file_contents state)) /\
  (WorkflowState.processed_content state' = "" <->
   WorkflowState.file_contents state = []) /\
  (forall file_path content,
     In (file_path, content) (WorkflowState.file_contents state) ->
     str_in
       ("FILE: " ++ file_path ++ nl ++ str_mul "=" 50 ++ nl ++ content ++ nl)
       (WorkflowState.processed_content state') = true) /\
  WorkflowState.input_files state' = WorkflowState.input_files state /\
  WorkflowState.file_contents state' = WorkflowState.file_contents state /\
  WorkflowState.comprehensive_notes state' =
    WorkflowState.comprehensive_notes state /\
  WorkflowState.error_messages state' = WorkflowState.error_messages state.
Proof.
  cbn zeta. unfold process_content.
  cbn [WorkflowState.processed_content WorkflowState.input_files
       WorkflowState.file_contents WorkflowState.comprehensive_notes
       WorkflowState.error_messages].
  split; [apply fold_add_file_length|]. split; [|split; [|repeat split]].
  - split.
    + intros He. pose proof (fold_add_file_length (WorkflowState.file_contents state))
        as Hl. rewrite He in Hl.
      destruct (WorkflowState.file_contents state) as [|item rest];
        [reflexivity|].
      cbn [List.map list_sum String.length] in Hl. 
      change (list_sum (?x :: ?l)) with (x + list_sum l)%nat in Hl. lia.
    + intros ->. reflexivity.
  - intros file_path content Hin. apply in_split in Hin as (before & after & ->).
    apply str_in_spec.
    exists (fold_left add_file before "" ++ nl ++ str_mul "=" 50 ++ nl).
    exists (fold_left add_file after "").
    rewrite fold_left_app. cbn [fold_left].
    rewrite fold_add_file, (add_file_app (fold_left add_file before "")).
    unfold add_file. rewrite !string_app_assoc. reflexivity.
Qed.

Lemma generate_notes_keeps (state : WorkflowState.t) :
  WorkflowState.input_files (generate_notes state) =
    WorkflowState.input_files state /\
  WorkflowState.file_contents (generate_notes state) =
    WorkflowState.file_contents state /\
  WorkflowState.processed_content (generate_notes state) =
    WorkflowState.processed_content state.
Proof. unfold generate_notes. destruct (llm_invoke _ _); repeat split. Qed.

Lemma omap_nil_iff {A B : Type} (f : A -> option B) (l : list A) :
  omap f l = [] <-> forall a, In a l -> f a = None.
Proof.
  induction l as [|x rest IH].
  - split; [intros _ a [] | reflexivity].
  - change (omap f (x :: rest)) with
      (match f x with Some y => y :: omap f rest | None => omap f rest end).
    destruct (f x) as [y|] eqn:Hx.
    + split; [discriminate|]. intros H.
      specialize (H x (or_introl eq_refl)). congruence.
    + rewrite IH. split.
      * intros H a [<-|Ha]; [exact Hx | exact (H a Ha)].
      * intros H a Ha. apply H. right. exact Ha.
Qed.

(** The state that [run] returns, node by node. *)
Lemma run_cases (input_files : list string) :
  let result := run input_files in
  let prompt := user_prompt (WorkflowState.processed_content result) in
  WorkflowState.input_files result = input_files /\
  (forall p c,
     In (p, c) (WorkflowState.file_contents result) <->
     In p input_files /\ _extract_file_content p = Returns c) /\
  WorkflowState.processed_content result =
    fold_left add_file (WorkflowState.file_contents result) "" /\
  match llm_invoke system_prompt prompt with
  | Returns content =>
      WorkflowState.comprehensive_notes result = content /\
      WorkflowState.error_messages result = omap read_error input_files
  | Raises e =>
      WorkflowState.comprehensive_notes result =
        "Failed to generate notes due to error: Error generating notes: "
        ++ str e /\
      WorkflowState.error_messages result =
        (omap read_error input_files
         ++ [("Error generating notes: " ++ str e)%string])%list
  end.
Proof.
  intros result prompt. unfold run in result.
  set (initial_state :=
         {| WorkflowState.input_files := input_files;
            WorkflowState.file_contents := [];
            WorkflowState.processed_content := "";
            WorkflowState.comprehensive_notes := "";
            WorkflowState.error_messages := [] |}) in *.
  destruct (read_files_items initial_state) as (Herr & Hitems & Hfiles).
  set (read := fst (read_files initial_state)) in *.
  cbn [initial_state WorkflowState.input_files WorkflowState.error_messages app]
    in Herr, Hitems, Hfiles.
  destruct (generate_notes_keeps (process_content read)) as (Kin & Kfc & Kpc).
  fold result in Kin, Kfc, Kpc.
  cbn [process_content WorkflowState.input_files WorkflowState.file_contents
       WorkflowState.processed_content] in Kin, Kfc, Kpc.
  assert (Hcases :
            match llm_invoke system_prompt prompt with
            | Returns content =>
                WorkflowState.comprehensive_notes result = content /\
                WorkflowState.error_messages result = omap read_error input_files
            | Raises e =>
                WorkflowState.comprehensive_notes result =
                  "Failed to generate notes due to error: Error generating notes: "
                  ++ str e /\
                WorkflowState.error_messages result =
                  (omap read_error input_files
                   ++ [("Error generating notes: " ++ str e)%string])%list
            end).
  { unfold prompt. rewrite Kpc. unfold result, generate_notes.
    cbn [process_content WorkflowState.processed_content
         WorkflowState.error_messages].
    destruct (llm_invoke system_prompt
                (user_prompt
                   (fold_left add_file (WorkflowState.file_contents read) "")))
      as [content|e];
      cbn [WorkflowState.comprehensive_notes WorkflowState.error_messages];
      rewrite Herr; split; reflexivity. }
  split; [rewrite Kin; exact Hfiles|].
  split; [intros p c; rewrite Kfc; apply Hitems|].
  split; [rewrite Kpc, Kfc; reflexivity|].
  exact Hcases.
Qed.

(** X24: [run] reads, combines and generates, in this order. The state it
    returns has the [input_files] given, the dict of the paths read, and
    the text combined from that dict; the chat model is called once, on
    the prompt built from the text, even when nothing was read. Its
    answer is the notes; when the call raises, the notes are the sentence
    that reports the failure and the failure is the last message. The
    messages are those of the paths that could not be read, in the order
    of [input_files], and then that of the failed call if any: there is no
    message exactly when every path was read and the call returned. *)
Theorem run_spec (input_files : list string) :
  let result := run input_files in
  let prompt := user_prompt (WorkflowState.processed_content result) in
  WorkflowState.input_files result = input_files /\
  (forall p c,
     In (p, c) (WorkflowState.file_contents result) <->
     In p input_files /\ _extract_file_content p = Returns c) /\
  WorkflowState.processed_content result =
    fold_left add_file (WorkflowState.file_contents result) "" /\
  match llm_invoke system_prompt prompt with
  | Returns content =>
      WorkflowState.comprehensive_notes result = content /\
      WorkflowState.error_messages result = omap read_error input_files
  | Raises e =>
      WorkflowState.comprehensive_notes result =
        "Failed to generate notes due to error: Error generating notes: "
        ++ str e /\
      WorkflowState.error_messages result =
        (omap read_error input_files
         ++ [("Error generating notes: " ++ str e)%string])%list
  end /\
  (WorkflowState.error_messages result = [] <->
   (forall p, In p input_files -> exists c, _extract_file_content p = Returns c) /\
   exists content, llm_invoke system_prompt prompt = Returns content).
Proof.
  intros result prompt.
  destruct (run_cases input_files) as (Hin & Hitems & Hpc & Hcases).
  fold result in Hin, Hitems, Hpc, Hcases. fold prompt in Hcases.
  split; [exact Hin|]. split; [exact Hitems|]. split; [exact Hpc|].
  split; [exact Hcases|].
  assert (Hread : omap read_error input_files = [] <->
                  forall p, In p input_files ->
                            exists c, _extract_file_content p = Returns c).
  { rewrite omap_nil_iff. split; intros H p Hp; specialize (H p Hp).
    - unfold read_error in H. destruct (_extract_file_content p); [eauto|discriminate].
    - unfold read_error. destruct H as [c ->]. reflexivity. }
  destruct (llm_invoke system_prompt prompt) as [content|e].
  - destruct Hcases as [_ ->]. rewrite Hread. split; [intros H; eauto|intros [H _]; exact H].
  - destruct Hcases as [_ ->]. split.
    + intros H. apply app_eq_nil in H as [_ H]. discriminate.
    + intros [_ [content H]]. discriminate.
Qed.

(** X25: when no path can be read, and so when no path is given, [run] still
    calls the chat model, on the prompt of an empty text: the dict and the
    combined text are empty, every path has its message, and the notes are
    whatever the model answers to that prompt. *)
Theorem run_nothing_read (input_files : list string) :
  (forall p, In p input_files -> exists e, _extract_file_content p = Raises e) ->
  let result := run input_files in
  WorkflowState.file_contents result = [] /\
  WorkflowState.processed_content result = "" /\
  (length input_files <= length (WorkflowState.error_messages result))%nat /\
  (forall content,
     llm_invoke system_prompt (user_prompt "") = Returns content ->
     WorkflowState.comprehensive_notes result = content).
Proof.
  intros Hnone result.
  destruct (run_cases input_files) as (_ & Hitems & Hpc & Hcases).
  fold result in Hitems, Hpc, Hcases.
  assert (Hfc : WorkflowState.file_contents result = []).
  { destruct (WorkflowState.file_contents result) as [|[p c] rest]; [reflexivity|].
    destruct (proj1 (Hitems p c) (or_introl eq_refl)) as [Hin Hc].
    destruct (Hnone p Hin) as [e He]. congruence. }
  rewrite Hfc in Hpc. cbn [fold_left] in Hpc. rewrite Hpc in Hcases.
  assert (Hlen : length (omap read_error input_files) = length input_files).
  { clear -Hnone. induction input_files as [|p rest IH]; [reflexivity|].
    change (omap read_error (p :: rest)) with
      (match read_error p with
       | Some m => m :: omap read_error rest
       | None => omap read_error rest
       end).
    destruct (Hnone p (or_introl eq_refl)) as [e He].
    assert (Hp : read_error p = Some ("Error reading " ++ p ++ ": " ++ str e))
      by (unfold read_error; rewrite He; reflexivity).
    rewrite Hp. cbn [length]. rewrite IH; [reflexivity|].
    intros q Hq. apply Hnone. right. exact Hq. }
  split; [exact Hfc|]. split; [exact Hpc|]. split.
  - destruct (llm_invoke system_prompt (user_prompt "")) as [content|e];
      destruct Hcases as [_ ->]; [|rewrite length_app]; rewrite Hlen; lia.
  - intros content Hc. rewrite Hc in Hcases. exact (proj1 Hcases).
Qed.
End RunFacts.

Lemma process_content_spec_witness :
  let state :=
    {| Workflow.WorkflowState.input_files := ["a.txt"];
       Workflow.WorkflowState.file_contents := [("a.txt", "hello")];
       Workflow.WorkflowState.processed_content := "stale";
       Workflow.WorkflowState.comprehensive_notes := "";
       Workflow.WorkflowState.error_messages := [] |} in
  In ("a.txt", "hello") (Workflow.WorkflowState.file_contents state) /\
  String.length
    (Workflow.WorkflowState.processed_content (Workflow.process_content state))
    = 121%nat /\
  str_in
    ("FILE: a.txt" ++ Workflow.nl ++ Workflow.str_mul "=" 50 ++ Workflow.nl
     ++ "hello" ++ Workflow.nl)
    (Workflow.WorkflowState.processed_content (Workflow.process_content state))
    = true.
Proof.
  intros state.
  assert (Hin : In ("a.txt", "hello") (Workflow.WorkflowState.file_contents state))
    by (left; reflexivity).
  destruct (process_content_spec state) as (Hlen & _ & Hblock & _).
  split; [exact Hin|]. split; [rewrite Hlen; reflexivity|].
  exact (Hblock "a.txt" "hello" Hin).
Defined.

Lemma run_spec_witness :
  Workflow.WorkflowState.error_messages
    (Workflow.run (ext := toy_externals) (library := Workflow.toy_library)
       ["a.txt"]) = [] /\
  Workflow.WorkflowState.comprehensive_notes
    (Workflow.run (ext := toy_externals) (library := Workflow.toy_library)
       ["a.txt"]) = "# Notes".
Proof.
  destruct (run_spec (ext := toy_externals) (library := Workflow.toy_library)
              ["a.txt"]) as (_ & _ & _ & Hcases & Hnone).
  assert (Hllm : Workflow.llm_invoke (Library := Workflow.toy_library)
                   (Workflow.system_prompt (Library := Workflow.toy_library))
                   (Workflow.user_prompt
                      (Workflow.WorkflowState.processed_content
                         (Workflow.run (ext := toy_externals)
                            (library := Workflow.toy_library) ["a.txt"])))
                 = Workflow.Returns "# Notes") by (vm_compute; reflexivity).
  split.
  - apply Hnone. split; [|exists "# Notes"; exact Hllm].
    intros p [<-|[]]. exists "hello". vm_compute. reflexivity.
  - rewrite Hllm in Hcases. exact (proj1 Hcases).
Defined.

Lemma run_nothing_read_witness :
  (forall p, In p ["missing.txt"; "c.doc"] ->
     exists e,
       Workflow._extract_file_content (ext := toy_externals)
         (library := Workflow.toy_library) p = Workflow.Raises e) /\
  Workflow.WorkflowState.processed_content
    (Workflow.run (ext := toy_externals) (library := Workflow.toy_library)
       ["missing.txt"; "c.doc"]) = "" /\
  Workflow.WorkflowState.comprehensive_notes
    (Workflow.run (ext := toy_externals) (library := Workflow.toy_library)
       ["missing.txt"; "c.doc"]) = "# Notes".
Proof.
  assert (Hnone : forall p, In p ["missing.txt"; "c.doc"] ->
            exists e,
              Workflow._extract_file_content (ext := toy_externals)
                (library := Workflow.toy_library) p = Workflow.Raises e).
  { intros p [<-|[<-|[]]]; eexists; vm_compute; reflexivity. }
  destruct (run_nothing_read (ext := toy_externals)
              (library := Workflow.toy_library) ["missing.txt"; "c.doc"] Hnone)
    as (_ & Hpc & _ & Hnotes).
  split; [exact Hnone|]. split; [exact Hpc|].
  apply Hnotes. vm_compute. reflexivity.
Defined.

(** ** From the result of [run] to the ledger *)

Section CompletionOfFacts.
Context `{ext : Externals}.
Import Workflow.

(** X26: what [process_files] hands to [complete_processing_session] after a
    run, and what the ledger then holds for a session of the table. With
    no message the run is a success with no error text, and notes that
    are not empty get their note row. With a message, be it for one file
    among many that were read, the run is recorded as failed with the
    messages joined by ["; "], and no note row is written: the notes that
    were generated are counted in [notes_length] but are not stored. *)
Theorem completion_of_spec (result : WorkflowState.t) (db : database)
    (sid : string) (session : ProcessingSession.t) (time : float)
    (db' : database) :
  let success := fst (fst (completion_of result)) in
  let notes_content := snd (fst (completion_of result)) in
  let error_message := snd (completion_of result) in
  query_session db sid = Some session ->
  complete_processing_session db sid success notes_content time error_message
    = Ok (tt, db') ->
  notes_content = WorkflowState.comprehensive_notes result /\
  (WorkflowState.error_messages result = [] ->
   success = true /\ error_message = None /\
   (notes_content <> "" ->
    generated_notes db' =
      (generated_notes db ++ [notes_record sid notes_content])%list)) /\
  (WorkflowState.error_messages result <> [] ->
   success = false /\
   error_message =
     Some (String.concat "; " (WorkflowState.error_messages result)) /\
   generated_notes db' = generated_notes db) /\
  exists session',
    query_session db' sid = Some session' /\
    ProcessingSession.success session' = success /\
    ProcessingSession.notes_length session' = len notes_content /\
    ProcessingSession.error_message session' = error_message.
Proof.
  intros success notes_content error_message Hq Hc.
  apply complete_processing_session_inv in Hc
    as [[Hnone _]|(s0 & out & cost & Hq0 & _ & _ & ->)]; [congruence|].
  rewrite Hq in Hq0. injection Hq0 as <-.
  cbn [generated_notes].
  split; [reflexivity|]. split; [|split].
  - intros He. unfold success, error_message, notes_content, completion_of.
    rewrite He. cbn [fst snd andb]. split; [reflexivity|]. split; [reflexivity|].
    intros Hne. apply truthy_true in Hne. rewrite Hne. reflexivity.
  - intros He. unfold success, error_message, completion_of.
    destruct (WorkflowState.error_messages result) as [|m rest]; [congruence|].
    cbn [fst snd andb]. repeat split.
  - exists (completed session success time out cost notes_content error_message).
    split; [|split; [reflexivity|split; [apply notes_length_completed|reflexivity]]].
    unfold query_session. cbn [processing_sessions].
    apply (find_update_session sid
             (fun s => completed s success time out cost notes_content
                         error_message)); [reflexivity | exact Hq].
Qed.
End CompletionOfFacts.

Lemma completion_of_spec_witness :
  let result :=
    Workflow.run (ext := toy_externals) (library := Workflow.toy_library)
      ["a.txt"; "missing.txt"] in
  let db' :=
    committed toy_db
      (complete_processing_session (ext := toy_externals) toy_db "#5"
         (fst (fst (Workflow.completion_of result)))
         (snd (fst (Workflow.completion_of result)))
         (PyFloat.literal 15 1)
         (snd (Workflow.completion_of result))) in
  Workflow.WorkflowState.error_messages result <> [] /\
  snd (fst (Workflow.completion_of result)) = "# Notes" /\
  generated_notes db' = generated_notes toy_db /\
  exists session',
    query_session db' "#5" = Some session' /\
    ProcessingSession.success session' = false /\
    ProcessingSession.notes_length session' = 7 /\
    ProcessingSession.error_message session' =
      Some "Error reading missing.txt: File not found: missing.txt".
Proof.
  intros result db'.
  assert (He : Workflow.WorkflowState.error_messages result <> [])
    by (vm_compute; discriminate).
  destruct (completion_of_spec (ext := toy_externals) result toy_db "#5"
              (default (toy_session "" 0 "") (query_session toy_db "#5"))
              (PyFloat.literal 15 1) db')
    as (Hn & _ & Herr & session' & Hq & Hs & Hl & Hm).
  - vm_compute. reflexivity.
  - vm_compute. reflexivity.
  - destruct (Herr He) as (Hsucc & Hmsg & Hnotes).
    split; [exact He|]. split; [vm_compute; reflexivity|].
    split; [exact Hnotes|].
    exists session'. split; [exact Hq|].
    split; [rewrite Hs; exact Hsucc|].
    split; [rewrite Hl; vm_compute; reflexivity|].
    rewrite Hm, Hmsg. vm_compute. reflexivity.
Defined.
